(** * Event schema checkers of [zerver/lib/event_schema.py]

    A shallow embedding of the event checkers that the Zulip test suite
    runs over the events of the server-to-client push system, and the
    properties of these checkers.

    Layout:
    - [Py]: the fragment of Python's data model the checkers compute with
      (values, [==], [len], [isinstance], subscripting, exceptions);
    - [Pydantic]: field types and strict validation of a model;
    - [Run]: the exception-and-output monad the checkers run in;
    - [EventSchema]: the functions of [event_schema.py];
    - [Fixtures]: concrete schemas and events on which the checkers are run;
    - the theorems. *)

From Stdlib Require Import ZArith List Bool Lia.
From stdpp Require Import base decidable option list strings pretty gmap sets.

Set Warnings "-register-all".

Local Open Scope Z_scope.
Local Open Scope string_scope.

(* ===================================================================== *)
(** ** Python values *)
(* ===================================================================== *)

Module Py.

(** The events are JSON-like data: [None], booleans, integers, strings,
    lists, tuples and dictionaries with string keys.  A dictionary keeps its
    insertion order, so it is a list of bindings; a lookup takes the first
    binding of a key, and a dictionary built by Python has one binding per
    key. *)
Inductive pyval : Type :=
| VNone
| VBool (b : bool)
| VInt (n : Z)
| VStr (s : string)
| VList (xs : list pyval)
| VTuple (xs : list pyval)
| VDict (kvs : list (string * pyval)).

Abbreviation pydict := (list (string * pyval)).

(** The classes [type(v)] can return on these values. *)
Inductive pyclass : Type :=
| CNoneType | CBool | CInt | CStr | CList | CTuple | CDict.

#[global] Instance pyclass_eq_dec : EqDecision pyclass.
Proof. solve_decision. Defined.

(** Exceptions the checkers raise.  [ValueError] carries the set that
    [validate_with_model] formats into its message; [AssertionError] carries
    the message of a [raise AssertionError(...)] and the empty string for a
    failed [assert]. *)
Inductive exn : Type :=
| ValueError (extra : gset string)
| ValidationError
| AssertionError (msg : string)
| KeyError (key : string)
| IndexError
| TypeError
| AttributeError.

#[global] Instance exn_eq_dec : EqDecision exn.
Proof. solve_decision. Defined.

(** A call either raises or returns. *)
Definition result (A : Type) : Type := exn + A.
Definition Raise {A} (e : exn) : result A := inl e.
Definition Return {A} (a : A) : result A := inr a.

#[global] Instance result_ret : MRet result := fun A (a : A) => inr a.
#[global] Instance result_bind : MBind result :=
  fun A B (k : A -> result B) (r : result A) =>
    match r with
    | inr a => k a
    | inl e => inl e
    end.

(** [type(v)] *)
Definition type_of (v : pyval) : pyclass :=
  match v with
  | VNone => CNoneType
  | VBool _ => CBool
  | VInt _ => CInt
  | VStr _ => CStr
  | VList _ => CList
  | VTuple _ => CTuple
  | VDict _ => CDict
  end.

(** [isinstance(v, c)]: [bool] is a subclass of [int]. *)
Definition isinstance (v : pyval) (c : pyclass) : bool :=
  match c, v with
  | CInt, VBool _ => true
  | _, _ => bool_decide (type_of v = c)
  end.

(** [d[k]] on a dictionary's bindings. *)
Fixpoint dict_get (k : string) (kvs : pydict) : option pyval :=
  match kvs with
  | [] => None
  | (k', v) :: rest => if String.eqb k k' then Some v else dict_get k rest
  end.

(** [k in d] *)
Definition dict_mem (k : string) (kvs : pydict) : bool :=
  match dict_get k kvs with Some _ => true | None => false end.

(** [set(d.keys())] *)
Definition dict_keys (kvs : pydict) : gset string :=
  list_to_set (map fst kvs).

(** The characters of a string, each a string of length one. *)
Fixpoint str_chars (s : string) : list pyval :=
  match s with
  | EmptyString => []
  | String a rest => VStr (String a EmptyString) :: str_chars rest
  end.

(** Python's [==] on integers and booleans compares them as numbers. *)
Definition as_number (v : pyval) : option Z :=
  match v with
  | VBool b => Some (Z.b2z b)
  | VInt n => Some n
  | _ => None
  end.

(** [v == w].  Lists and tuples compare element by element and a list never
    equals a tuple; dictionaries compare as maps. *)
Fixpoint py_eq (v w : pyval) {struct v} : bool :=
  match v with
  | VNone => match w with VNone => true | _ => false end
  | VBool b =>
      match as_number w with Some m => Z.eqb (Z.b2z b) m | None => false end
  | VInt n =>
      match as_number w with Some m => Z.eqb n m | None => false end
  | VStr s => match w with VStr t => String.eqb s t | _ => false end
  | VList xs =>
      match w with
      | VList ys =>
          (fix go (xs ys : list pyval) {struct xs} : bool :=
             match xs, ys with
             | [], [] => true
             | x :: xs', y :: ys' => py_eq x y && go xs' ys'
             | _, _ => false
             end) xs ys
      | _ => false
      end
  | VTuple xs =>
      match w with
      | VTuple ys =>
          (fix go (xs ys : list pyval) {struct xs} : bool :=
             match xs, ys with
             | [], [] => true
             | x :: xs', y :: ys' => py_eq x y && go xs' ys'
             | _, _ => false
             end) xs ys
      | _ => false
      end
  | VDict kvs =>
      match w with
      | VDict kws =>
          bool_decide (dict_keys kvs = dict_keys kws)
          && (fix go (kvs : pydict) {struct kvs} : bool :=
                match kvs with
                | [] => true
                | (k, x) :: rest =>
                    match dict_get k kws with
                    | Some y => py_eq x y
                    | None => false
                    end && go rest
                end) kvs
      | _ => false
      end
  end.

(** [len(v)] *)
Definition py_len (v : pyval) : result nat :=
  match v with
  | VStr s => Return (String.length s)
  | VList xs | VTuple xs => Return (length xs)
  | VDict kvs => Return (size (dict_keys kvs))
  | _ => Raise TypeError
  end.

(** [v[k]] for a string key [k]. *)
Definition getitem (v : pyval) (k : string) : result pyval :=
  match v with
  | VDict kvs =>
      match dict_get k kvs with
      | Some x => Return x
      | None => Raise (KeyError k)
      end
  | _ => Raise TypeError
  end.

(** [v[0]]; the dictionaries here have no integer keys. *)
Definition getitem0 (v : pyval) : result pyval :=
  match v with
  | VList (x :: _) | VTuple (x :: _) => Return x
  | VList [] | VTuple [] => Raise IndexError
  | VStr (String a _) => Return (VStr (String a EmptyString))
  | VStr EmptyString => Raise IndexError
  | VDict _ => Raise (KeyError "0")
  | _ => Raise TypeError
  end.

(** The elements [v] yields when iterated: [for x in v], [tuple(v)]. *)
Definition py_iter (v : pyval) : result (list pyval) :=
  match v with
  | VList xs | VTuple xs => Return xs
  | VStr s => Return (str_chars s)
  | VDict kvs => Return (map (fun kv => VStr (fst kv)) kvs)
  | _ => Raise TypeError
  end.

(** [v.keys()], as the set the checkers make of it. *)
Definition py_keys (v : pyval) : result (gset string) :=
  match v with
  | VDict kvs => Return (dict_keys kvs)
  | _ => Raise AttributeError
  end.

(** [k in v] for a string [k]. *)
Definition py_in (k : string) (v : pyval) : result bool :=
  match v with
  | VDict kvs => Return (dict_mem k kvs)
  | VList xs | VTuple xs => Return (existsb (py_eq (VStr k)) xs)
  | VStr s =>
      Return (match String.index 0 k s with Some _ => true | None => false end)
  | _ => Raise TypeError
  end.

(** [s in l] for a list of strings [l]. *)
Definition str_in (s : string) (l : list string) : bool :=
  existsb (String.eqb s) l.

(** [str(v)] as an f-string formats it; inside a container the strings are
    quoted without escapes. *)
Fixpoint py_repr (v : pyval) : string :=
  let fix items (xs : list pyval) : string :=
    match xs with
    | [] => ""
    | [x] => py_repr x
    | x :: rest => py_repr x ++ ", " ++ items rest
    end in
  let fix bindings (kvs : pydict) : string :=
    match kvs with
    | [] => ""
    | [(k, x)] => "'" ++ k ++ "': " ++ py_repr x
    | (k, x) :: rest => "'" ++ k ++ "': " ++ py_repr x ++ ", " ++ bindings rest
    end in
  match v with
  | VNone => "None"
  | VBool true => "True"
  | VBool false => "False"
  | VInt n => pretty n
  | VStr s => "'" ++ s ++ "'"
  | VList xs => "[" ++ items xs ++ "]"
  | VTuple [x] => "(" ++ py_repr x ++ ",)"
  | VTuple xs => "(" ++ items xs ++ ")"
  | VDict kvs => "{" ++ bindings kvs ++ "}"
  end.

Definition py_str (v : pyval) : string :=
  match v with
  | VStr s => s
  | _ => py_repr v
  end.

(** A three-element sequence, list or tuple, of a string, a string and an
    integer, each of that exact type. *)
Definition is_topic_triple (entry : pyval) : bool :=
  match entry with
  | VList [VStr _; VStr _; VInt _] | VTuple [VStr _; VStr _; VInt _] => true
  | _ => false
  end.

End Py.
Export Py.

(* ===================================================================== *)
(** ** Field types and strict validation *)
(* ===================================================================== *)

Module Pydantic.

(** Modelled from the spec: the schema language of the models that
    [zerver.lib.event_types] declares, and what
    [model.model_validate(data, strict=True)] accepts for them.  Neither the
    declarations nor the validator are among the sources; section 4.1 of the
    specification fixes the behaviour: a closed set of fields, each with a type
    and an optional flag, and strict validation with no coercion, so that a
    boolean is not an integer, a list is not a tuple, and nothing is parsed out
    of a string. *)
Inductive ty : Type :=
| TAny                              (* object *)
| TNone                             (* None *)
| TBool                             (* bool *)
| TInt                              (* int *)
| TStr                              (* str *)
| TLiteral (choices : list string)  (* Literal["a", "b"] *)
| TList (elt : ty)                  (* list[T] *)
| TTuple (elts : list ty)           (* tuple[T1, ..., Tn] *)
| TDict (val : ty)                  (* dict[str, T] *)
| TUnion (alts : list ty)           (* T1 | ... | Tn *)
| TModel (fields : list field)      (* a nested model *)
with field : Type :=
| Field (fname : string) (ftype : ty) (frequired : bool).

Definition fname (f : field) : string := let 'Field n _ _ := f in n.
Definition ftype (f : field) : ty := let 'Field _ t _ := f in t.
Definition frequired (f : field) : bool := let 'Field _ _ r := f in r.

(** A model class: its name, printed in diagnostics, and [model_fields]. *)
Record model : Type := Model {
  model_name : string;
  model_fields : list field
}.

(** Modelled from the spec: strict conformance of a value to a field type.
    A missing field is accepted exactly when it is not required; keys a
    nested model does not declare are ignored there, only
    [validate_with_model] looks for them. *)
Fixpoint conforms (t : ty) (v : pyval) {struct t} : bool :=
  match t with
  | TAny => true
  | TNone => match v with VNone => true | _ => false end
  | TBool => match v with VBool _ => true | _ => false end
  | TInt => match v with VInt _ => true | _ => false end
  | TStr => match v with VStr _ => true | _ => false end
  | TLiteral choices =>
      match v with VStr s => existsb (String.eqb s) choices | _ => false end
  | TList elt =>
      match v with VList xs => forallb (conforms elt) xs | _ => false end
  | TTuple elts =>
      match v with
      | VTuple xs =>
          (fix go (elts : list ty) (xs : list pyval) {struct elts} : bool :=
             match elts, xs with
             | [], [] => true
             | t' :: elts', x :: xs' => conforms t' x && go elts' xs'
             | _, _ => false
             end) elts xs
      | _ => false
      end
  | TDict val =>
      match v with
      | VDict kvs => forallb (fun kv => conforms val (snd kv)) kvs
      | _ => false
      end
  | TUnion alts =>
      (fix any (alts : list ty) {struct alts} : bool :=
         match alts with
         | [] => false
         | t' :: alts' => conforms t' v || any alts'
         end) alts
  | TModel fields =>
      match v with
      | VDict kvs =>
          (fix all (fields : list field) {struct fields} : bool :=
             match fields with
             | [] => true
             | Field name t' required :: rest =>
                 match dict_get name kvs with
                 | Some x => conforms t' x
                 | None => negb required
                 end && all rest
             end) fields
      | _ => false
      end
  end.

(** The one class whose instances a field type admits, when there is one. *)
Definition class_of_ty (t : ty) : option pyclass :=
  match t with
  | TNone => Some CNoneType
  | TBool => Some CBool
  | TInt => Some CInt
  | TStr | TLiteral _ => Some CStr
  | TList _ => Some CList
  | TTuple _ => Some CTuple
  | TDict _ | TModel _ => Some CDict
  | TAny | TUnion _ => None
  end.

(** One field declaration against the bindings of a dictionary. *)
Definition field_ok (data : pydict) (f : field) : bool :=
  match dict_get (fname f) data with
  | Some x => conforms (ftype f) x
  | None => negb (frequired f)
  end.

(** [set(model.model_fields.keys())] *)
Definition field_names (m : model) : gset string :=
  list_to_set (map fname (model_fields m)).

(** Modelled from the spec: [model.model_validate(data, strict=True)].  The
    data must be a dictionary that conforms to the fields of the model; every
    violation is reported through the one [ValidationError]. *)
Definition model_validate (m : model) (data : pyval) : result unit :=
  if conforms (TModel (model_fields m)) data then Return tt
  else Raise ValidationError.

End Pydantic.
Export Pydantic.

(* ===================================================================== *)
(** ** The monad of the checkers *)
(* ===================================================================== *)

Module Run.

(** What a checker writes to standard output: the failure banner of
    [make_checker], with the label and the model it names, and the
    pretty-printed event. *)
Inductive output : Type :=
| Banner (label : string) (base_model : model)
| Pprint (event : pydict).

(** The event is the dictionary object the test passes to the checker by
    reference; it lives in the world next to standard output, so that a
    checker changing it would be seen to do so. *)
Record world : Type := World {
  w_event : pydict;
  w_stdout : list output
}.

(** A computation runs in a world and raises or returns. *)
Definition M (A : Type) : Type := world -> result A * world.

#[global] Instance M_ret : MRet M := fun A (a : A) w => (Return a, w).

#[global] Instance M_bind : MBind M := fun A B (k : A -> M B) (c : M A) w =>
  match c w with
  | (inr a, w') => k a w'
  | (inl e, w') => (inl e, w')
  end.

Definition raise {A} (e : exn) : M A := fun w => (Raise e, w).

(** A pure call that may raise. *)
Definition lift {A} (r : result A) : M A := fun w => (r, w).

(** The [event] argument. *)
Definition get_event : M pydict := fun w => (Return (w_event w), w).

Definition print (o : output) : M unit := fun w =>
  (Return tt, World (w_event w) (w_stdout w ++ [o])).

(** [try: c except Exception as e: handler(e)] *)
Definition try_except {A} (c : M A) (handler : exn -> M A) : M A := fun w =>
  match c w with
  | (inl e, w') => handler e w'
  | r => r
  end.

(** [assert b] *)
Definition py_assert (b : bool) : M unit :=
  if b then mret tt else raise (AssertionError "").

(** [for x in xs: body(x)] *)
Fixpoint for_each {A} (xs : list A) (body : A -> M unit) : M unit :=
  match xs with
  | [] => mret tt
  | x :: rest => body x;; for_each rest body
  end.

(** A computation is quiet when a run of it that returns leaves the world,
    the event and standard output, as it found it. *)
Definition quiet {A} (c : M A) : Prop :=
  forall w a w', c w = (inr a, w') -> w' = w.

(** A computation keeps the event when no run of it, returning or raising,
    changes the event of the world. *)
Definition keeps_event {A} (c : M A) : Prop :=
  forall w, w_event (snd (c w)) = w_event w.

(** The outcome of a run, apart from the world it leaves. *)
Definition succeeds {A} (c : M A) (w : world) : Prop :=
  exists a, fst (c w) = Return a.
Definition fails {A} (c : M A) (w : world) : Prop :=
  exists e, fst (c w) = Raise e.
Definition raises {A} (c : M A) (w : world) (e : exn) : Prop :=
  fst (c w) = Raise e.

End Run.
Export Run.

(* ===================================================================== *)
(** ** The checkers of [event_schema.py] *)
(* ===================================================================== *)

Module EventSchema.

(** What a property-type catalog such as [Realm.property_types] maps a
    property name to: a class, a union of classes, or an [Enum] class given
    by the names of its members. *)
Inductive property_type : Type :=
| PClass (c : pyclass)
| PUnion (cs : list pyclass)
| PEnum (members : list string).

(** [inspect.isclass(t) and issubclass(t, Enum)] *)
Definition is_enum (t : property_type) : bool :=
  match t with PEnum _ => true | _ => false end.

(** [isinstance(v, t)] for a catalog entry that is not an [Enum]. *)
Definition isinstance_of (v : pyval) (t : property_type) : bool :=
  match t with
  | PClass c => isinstance v c
  | PUnion cs => existsb (isinstance v) cs
  | PEnum _ => false
  end.

(** [t[v]] on an [Enum] class: the member named [v], or [KeyError]. *)
Definition enum_getitem (t : property_type) (v : pyval) : result unit :=
  match t with
  | PEnum members =>
      if match v with VStr s => str_in s members | _ => false end
      then Return tt else Raise (KeyError (py_str v))
  | _ => Raise TypeError
  end.

(** [catalog[prop]] *)
Definition catalog_getitem (catalog : gmap string property_type)
    (prop : string) : result property_type :=
  match catalog !! prop with
  | Some t => Return t
  | None => Raise (KeyError prop)
  end.

(** [any(name in data for name in names)] *)
Fixpoint any_in (names : list string) (data : pyval) : result bool :=
  match names with
  | [] => Return false
  | name :: rest =>
      has ← py_in name data;
      if has : bool then Return true else any_in rest data
  end.

Definition validate_with_model (data : pyval) (model : model) : result unit :=
  let allowed_fields := field_names model in
  keys ← py_keys data;
  if bool_decide (keys ⊆ allowed_fields) then
    model_validate model data
  else
    Raise (ValueError (keys ∖ allowed_fields)).

Definition make_checker (base_model : model) (label : string) : M unit :=
  event ← get_event;
  try_except
    (lift (validate_with_model (VDict event) base_model))
    (fun e =>
       print (Banner label base_model);;
       print (Pprint event);;
       raise e).

(** [event[k]] *)
Definition event_getitem (k : string) : M pyval :=
  event ← get_event;
  lift (getitem (VDict event) k).

Section Imports.

(** The models imported from [zerver.lib.event_types]. *)
Variables
  (AllowMessageEditingData AuthenticationData BotServicesEmbedded
   BotServicesOutgoing EventDeleteMessage EventMutedTopics EventRealmBotAdd
   EventRealmBotUpdate EventRealmUpdate EventRealmUpdateDict
   EventUpdateMessage GroupSettingUpdateData IconData LogoData
   MessageContentEditLimitSecondsData NightLogoData PlanTypeData
   RealmTopicsPolicyData : model).

(** [ORIG_TOPIC] and [TOPIC_NAME] of [zerver.lib.topic]. *)
Variables (ORIG_TOPIC TOPIC_NAME : string).

(** The attributes of [zerver.models] the checkers read: the bot types of
    [UserProfile], and [Realm.property_types] and the names of
    [Realm.REALM_PERMISSION_GROUP_SETTINGS] in their order. *)
Variables (DEFAULT_BOT OUTGOING_WEBHOOK_BOT EMBEDDED_BOT : Z).
Variable (property_types : gmap string property_type).
Variable (REALM_PERMISSION_GROUP_SETTINGS : list string).

Definition _check_delete_message := make_checker EventDeleteMessage.
Definition _check_muted_topics := make_checker EventMutedTopics.
Definition _check_realm_bot_add := make_checker EventRealmBotAdd.
Definition _check_realm_bot_update := make_checker EventRealmBotUpdate.
Definition _check_realm_update := make_checker EventRealmUpdate.
Definition _check_realm_update_dict := make_checker EventRealmUpdateDict.
Definition _check_update_message := make_checker EventUpdateMessage.

Definition check_delete_message (var_name : string) (message_type : string)
    (num_message_ids : Z) (is_legacy : bool) : M unit :=
  _check_delete_message var_name;;
  let keys : gset string := {[ "id"; "type"; "message_type" ]} in
  mt ← event_getitem "message_type";
  py_assert (py_eq mt (VStr message_type));;
  keys ← (if String.eqb message_type "stream" then
            mret (keys ∪ {[ "stream_id"; "topic" ]})
          else if String.eqb message_type "private" then
            mret keys
          else
            raise (AssertionError "unexpected message_type"));
  keys ← (if is_legacy then
            py_assert (Z.eqb num_message_ids 1);;
            mret (keys ∪ {[ "message_id" ]})
          else
            message_ids ← event_getitem "message_ids";
            py_assert (isinstance message_ids CList);;
            n ← lift (py_len message_ids);
            py_assert (Z.eqb num_message_ids (Z.of_nat n));;
            mret (keys ∪ {[ "message_ids" ]}));
  event ← get_event;
  py_assert (bool_decide (dict_keys event = keys)).

Definition check_muted_topics (var_name : string) : M unit :=
  _check_muted_topics var_name;;
  muted_topics ← event_getitem "muted_topics";
  py_assert (isinstance muted_topics CList);;
  entries ← lift (py_iter muted_topics);
  for_each entries (fun muted_topic =>
    muted_topic_tuple ← lift (py_iter muted_topic);
    py_assert
      (bool_decide (map type_of muted_topic_tuple = [CStr; CStr; CInt]))).

Definition check_realm_bot_add (var_name : string) : M unit :=
  _check_realm_bot_add var_name;;
  bot ← event_getitem "bot";
  py_assert (isinstance bot CDict);;
  bot_type ← lift (getitem bot "bot_type");
  services ← lift (getitem bot "services");
  if py_eq bot_type (VInt DEFAULT_BOT) then
    py_assert (py_eq services (VList []))
  else if py_eq bot_type (VInt OUTGOING_WEBHOOK_BOT) then
    n ← lift (py_len services);
    py_assert (Nat.eqb n 1);;
    service ← lift (getitem0 services);
    lift (validate_with_model service BotServicesOutgoing)
  else if py_eq bot_type (VInt EMBEDDED_BOT) then
    n ← lift (py_len services);
    py_assert (Nat.eqb n 1);;
    service ← lift (getitem0 services);
    lift (validate_with_model service BotServicesEmbedded)
  else
    raise (AssertionError ("Unknown bot_type: " ++ py_str bot_type)).

Definition check_realm_bot_update (var_name : string) (field : string)
    : M unit :=
  _check_realm_bot_update var_name;;
  bot ← event_getitem "bot";
  py_assert (isinstance bot CDict);;
  keys ← lift (py_keys bot);
  py_assert (bool_decide ({[ "user_id"; field ]} = keys)).

Definition check_realm_update (var_name : string) (prop : string) : M unit :=
  _check_realm_update var_name;;
  property ← event_getitem "property";
  py_assert (py_eq (VStr prop) property);;
  value ← event_getitem "value";
  if str_in prop [ "moderation_request_channel_id";
                   "new_stream_announcements_stream_id";
                   "signup_announcements_stream_id";
                   "zulip_update_announcements_stream_id";
                   "org_type" ] then
    py_assert (isinstance value CInt)
  else
    property_type ← lift (catalog_getitem property_types prop);
    if is_enum property_type then
      py_assert (isinstance value CStr);;
      lift (enum_getitem property_type value)
    else
      py_assert (isinstance_of value property_type).

Definition check_realm_update_dict (var_name : string) : M unit :=
  _check_realm_update_dict var_name;;
  property ← event_getitem "property";
  sub_type ← (if py_eq property (VStr "default") then
                data ← event_getitem "data";
                py_assert (isinstance data CDict);;
                has ← lift (py_in "allow_message_editing" data);
                if has : bool then mret AllowMessageEditingData else
                has ← lift (py_in "message_content_edit_limit_seconds" data);
                if has : bool then mret MessageContentEditLimitSecondsData else
                has ← lift (py_in "authentication_methods" data);
                if has : bool then mret AuthenticationData else
                has ← lift (any_in REALM_PERMISSION_GROUP_SETTINGS data);
                if has : bool then mret GroupSettingUpdateData else
                has ← lift (py_in "plan_type" data);
                if has : bool then mret PlanTypeData else
                has ← lift (py_in "topics_policy" data);
                if has : bool then mret RealmTopicsPolicyData else
                raise (AssertionError "unhandled fields in data")
              else if py_eq property (VStr "icon") then mret IconData
              else if py_eq property (VStr "logo") then mret LogoData
              else if py_eq property (VStr "night_logo") then mret NightLogoData
              else raise (AssertionError
                            "unhandled property: {event['property']}"));
  data ← event_getitem "data";
  lift (validate_with_model data sub_type).

Definition check_update_message (var_name : string)
    (is_stream_message has_content has_topic has_new_stream_id
     is_embedded_update_only : bool) : M unit :=
  _check_update_message var_name;;
  event ← get_event;
  let actual_keys := dict_keys event in
  let expected_keys : gset string :=
    {[ "id"; "type"; "user_id"; "edit_timestamp"; "message_id"; "flags";
       "message_ids"; "rendering_only" ]} in
  let expected_keys :=
    if is_stream_message then
      expected_keys ∪ {[ "stream_id"; "stream_name" ]}
    else expected_keys in
  let expected_keys :=
    if has_content then
      expected_keys ∪ {[ "is_me_message"; "orig_content";
                         "orig_rendered_content"; "content";
                         "rendered_content" ]}
    else expected_keys in
  let expected_keys :=
    if has_topic then
      expected_keys ∪ {[ "topic_links"; ORIG_TOPIC; TOPIC_NAME;
                         "propagate_mode" ]}
    else expected_keys in
  let expected_keys :=
    if has_new_stream_id then
      expected_keys ∪ {[ "new_stream_id"; ORIG_TOPIC; "propagate_mode" ]}
    else expected_keys in
  expected_keys ← (if is_embedded_update_only then
                     user_id ← event_getitem "user_id";
                     py_assert (bool_decide (type_of user_id = CNoneType));;
                     mret (expected_keys
                           ∪ {[ "content"; "rendered_content" ]})
                   else
                     user_id ← event_getitem "user_id";
                     py_assert (isinstance user_id CInt);;
                     mret expected_keys);
  rendering_only ← event_getitem "rendering_only";
  py_assert (py_eq rendering_only (VBool is_embedded_update_only));;
  py_assert (bool_decide (expected_keys = actual_keys)).

(** The checkers above as one family: a checker made by [make_checker] for
    any model, which is what every plain [check_...] of the module is, and
    the wrapped checkers with their extra arguments. *)
Inductive checker : Type :=
| Plain (base_model : model)
| DeleteMessage (message_type : string) (num_message_ids : Z)
    (is_legacy : bool)
| MutedTopics
| RealmBotAdd
| RealmBotUpdate (field : string)
| RealmUpdate (prop : string)
| RealmUpdateDict
| UpdateMessage (is_stream_message has_content has_topic has_new_stream_id
                 is_embedded_update_only : bool).

Definition run_checker (c : checker) (var_name : string) : M unit :=
  match c with
  | Plain base_model => make_checker base_model var_name
  | DeleteMessage message_type num_message_ids is_legacy =>
      check_delete_message var_name message_type num_message_ids is_legacy
  | MutedTopics => check_muted_topics var_name
  | RealmBotAdd => check_realm_bot_add var_name
  | RealmBotUpdate field => check_realm_bot_update var_name field
  | RealmUpdate prop => check_realm_update var_name prop
  | RealmUpdateDict => check_realm_update_dict var_name
  | UpdateMessage is_stream_message has_content has_topic has_new_stream_id
      is_embedded_update_only =>
      check_update_message var_name is_stream_message has_content has_topic
        has_new_stream_id is_embedded_update_only
  end.

End Imports.

(** The names in the list literal of [check_realm_update]. *)
Definition integer_coded_properties : list string :=
  [ "moderation_request_channel_id";
    "new_stream_announcements_stream_id";
    "signup_announcements_stream_id";
    "zulip_update_announcements_stream_id";
    "org_type" ].

(** A property name bypasses the catalog when no run of
    [check_realm_update] for it depends on the catalog. *)
Definition bypasses_catalog (prop : string) : Prop :=
  forall (EventRealmUpdate : model)
         (catalog catalog' : gmap string property_type)
         (var_name : string) (w : world),
    check_realm_update EventRealmUpdate catalog var_name prop w
    = check_realm_update EventRealmUpdate catalog' var_name prop w.

End EventSchema.
Export EventSchema.

(* ===================================================================== *)
(** ** The selection rule of the specification *)
(* ===================================================================== *)

Module Selection.

Section Models.

Variables
  (AllowMessageEditingData AuthenticationData GroupSettingUpdateData
   MessageContentEditLimitSecondsData PlanTypeData RealmTopicsPolicyData
   : model).
Variable (REALM_PERMISSION_GROUP_SETTINGS : list string).

(** The specification's rule for a realm [update_dict] event with property
    ["default"], written from its words and not from the code: the recognized
    keys in their fixed order, each with the sub-schema it selects; the
    permission-group entry stands for any of the setting names. *)
Definition priority_list : list (list string * model) :=
  [ (["allow_message_editing"], AllowMessageEditingData);
    (["message_content_edit_limit_seconds"],
     MessageContentEditLimitSecondsData);
    (["authentication_methods"], AuthenticationData);
    (REALM_PERMISSION_GROUP_SETTINGS, GroupSettingUpdateData);
    (["plan_type"], PlanTypeData);
    (["topics_policy"], RealmTopicsPolicyData) ].

(** The sub-schema of the first entry one of whose keys is in [data]. *)
Fixpoint first_match (entries : list (list string * model)) (data : pydict)
    : option model :=
  match entries with
  | [] => None
  | (keys, sub_schema) :: rest =>
      if existsb (fun k => dict_mem k data) keys then Some sub_schema
      else first_match rest data
  end.

Definition selected_sub_schema (data : pydict) : option model :=
  first_match priority_list data.

End Models.

End Selection.

(* ===================================================================== *)
(** ** Schemas and events to run the checkers on *)
(* ===================================================================== *)

Module Fixtures.

Definition required (name : string) (t : ty) : field := Field name t true.
Definition optional (name : string) (t : ty) : field := Field name t false.

(** Modelled from the spec: the models of [zerver.lib.event_types] that the
    checkers below are bound to.  The module is not among the sources; each
    model here is a closed set of field declarations with a type and an
    optional flag, as section 3 of the specification describes a schema, with
    the fields the checkers of [event_schema.py] name. *)
Definition EventDeleteMessage : model :=
  Model "EventDeleteMessage"
    [ required "id" TInt;
      required "type" (TLiteral ["delete_message"]);
      required "message_type" (TLiteral ["private"; "stream"]);
      optional "message_id" (TUnion [TInt; TNone]);
      optional "message_ids" (TUnion [TList TInt; TNone]);
      optional "stream_id" (TUnion [TInt; TNone]);
      optional "topic" (TUnion [TStr; TNone]) ].

Definition EventMutedTopics : model :=
  Model "EventMutedTopics"
    [ required "id" TInt;
      required "type" (TLiteral ["muted_topics"]);
      required "muted_topics" (TList (TTuple [TStr; TStr; TInt])) ].

Definition BotServicesOutgoing : model :=
  Model "BotServicesOutgoing"
    [ required "base_url" TStr;
      required "interface" TInt;
      required "token" TStr ].

Definition BotServicesEmbedded : model :=
  Model "BotServicesEmbedded"
    [ required "service_name" TStr;
      required "config_data" (TDict TStr) ].

Definition EventRealmBotAdd : model :=
  Model "EventRealmBotAdd"
    [ required "id" TInt;
      required "type" (TLiteral ["realm_bot"]);
      required "op" (TLiteral ["add"]);
      required "bot"
        (TModel
           [ required "user_id" TInt;
             required "full_name" TStr;
             required "email" TStr;
             required "bot_type" TInt;
             required "is_active" TBool;
             required "owner_id" TInt;
             required "services"
               (TList
                  (TUnion [TModel (model_fields BotServicesOutgoing);
                           TModel (model_fields BotServicesEmbedded)])) ]) ].

Definition EventRealmBotUpdate : model :=
  Model "EventRealmBotUpdate"
    [ required "id" TInt;
      required "type" (TLiteral ["realm_bot"]);
      required "op" (TLiteral ["update"]);
      required "bot"
        (TModel
           [ required "user_id" TInt;
             optional "full_name" TStr;
             optional "is_active" TBool;
             optional "owner_id" TInt;
             optional "api_key" TStr ]) ].

(** The docstring of [check_realm_update] gives a realm update its two
    fields, [property] and [value]; the value takes every type a realm
    property has in the catalog, a boolean, an integer or a string. *)
Definition EventRealmUpdate : model :=
  Model "EventRealmUpdate"
    [ required "id" TInt;
      required "type" (TLiteral ["realm"]);
      required "op" (TLiteral ["update"]);
      required "property" TStr;
      required "value" (TUnion [TBool; TInt; TStr]) ].

Definition AllowMessageEditingData : model :=
  Model "AllowMessageEditingData" [ required "allow_message_editing" TBool ].
Definition MessageContentEditLimitSecondsData : model :=
  Model "MessageContentEditLimitSecondsData"
    [ required "message_content_edit_limit_seconds" (TUnion [TInt; TNone]) ].
Definition AuthenticationData : model :=
  Model "AuthenticationData"
    [ required "authentication_methods" (TDict TAny) ].
Definition GroupSettingUpdateData : model :=
  Model "GroupSettingUpdateData"
    [ optional "can_create_groups" (TUnion [TInt; TDict TAny; TNone]);
      optional "can_invite_users_group" (TUnion [TInt; TDict TAny; TNone]) ].
Definition PlanTypeData : model :=
  Model "PlanTypeData"
    [ required "plan_type" TInt;
      required "upload_quota_mib" (TUnion [TInt; TNone]);
      required "max_file_upload_size_mib" TInt ].
Definition RealmTopicsPolicyData : model :=
  Model "RealmTopicsPolicyData"
    [ required "topics_policy" TStr;
      required "mandatory_topics" TBool ].
Definition IconData : model :=
  Model "IconData" [ required "icon_url" TStr; required "icon_source" TStr ].
Definition LogoData : model :=
  Model "LogoData" [ required "logo_url" TStr; required "logo_source" TStr ].
Definition NightLogoData : model :=
  Model "NightLogoData"
    [ required "night_logo_url" TStr; required "night_logo_source" TStr ].

Definition EventRealmUpdateDict : model :=
  Model "EventRealmUpdateDict"
    [ required "id" TInt;
      required "type" (TLiteral ["realm"]);
      required "op" (TLiteral ["update_dict"]);
      required "property" (TLiteral ["default"; "icon"; "logo"; "night_logo"]);
      required "data" (TDict TAny) ].

Definition EventUpdateMessage : model :=
  Model "EventUpdateMessage"
    [ required "id" TInt;
      required "type" (TLiteral ["update_message"]);
      required "user_id" (TUnion [TInt; TNone]);
      required "edit_timestamp" TInt;
      required "message_id" TInt;
      required "flags" (TList TStr);
      required "message_ids" (TList TInt);
      required "rendering_only" TBool;
      optional "stream_id" TInt;
      optional "stream_name" TStr;
      optional "is_me_message" TBool;
      optional "orig_content" TStr;
      optional "orig_rendered_content" TStr;
      optional "content" TStr;
      optional "rendered_content" TStr;
      optional "topic_links" (TList (TDict TStr));
      optional "subject" TStr;
      optional "orig_subject" TStr;
      optional "propagate_mode" TStr;
      optional "new_stream_id" TInt ].

(** Modelled from the spec: values for the names the checkers import from
    [zerver.lib.topic] and [zerver.models], which are not among the sources:
    the two topic keys, three distinct bot types, a property-type catalog
    with a boolean, an integer, a nullable integer, a string and an
    enumeration, and two permission-group setting names. *)
Definition ORIG_TOPIC : string := "orig_subject".
Definition TOPIC_NAME : string := "subject".
Definition DEFAULT_BOT : Z := 1.
Definition OUTGOING_WEBHOOK_BOT : Z := 3.
Definition EMBEDDED_BOT : Z := 4.

Definition property_types : gmap string property_type :=
  list_to_map
    [ ("allow_message_editing", PClass CBool);
      ("digest_weekday", PClass CInt);
      ("message_retention_days", PUnion [CInt; CNoneType]);
      ("default_language", PClass CStr);
      ("topics_policy",
       PEnum ["allow_empty_topic"; "disable_empty_topic"]) ].

Definition REALM_PERMISSION_GROUP_SETTINGS : list string :=
  [ "can_create_groups"; "can_invite_users_group" ].

(** A world holding an event, with nothing printed yet. *)
Definition world_of (event : pydict) : world := World event [].

End Fixtures.


(* ===================================================================== *)
(** ** The other checkers of [event_schema.py] *)
(* ===================================================================== *)

Module PyRest.

(** [d.items()]: the bindings of a dictionary, one per key, the first one
    of each. *)
Fixpoint items_from (seen : list string) (kvs : pydict) : pydict :=
  match kvs with
  | [] => []
  | (k, v) :: rest =>
      if str_in k seen then items_from seen rest
      else (k, v) :: items_from (k :: seen) rest
  end.

Definition dict_items (kvs : pydict) : pydict := items_from [] kvs.

(** [v.items()] *)
Definition py_items (v : pyval) : result pydict :=
  match v with
  | VDict kvs => Return (dict_items kvs)
  | _ => Raise AttributeError
  end.

(** [v is None] *)
Definition is_none (v : pyval) : bool :=
  match v with VNone => true | _ => false end.

(** Whether [hash(v)] returns: lists and dictionaries are unhashable, a
    tuple is hashable when its elements are. *)
Fixpoint py_hashable (v : pyval) : bool :=
  match v with
  | VList _ | VDict _ => false
  | VTuple xs =>
      (fix all (xs : list pyval) : bool :=
         match xs with
         | [] => true
         | x :: rest => py_hashable x && all rest
         end) xs
  | _ => true
  end.

(** [v in d] for a dictionary [d] given by its string keys: the key is
    hashed first. *)
Definition py_in_keys (v : pyval) (keys : list string) : result bool :=
  if py_hashable v then
    Return (match v with VStr s => str_in s keys | _ => false end)
  else Raise TypeError.

(** [v in l] for a list [l]: some item equals [v]. *)
Definition py_in_list (v : pyval) (items : list pyval) : bool :=
  existsb (fun item => py_eq item v) items.

End PyRest.
Export PyRest.

Module EventSchemaRest.

(** [catalog[k]] for a key that is any object. *)
Definition catalog_getitem_obj (catalog : gmap string property_type)
    (k : pyval) : result property_type :=
  if py_hashable k then
    match k with
    | VStr s => catalog_getitem catalog s
    | _ => Raise (KeyError (py_str k))
    end
  else Raise TypeError.

(** The keys a stream update always may have. *)
Definition stream_update_keys : gset string :=
  {[ "id"; "type"; "op"; "property"; "value"; "name"; "stream_id";
     "first_message_id"; "is_archived"; "folder_id" ]}.

Section Imports.

(** The models imported from [zerver.lib.event_types]. *)
Variables
  (EventChannelFolderUpdate EventHasZoomToken EventRealmEmojiUpdate
   EventRealmExport EventRealmUserSettingsDefaultsUpdate EventRealmUserUpdate
   EventStreamUpdate EventSubscriptionUpdate EventUpdateDisplaySettings
   EventUpdateGlobalNotifications EventUserGroupUpdate
   EventUserSettingsUpdate EventUserStatus
   PersonAvatarFields PersonBotOwnerId PersonCustomProfileField
   PersonDeliveryEmail PersonEmail PersonFullName PersonIsActive PersonRole
   PersonTimezone : model).

(** The attributes of [zerver.models] and [zerver.lib.types] the checkers
    read: the property-type catalogs of [RealmUserDefault] and [UserProfile],
    [UserProfile.notification_settings_legacy],
    [Stream.STREAM_POST_POLICY_TYPES], the names of
    [Stream.stream_permission_group_settings], the keys of the annotations of
    [UserGroupMembersDict] and the member names of [StreamTopicsPolicyEnum]. *)
Variables
  (RealmUserDefault_property_types UserProfile_property_types
   notification_settings_legacy : gmap string property_type).
Variable (STREAM_POST_POLICY_TYPES : list Z).
Variable (stream_permission_group_settings : list string).
Variable (UserGroupMembersDict_annotations : list string).
Variable (StreamTopicsPolicyEnum : list string).

Definition _check_channel_folder_update :=
  make_checker EventChannelFolderUpdate.
Definition _check_has_zoom_token := make_checker EventHasZoomToken.
Definition _check_realm_default_update :=
  make_checker EventRealmUserSettingsDefaultsUpdate.
Definition _check_realm_emoji_update := make_checker EventRealmEmojiUpdate.
Definition _check_realm_export := make_checker EventRealmExport.
Definition _check_realm_user_update := make_checker EventRealmUserUpdate.
Definition _check_stream_update := make_checker EventStreamUpdate.
Definition _check_subscription_update := make_checker EventSubscriptionUpdate.
Definition _check_update_display_settings :=
  make_checker EventUpdateDisplaySettings.
Definition _check_update_global_notifications :=
  make_checker EventUpdateGlobalNotifications.
Definition _check_user_group_update := make_checker EventUserGroupUpdate.
Definition _check_user_settings_update := make_checker EventUserSettingsUpdate.
Definition _check_user_status := make_checker EventUserStatus.

Definition PERSON_TYPES : gmap string model :=
  list_to_map
    [ ("avatar_fields", PersonAvatarFields);
      ("bot_owner_id", PersonBotOwnerId);
      ("custom_profile_field", PersonCustomProfileField);
      ("delivery_email", PersonDeliveryEmail);
      ("email", PersonEmail);
      ("full_name", PersonFullName);
      ("role", PersonRole);
      ("timezone", PersonTimezone);
      ("is_active", PersonIsActive) ].

Definition check_channel_folder_update (var_name : string)
    (fields : gset string) : M unit :=
  _check_channel_folder_update var_name;;
  data ← event_getitem "data";
  py_assert (isinstance data CDict);;
  keys ← lift (py_keys data);
  py_assert (bool_decide (keys = fields)).

Definition check_has_zoom_token (var_name : string) (value : bool) : M unit :=
  _check_has_zoom_token var_name;;
  v ← event_getitem "value";
  py_assert (py_eq v (VBool value)).

Definition check_realm_emoji_update (var_name : string) : M unit :=
  _check_realm_emoji_update var_name;;
  realm_emoji ← event_getitem "realm_emoji";
  py_assert (isinstance realm_emoji CDict);;
  items ← lift (py_items realm_emoji);
  for_each items (fun '(k, v) =>
    id ← lift (getitem v "id");
    py_assert (py_eq id (VStr k))).

Definition check_realm_export (var_name : string)
    (has_export_url has_deleted_timestamp has_failed_timestamp : bool)
    : M unit :=
  _check_realm_export var_name;;
  exports ← event_getitem "exports";
  py_assert (isinstance exports CList);;
  n ← lift (py_len exports);
  py_assert (Nat.eqb n 1);;
  export ← lift (getitem0 exports);
  export_url ← lift (getitem export "export_url");
  py_assert (Bool.eqb has_export_url (negb (is_none export_url)));;
  deleted_timestamp ← lift (getitem export "deleted_timestamp");
  py_assert (Bool.eqb has_deleted_timestamp
               (negb (is_none deleted_timestamp)));;
  failed_timestamp ← lift (getitem export "failed_timestamp");
  py_assert (Bool.eqb has_failed_timestamp (negb (is_none failed_timestamp))).

Definition check_realm_default_update (var_name : string) (prop : string)
    : M unit :=
  _check_realm_default_update var_name;;
  property ← event_getitem "property";
  py_assert (py_eq (VStr prop) property);;
  py_assert (negb (String.eqb prop "default_language"));;
  py_assert (bool_decide (is_Some (RealmUserDefault_property_types !! prop)));;
  prop_type ← lift (catalog_getitem RealmUserDefault_property_types prop);
  value ← event_getitem "value";
  if is_enum prop_type then
    py_assert (isinstance value CStr);;
    lift (enum_getitem prop_type value)
  else
    py_assert (isinstance_of value prop_type).

Definition check_realm_user_update (var_name : string)
    (person_flavor : string) : M unit :=
  _check_realm_user_update var_name;;
  sub_type ← lift (match PERSON_TYPES !! person_flavor with
                   | Some sub_type => Return sub_type
                   | None => Raise (KeyError person_flavor)
                   end);
  person ← event_getitem "person";
  lift (validate_with_model person sub_type).

Definition check_stream_update (var_name : string) : M unit :=
  _check_stream_update var_name;;
  prop ← event_getitem "property";
  value ← event_getitem "value";
  event ← get_event;
  let extra_keys := dict_keys event ∖ stream_update_keys in
  if py_eq prop (VStr "description") then
    py_assert (bool_decide (extra_keys = {[ "rendered_description" ]}));;
    py_assert (isinstance value CStr)
  else if py_eq prop (VStr "invite_only") then
    py_assert (bool_decide
                 (extra_keys
                  = {[ "history_public_to_subscribers"; "is_web_public" ]}));;
    py_assert (isinstance value CBool)
  else if py_eq prop (VStr "message_retention_days") then
    py_assert (bool_decide (extra_keys = ∅));;
    if negb (is_none value) then py_assert (isinstance value CInt)
    else mret tt
  else if py_eq prop (VStr "name") then
    py_assert (bool_decide (extra_keys = ∅));;
    py_assert (isinstance value CStr)
  else if py_eq prop (VStr "stream_post_policy") then
    py_assert (bool_decide (extra_keys = ∅));;
    py_assert (py_in_list value (map VInt STREAM_POST_POLICY_TYPES))
  else
    is_group_setting ←
      lift (py_in_keys prop stream_permission_group_settings);
    if is_group_setting : bool then
      py_assert (bool_decide (extra_keys = ∅));;
      py_assert (isinstance value CInt || isinstance value CDict);;
      if isinstance value CDict then
        let expected_keys : gset string :=
          list_to_set UserGroupMembersDict_annotations in
        keys ← lift (py_keys value);
        py_assert (bool_decide (expected_keys = keys))
      else mret tt
    else if py_eq prop (VStr "first_message_id") then
      py_assert (bool_decide (extra_keys = ∅));;
      py_assert (isinstance value CInt)
    else if py_eq prop (VStr "topics_policy") then
      py_assert (bool_decide (extra_keys = ∅));;
      py_assert (py_in_list value (map VStr StreamTopicsPolicyEnum))
    else if py_eq prop (VStr "is_recently_active") then
      py_assert (bool_decide (extra_keys = ∅));;
      py_assert (isinstance value CBool)
    else if py_eq prop (VStr "is_announcement_only") then
      py_assert (bool_decide (extra_keys = ∅));;
      py_assert (isinstance value CBool)
    else if py_eq prop (VStr "is_archived") then
      py_assert (bool_decide (extra_keys = ∅));;
      py_assert (isinstance value CBool)
    else if py_eq prop (VStr "folder_id") then
      py_assert (bool_decide (extra_keys = ∅));;
      py_assert (is_none value || isinstance value CInt)
    else
      raise (AssertionError ("Unknown property: " ++ py_str prop)).

Definition check_subscription_update (var_name : string) (property : string)
    (value : bool) : M unit :=
  _check_subscription_update var_name;;
  p ← event_getitem "property";
  py_assert (py_eq p (VStr property));;
  v ← event_getitem "value";
  py_assert (py_eq v (VBool value)).

Definition check_update_display_settings (var_name : string) : M unit :=
  _check_update_display_settings var_name;;
  setting_name ← event_getitem "setting_name";
  setting ← event_getitem "setting";
  py_assert (isinstance setting_name CStr);;
  (if py_eq setting_name (VStr "timezone") then
     py_assert (isinstance setting CStr)
   else
     setting_type ←
       lift (catalog_getitem_obj UserProfile_property_types setting_name);
     py_assert (isinstance_of setting setting_type));;
  event ← get_event;
  if py_eq setting_name (VStr "default_language") then
    py_assert (dict_mem "language_name" event)
  else
    py_assert (negb (dict_mem "language_name" event)).

Definition check_user_settings_update (var_name : string) : M unit :=
  _check_user_settings_update var_name;;
  setting_name ← event_getitem "property";
  value ← event_getitem "value";
  py_assert (isinstance setting_name CStr);;
  (if py_eq setting_name (VStr "timezone") then
     py_assert (isinstance value CStr)
   else
     setting_type ←
       lift (catalog_getitem_obj UserProfile_property_types setting_name);
     if is_enum setting_type then
       py_assert (isinstance value CStr);;
       lift (enum_getitem setting_type value)
     else
       py_assert (isinstance_of value setting_type));;
  event ← get_event;
  if py_eq setting_name (VStr "default_language") then
    py_assert (dict_mem "language_name" event)
  else
    py_assert (negb (dict_mem "language_name" event)).

Definition check_update_global_notifications (var_name : string)
    (desired_val : pyval) : M unit :=
  _check_update_global_notifications var_name;;
  setting_name ← event_getitem "notification_name";
  setting ← event_getitem "setting";
  py_assert (py_eq setting desired_val);;
  py_assert (isinstance setting_name CStr);;
  setting_type ←
    lift (catalog_getitem_obj notification_settings_legacy setting_name);
  py_assert (isinstance_of setting setting_type).

Definition check_user_group_update (var_name : string)
    (fields : gset string) : M unit :=
  _check_user_group_update var_name;;
  data ← event_getitem "data";
  py_assert (isinstance data CDict);;
  keys ← lift (py_keys data);
  py_assert (bool_decide (keys = fields)).

Definition check_user_status (var_name : string) (fields : gset string)
    : M unit :=
  _check_user_status var_name;;
  event ← get_event;
  py_assert (bool_decide
               (dict_keys event = {[ "id"; "type"; "user_id" ]} ∪ fields)).

End Imports.

End EventSchemaRest.
Export EventSchemaRest.

Module Checkers.

(** A computation is silent when no run of it, returning or raising,
    changes the world. *)
Definition silent {A} (c : M A) : Prop := forall w, snd (c w) = w.

(** Everything the module imports, in one record. *)
Record imports : Type := Imports {
  AllowMessageEditingData : model;
  AuthenticationData : model;
  BotServicesEmbedded : model;
  BotServicesOutgoing : model;
  EventChannelFolderUpdate : model;
  EventDeleteMessage : model;
  EventHasZoomToken : model;
  EventMutedTopics : model;
  EventRealmBotAdd : model;
  EventRealmBotUpdate : model;
  EventRealmEmojiUpdate : model;
  EventRealmExport : model;
  EventRealmUpdate : model;
  EventRealmUpdateDict : model;
  EventRealmUserSettingsDefaultsUpdate : model;
  EventRealmUserUpdate : model;
  EventStreamUpdate : model;
  EventSubscriptionUpdate : model;
  EventUpdateDisplaySettings : model;
  EventUpdateGlobalNotifications : model;
  EventUpdateMessage : model;
  EventUserGroupUpdate : model;
  EventUserSettingsUpdate : model;
  EventUserStatus : model;
  GroupSettingUpdateData : model;
  IconData : model;
  LogoData : model;
  MessageContentEditLimitSecondsData : model;
  NightLogoData : model;
  PersonAvatarFields : model;
  PersonBotOwnerId : model;
  PersonCustomProfileField : model;
  PersonDeliveryEmail : model;
  PersonEmail : model;
  PersonFullName : model;
  PersonIsActive : model;
  PersonRole : model;
  PersonTimezone : model;
  PlanTypeData : model;
  RealmTopicsPolicyData : model;
  ORIG_TOPIC : string;
  TOPIC_NAME : string;
  DEFAULT_BOT : Z;
  OUTGOING_WEBHOOK_BOT : Z;
  EMBEDDED_BOT : Z;
  Realm_property_types : gmap string property_type;
  REALM_PERMISSION_GROUP_SETTINGS : list string;
  RealmUserDefault_property_types : gmap string property_type;
  UserProfile_property_types : gmap string property_type;
  notification_settings_legacy : gmap string property_type;
  STREAM_POST_POLICY_TYPES : list Z;
  stream_permission_group_settings : list string;
  UserGroupMembersDict_annotations : list string;
  StreamTopicsPolicyEnum : list string
}.

(** The checkers of the module as one family: those of [checker], and the
    other wrapped checkers with their extra arguments. *)
Inductive wrapped : Type :=
| Of (c : checker)
| ChannelFolderUpdate (fields : gset string)
| HasZoomToken (value : bool)
| RealmEmojiUpdate
| RealmExport (has_export_url has_deleted_timestamp has_failed_timestamp
               : bool)
| RealmDefaultUpdate (prop : string)
| RealmUserUpdate (person_flavor : string)
| StreamUpdate
| SubscriptionUpdate (property : string) (value : bool)
| UpdateDisplaySettings
| UserSettingsUpdate
| UpdateGlobalNotifications (desired_val : pyval)
| UserGroupUpdate (fields : gset string)
| UserStatus (fields : gset string).

(** The model the checker is made from by [make_checker]. *)
Definition base_model (I : imports) (c : wrapped) : model :=
  match c with
  | Of (Plain m) => m
  | Of (DeleteMessage _ _ _) => EventDeleteMessage I
  | Of MutedTopics => EventMutedTopics I
  | Of RealmBotAdd => EventRealmBotAdd I
  | Of (RealmBotUpdate _) => EventRealmBotUpdate I
  | Of (RealmUpdate _) => EventRealmUpdate I
  | Of RealmUpdateDict => EventRealmUpdateDict I
  | Of (UpdateMessage _ _ _ _ _) => EventUpdateMessage I
  | ChannelFolderUpdate _ => EventChannelFolderUpdate I
  | HasZoomToken _ => EventHasZoomToken I
  | RealmEmojiUpdate => EventRealmEmojiUpdate I
  | RealmExport _ _ _ => EventRealmExport I
  | RealmDefaultUpdate _ => EventRealmUserSettingsDefaultsUpdate I
  | RealmUserUpdate _ => EventRealmUserUpdate I
  | StreamUpdate => EventStreamUpdate I
  | SubscriptionUpdate _ _ => EventSubscriptionUpdate I
  | UpdateDisplaySettings => EventUpdateDisplaySettings I
  | UserSettingsUpdate => EventUserSettingsUpdate I
  | UpdateGlobalNotifications _ => EventUpdateGlobalNotifications I
  | UserGroupUpdate _ => EventUserGroupUpdate I
  | UserStatus _ => EventUserStatus I
  end.

Definition run (I : imports) (c : wrapped) (var_name : string) : M unit :=
  match c with
  | Of c' =>
      run_checker (AllowMessageEditingData I) (AuthenticationData I)
        (BotServicesEmbedded I) (BotServicesOutgoing I)
        (EventDeleteMessage I) (EventMutedTopics I) (EventRealmBotAdd I)
        (EventRealmBotUpdate I) (EventRealmUpdate I) (EventRealmUpdateDict I)
        (EventUpdateMessage I) (GroupSettingUpdateData I) (IconData I)
        (LogoData I) (MessageContentEditLimitSecondsData I) (NightLogoData I)
        (PlanTypeData I) (RealmTopicsPolicyData I) (ORIG_TOPIC I)
        (TOPIC_NAME I) (DEFAULT_BOT I) (OUTGOING_WEBHOOK_BOT I)
        (EMBEDDED_BOT I) (Realm_property_types I)
        (REALM_PERMISSION_GROUP_SETTINGS I) c' var_name
  | ChannelFolderUpdate fields =>
      check_channel_folder_update (EventChannelFolderUpdate I) var_name fields
  | HasZoomToken value =>
      check_has_zoom_token (EventHasZoomToken I) var_name value
  | RealmEmojiUpdate =>
      check_realm_emoji_update (EventRealmEmojiUpdate I) var_name
  | RealmExport has_export_url has_deleted_timestamp has_failed_timestamp =>
      check_realm_export (EventRealmExport I) var_name has_export_url
        has_deleted_timestamp has_failed_timestamp
  | RealmDefaultUpdate prop =>
      check_realm_default_update (EventRealmUserSettingsDefaultsUpdate I)
        (RealmUserDefault_property_types I) var_name prop
  | RealmUserUpdate person_flavor =>
      check_realm_user_update (EventRealmUserUpdate I)
        (PersonAvatarFields I) (PersonBotOwnerId I)
        (PersonCustomProfileField I) (PersonDeliveryEmail I) (PersonEmail I)
        (PersonFullName I) (PersonIsActive I) (PersonRole I)
        (PersonTimezone I) var_name person_flavor
  | StreamUpdate =>
      check_stream_update (EventStreamUpdate I) (STREAM_POST_POLICY_TYPES I)
        (stream_permission_group_settings I)
        (UserGroupMembersDict_annotations I) (StreamTopicsPolicyEnum I)
        var_name
  | SubscriptionUpdate property value =>
      check_subscription_update (EventSubscriptionUpdate I) var_name property
        value
  | UpdateDisplaySettings =>
      check_update_display_settings (EventUpdateDisplaySettings I)
        (UserProfile_property_types I) var_name
  | UserSettingsUpdate =>
      check_user_settings_update (EventUserSettingsUpdate I)
        (UserProfile_property_types I) var_name
  | UpdateGlobalNotifications desired_val =>
      check_update_global_notifications (EventUpdateGlobalNotifications I)
        (notification_settings_legacy I) var_name desired_val
  | UserGroupUpdate fields =>
      check_user_group_update (EventUserGroupUpdate I) var_name fields
  | UserStatus fields => check_user_status (EventUserStatus I) var_name fields
  end.

End Checkers.

Module FixturesRest.

Import Fixtures.

(** Modelled from the spec: the models of [zerver.lib.event_types] the other
    checkers are bound to, as closed sets of field declarations with the
    fields those checkers name. *)
Definition update_value : ty := TUnion [TBool; TInt; TStr].

Definition EventChannelFolderUpdate : model :=
  Model "EventChannelFolderUpdate"
    [ required "id" TInt;
      required "type" (TLiteral ["channel_folder"]);
      required "op" (TLiteral ["update"]);
      required "channel_folder_id" TInt;
      required "data"
        (TModel [ optional "name" TStr; optional "description" TStr;
                  optional "rendered_description" TStr;
                  optional "is_archived" TBool ]) ].

Definition EventHasZoomToken : model :=
  Model "EventHasZoomToken"
    [ required "id" TInt;
      required "type" (TLiteral ["has_zoom_token"]);
      required "value" TBool ].

Definition EventRealmEmojiUpdate : model :=
  Model "EventRealmEmojiUpdate"
    [ required "id" TInt;
      required "type" (TLiteral ["realm_emoji"]);
      required "op" (TLiteral ["update"]);
      required "realm_emoji"
        (TDict (TModel [ required "id" TStr; required "name" TStr;
                         required "source_url" TStr;
                         required "deactivated" TBool;
                         required "author_id" TInt ])) ].

Definition EventRealmExport : model :=
  Model "EventRealmExport"
    [ required "id" TInt;
      required "type" (TLiteral ["realm_export"]);
      required "exports"
        (TList (TModel [ required "id" TInt;
                         required "acting_user_id" TInt;
                         required "pending" TBool;
                         required "export_url" (TUnion [TStr; TNone]);
                         required "deleted_timestamp" (TUnion [TInt; TNone]);
                         required "failed_timestamp" (TUnion [TInt; TNone])
                       ])) ].

Definition EventRealmUserSettingsDefaultsUpdate : model :=
  Model "EventRealmUserSettingsDefaultsUpdate"
    [ required "id" TInt;
      required "type" (TLiteral ["realm_user_settings_defaults"]);
      required "op" (TLiteral ["update"]);
      required "property" TStr;
      required "value" update_value ].

Definition EventRealmUserUpdate : model :=
  Model "EventRealmUserUpdate"
    [ required "id" TInt;
      required "type" (TLiteral ["realm_user"]);
      required "op" (TLiteral ["update"]);
      required "person" (TModel [ required "user_id" TInt ]) ].

Definition PersonAvatarFields : model :=
  Model "PersonAvatarFields"
    [ required "user_id" TInt; required "avatar_source" TStr;
      required "avatar_url" (TUnion [TStr; TNone]);
      required "avatar_url_medium" (TUnion [TStr; TNone]);
      required "avatar_version" TInt ].
Definition PersonBotOwnerId : model :=
  Model "PersonBotOwnerId"
    [ required "user_id" TInt; required "bot_owner_id" TInt ].
Definition PersonCustomProfileField : model :=
  Model "PersonCustomProfileField"
    [ required "user_id" TInt;
      required "custom_profile_field"
        (TModel [ required "id" TInt;
                  required "value" (TUnion [TStr; TNone]) ]) ].
Definition PersonDeliveryEmail : model :=
  Model "PersonDeliveryEmail"
    [ required "user_id" TInt;
      required "delivery_email" (TUnion [TStr; TNone]) ].
Definition PersonEmail : model :=
  Model "PersonEmail" [ required "user_id" TInt; required "new_email" TStr ].
Definition PersonFullName : model :=
  Model "PersonFullName"
    [ required "user_id" TInt; required "full_name" TStr ].
Definition PersonIsActive : model :=
  Model "PersonIsActive"
    [ required "user_id" TInt; required "is_active" TBool ].
Definition PersonRole : model :=
  Model "PersonRole" [ required "user_id" TInt; required "role" TInt ].
Definition PersonTimezone : model :=
  Model "PersonTimezone"
    [ required "user_id" TInt; required "email" TStr;
      required "timezone" TStr ].

Definition EventStreamUpdate : model :=
  Model "EventStreamUpdate"
    [ required "id" TInt;
      required "type" (TLiteral ["stream"]);
      required "op" (TLiteral ["update"]);
      required "property" TStr;
      required "value" (TUnion [TBool; TInt; TStr; TDict TAny; TNone]);
      required "name" TStr;
      required "stream_id" TInt;
      optional "rendered_description" TStr;
      optional "history_public_to_subscribers" TBool;
      optional "is_web_public" TBool ].

Definition EventSubscriptionUpdate : model :=
  Model "EventSubscriptionUpdate"
    [ required "id" TInt;
      required "type" (TLiteral ["subscription"]);
      required "op" (TLiteral ["update"]);
      required "property" TStr;
      required "stream_id" TInt;
      required "value" update_value ].

Definition EventUpdateDisplaySettings : model :=
  Model "EventUpdateDisplaySettings"
    [ required "id" TInt;
      required "type" (TLiteral ["update_display_settings"]);
      required "setting_name" TStr;
      required "setting" update_value;
      required "user" TStr;
      optional "language_name" TStr ].

Definition EventUpdateGlobalNotifications : model :=
  Model "EventUpdateGlobalNotifications"
    [ required "id" TInt;
      required "type" (TLiteral ["update_global_notifications"]);
      required "notification_name" TStr;
      required "setting" update_value;
      required "user" TStr ].

Definition EventUserGroupUpdate : model :=
  Model "EventUserGroupUpdate"
    [ required "id" TInt;
      required "type" (TLiteral ["user_group"]);
      required "op" (TLiteral ["update"]);
      required "group_id" TInt;
      required "data"
        (TModel [ optional "name" TStr; optional "description" TStr;
                  optional "deactivated" TBool ]) ].

Definition EventUserSettingsUpdate : model :=
  Model "EventUserSettingsUpdate"
    [ required "id" TInt;
      required "type" (TLiteral ["user_settings"]);
      required "op" (TLiteral ["update"]);
      required "property" TStr;
      required "value" update_value;
      optional "language_name" TStr ].

Definition EventUserStatus : model :=
  Model "EventUserStatus"
    [ required "id" TInt;
      required "type" (TLiteral ["user_status"]);
      required "user_id" TInt;
      optional "away" TBool;
      optional "status_text" TStr;
      optional "emoji_name" TStr;
      optional "emoji_code" TStr;
      optional "reaction_type" TStr ].

(** Modelled from the spec: values for the attributes of [zerver.models] and
    [zerver.lib.types] the other checkers read: catalogs with a boolean, an
    integer, a string and an enumeration, two stream post policies, two
    permission-group settings of a stream, the two keys of a group-members
    dictionary and the member names of the topics policy. *)
Definition RealmUserDefault_property_types : gmap string property_type :=
  list_to_map
    [ ("twenty_four_hour_time", PClass CBool);
      ("web_font_size_px", PClass CInt);
      ("web_channel_default_view", PEnum ["CHANNEL_FEED"; "TOPIC_LIST"]) ].

Definition UserProfile_property_types : gmap string property_type :=
  list_to_map
    [ ("default_language", PClass CStr);
      ("twenty_four_hour_time", PClass CBool);
      ("web_font_size_px", PClass CInt);
      ("web_channel_default_view", PEnum ["CHANNEL_FEED"; "TOPIC_LIST"]) ].

Definition notification_settings_legacy : gmap string property_type :=
  list_to_map
    [ ("enable_sounds", PClass CBool);
      ("notification_sound", PClass CStr);
      ("desktop_icon_count_display", PClass CInt) ].

Definition STREAM_POST_POLICY_TYPES : list Z := [1; 2; 3; 4].
Definition stream_permission_group_settings : list string :=
  [ "can_administer_channel_group"; "can_send_message_group" ].
Definition UserGroupMembersDict_annotations : list string :=
  [ "direct_members"; "direct_subgroups" ].
Definition StreamTopicsPolicyEnum : list string :=
  [ "inherit"; "allow_empty_topic"; "disable_empty_topic" ].

Definition env : Checkers.imports :=
  Checkers.Imports
    AllowMessageEditingData AuthenticationData BotServicesEmbedded
    BotServicesOutgoing EventChannelFolderUpdate EventDeleteMessage
    EventHasZoomToken EventMutedTopics EventRealmBotAdd EventRealmBotUpdate
    EventRealmEmojiUpdate EventRealmExport EventRealmUpdate
    EventRealmUpdateDict EventRealmUserSettingsDefaultsUpdate
    EventRealmUserUpdate EventStreamUpdate EventSubscriptionUpdate
    EventUpdateDisplaySettings EventUpdateGlobalNotifications
    EventUpdateMessage EventUserGroupUpdate EventUserSettingsUpdate
    EventUserStatus GroupSettingUpdateData IconData LogoData
    MessageContentEditLimitSecondsData NightLogoData PersonAvatarFields
    PersonBotOwnerId PersonCustomProfileField PersonDeliveryEmail PersonEmail
    PersonFullName PersonIsActive PersonRole PersonTimezone PlanTypeData
    RealmTopicsPolicyData ORIG_TOPIC TOPIC_NAME DEFAULT_BOT
    OUTGOING_WEBHOOK_BOT EMBEDDED_BOT property_types
    REALM_PERMISSION_GROUP_SETTINGS RealmUserDefault_property_types
    UserProfile_property_types notification_settings_legacy
    STREAM_POST_POLICY_TYPES stream_permission_group_settings
    UserGroupMembersDict_annotations StreamTopicsPolicyEnum.

End FixturesRest.

(* ===================================================================== *)
(** ** Facts about values and validation *)
(* ===================================================================== *)

Section PyFacts.

Lemma dict_get_keys (k : string) (kvs : pydict) :
  k ∈ dict_keys kvs <-> is_Some (dict_get k kvs).
Proof.
  unfold dict_keys. induction kvs as [|[k' v] rest IH]; simpl.
  - rewrite elem_of_empty. split; [tauto | intros [x Hx]; discriminate].
  - rewrite elem_of_union, elem_of_singleton, IH.
    destruct (String.eqb_spec k k') as [->|Hne].
    + split; [eauto | tauto].
    + split; [intros [?|?]; [contradiction | assumption] | tauto].
Qed.

Lemma dict_get_Some_keys (k : string) (kvs : pydict) (v : pyval) :
  dict_get k kvs = Some v -> k ∈ dict_keys kvs.
Proof. intros H. apply dict_get_keys. eauto. Qed.

Lemma dict_get_None_keys (k : string) (kvs : pydict) :
  dict_get k kvs = None <-> k ∉ dict_keys kvs.
Proof.
  rewrite dict_get_keys. destruct (dict_get k kvs); split; intros H.
  - discriminate.
  - exfalso. apply H. eauto.
  - intros [x Hx]. discriminate.
  - reflexivity.
Qed.

Lemma dict_keys_app (kvs kws : pydict) :
  dict_keys (kvs ++ kws) = dict_keys kvs ∪ dict_keys kws.
Proof. unfold dict_keys. rewrite map_app. apply list_to_set_app_L. Qed.

Lemma py_eq_str_r (v : pyval) (s : string) :
  py_eq v (VStr s) = true <-> v = VStr s.
Proof.
  destruct v; simpl; try (split; [discriminate | congruence]).
  rewrite String.eqb_eq. split; congruence.
Qed.

Lemma py_eq_str_l (v : pyval) (s : string) :
  py_eq (VStr s) v = true <-> v = VStr s.
Proof.
  destruct v; simpl; try (split; [discriminate | congruence]).
  rewrite String.eqb_eq. split; congruence.
Qed.

Lemma py_eq_empty_list (v : pyval) :
  py_eq v (VList []) = true <-> v = VList [].
Proof.
  destruct v as [| | | |xs|xs|kvs]; simpl;
    try (split; [discriminate | congruence]).
  destruct xs; split; congruence.
Qed.

Lemma py_eq_int_r (v : pyval) (n : Z) :
  py_eq v (VInt n) = true <-> as_number v = Some n.
Proof.
  destruct v; simpl; try (split; [discriminate | congruence]).
  - rewrite Z.eqb_eq. split; congruence.
  - rewrite Z.eqb_eq. split; congruence.
Qed.

Lemma py_eq_bool_r (v : pyval) (b : bool) :
  py_eq v (VBool b) = true <-> as_number v = Some (Z.b2z b).
Proof.
  destruct v; simpl; try (split; [discriminate | congruence]).
  - rewrite Z.eqb_eq. split; congruence.
  - rewrite Z.eqb_eq. split; congruence.
Qed.

Lemma conforms_TModel (fields : list field) (kvs : pydict) :
  conforms (TModel fields) (VDict kvs) = forallb (field_ok kvs) fields.
Proof.
  induction fields as [|[name t r] rest IH]; [reflexivity|].
  simpl in *. rewrite IH. reflexivity.
Qed.

Lemma model_validate_dict (m : model) (kvs : pydict) :
  model_validate m (VDict kvs) =
  if forallb (field_ok kvs) (model_fields m) then Return tt
  else Raise ValidationError.
Proof. unfold model_validate. rewrite conforms_TModel. reflexivity. Qed.

(** A declared field whose value does not conform makes validation fail. *)
Lemma model_validate_mismatch (m : model) (kvs : pydict) (f : field)
    (v : pyval) :
  In f (model_fields m) ->
  dict_get (fname f) kvs = Some v ->
  conforms (ftype f) v = false ->
  model_validate m (VDict kvs) = Raise ValidationError.
Proof.
  intros Hin Hget Hbad. rewrite model_validate_dict.
  destruct (forallb (field_ok kvs) (model_fields m)) eqn:Hall; [|reflexivity].
  rewrite forallb_forall in Hall. specialize (Hall f Hin).
  unfold field_ok in Hall. rewrite Hget in Hall. congruence.
Qed.

Lemma validate_with_model_dict (kvs : pydict) (m : model) :
  validate_with_model (VDict kvs) m =
  if bool_decide (dict_keys kvs ⊆ field_names m)
  then model_validate m (VDict kvs)
  else Raise (ValueError (dict_keys kvs ∖ field_names m)).
Proof. reflexivity. Qed.

Lemma validate_with_model_ok (data : pyval) (m : model) :
  validate_with_model data m = Return tt ->
  exists kvs, data = VDict kvs /\ dict_keys kvs ⊆ field_names m
              /\ forallb (field_ok kvs) (model_fields m) = true.
Proof.
  destruct data; try discriminate. rewrite validate_with_model_dict.
  case_bool_decide as Hsub; [|discriminate].
  rewrite model_validate_dict.
  destruct (forallb _ _) eqn:Hall; [|discriminate].
  intros _. eauto.
Qed.

End PyFacts.

(* ===================================================================== *)
(** ** Facts about runs *)
(* ===================================================================== *)

Section RunFacts.

Context {A B : Type}.

Lemma bind_run (c : M A) (k : A -> M B) (w : world) :
  (c ≫= k) w =
  match c w with
  | (inr a, w') => k a w'
  | (inl e, w') => (inl e, w')
  end.
Proof. reflexivity. Qed.

Lemma bind_inr (c : M A) (k : A -> M B) (w w' : world) (b : B) :
  (c ≫= k) w = (inr b, w') ->
  exists a w1, c w = (inr a, w1) /\ k a w1 = (inr b, w').
Proof.
  rewrite bind_run. destruct (c w) as [[e|a] w1]; [discriminate|]. eauto.
Qed.

Lemma bind_inl (c : M A) (k : A -> M B) (w w' : world) (e : exn) :
  c w = (inl e, w') -> (c ≫= k) w = (inl e, w').
Proof. intros H. rewrite bind_run, H. reflexivity. Qed.

Lemma bind_step (c : M A) (k : A -> M B) (w w' : world) (a : A) :
  c w = (inr a, w') -> (c ≫= k) w = k a w'.
Proof. intros H. rewrite bind_run, H. reflexivity. Qed.

Lemma lift_inr (r : result A) (w w' : world) (a : A) :
  lift r w = (inr a, w') -> r = inr a /\ w' = w.
Proof. unfold lift. intros [= -> ->]. auto. Qed.

Lemma mret_inr (a a' : A) (w w' : world) :
  (mret a : M A) w = (inr a', w') -> a = a' /\ w' = w.
Proof. intros [= -> ->]. auto. Qed.

Lemma raise_inr (e : exn) (w w' : world) (a : A) :
  raise e w = (inr a, w') -> False.
Proof. discriminate. Qed.

End RunFacts.

Section RunFacts2.

Lemma py_assert_inr (b : bool) (w w' : world) (u : unit) :
  py_assert b w = (inr u, w') -> b = true /\ w' = w.
Proof. destruct b; [intros [= ? <-]; auto | discriminate]. Qed.

Lemma py_assert_true (b : bool) (w : world) :
  b = true -> py_assert b w = (inr tt, w).
Proof. intros ->. reflexivity. Qed.

Lemma py_assert_false (b : bool) (w : world) :
  b = false -> py_assert b w = (inl (AssertionError ""), w).
Proof. intros ->. reflexivity. Qed.

Lemma get_event_inr (w w' : world) (event : pydict) :
  get_event w = (inr event, w') -> event = w_event w /\ w' = w.
Proof. intros [= <- <-]. auto. Qed.

Lemma event_getitem_run (k : string) (w : world) :
  event_getitem k w =
  (match dict_get k (w_event w) with
   | Some v => inr v
   | None => inl (KeyError k)
   end, w).
Proof.
  unfold event_getitem. rewrite bind_run. simpl. unfold lift. simpl.
  destruct (dict_get k (w_event w)); reflexivity.
Qed.

Lemma event_getitem_inr (k : string) (w w' : world) (v : pyval) :
  event_getitem k w = (inr v, w') ->
  dict_get k (w_event w) = Some v /\ w' = w.
Proof.
  rewrite event_getitem_run.
  destruct (dict_get k (w_event w)); [intros [= -> ->]; auto | discriminate].
Qed.

Lemma make_checker_run (m : model) (label : string) (w : world) :
  make_checker m label w =
  match validate_with_model (VDict (w_event w)) m with
  | inr u => (inr u, w)
  | inl e =>
      (inl e,
       World (w_event w)
         ((w_stdout w ++ [Banner label m]) ++ [Pprint (w_event w)]))
  end.
Proof.
  unfold make_checker. rewrite bind_run. simpl. unfold try_except, lift.
  destruct (validate_with_model (VDict (w_event w)) m); reflexivity.
Qed.

Lemma make_checker_inr (m : model) (label : string) (w w' : world) (u : unit) :
  make_checker m label w = (inr u, w') ->
  validate_with_model (VDict (w_event w)) m = Return tt /\ w' = w.
Proof.
  rewrite make_checker_run.
  destruct (validate_with_model (VDict (w_event w)) m) as [e|[]];
    [discriminate | intros [= -> ->]; auto].
Qed.

Lemma make_checker_ok (m : model) (label : string) (w : world) :
  validate_with_model (VDict (w_event w)) m = Return tt ->
  make_checker m label w = (inr tt, w).
Proof. intros H. rewrite make_checker_run, H. reflexivity. Qed.

Lemma bind_assoc {X Y Z} (c : M X) (k1 : X -> M Y) (k2 : Y -> M Z)
    (w : world) :
  ((c ≫= k1) ≫= k2) w = (c ≫= (fun a => k1 a ≫= k2)) w.
Proof. rewrite !bind_run. destruct (c w) as [[e|a] w']; reflexivity. Qed.

Lemma bind_mret {X Y} (a : X) (k : X -> M Y) (w : world) :
  (mret a ≫= k) w = k a w.
Proof. reflexivity. Qed.

Lemma bind_lift_Return {X Y} (a : X) (k : X -> M Y) (w : world) :
  (lift (Return a) ≫= k) w = k a w.
Proof. reflexivity. Qed.

Lemma bind_lift_Raise {X Y} (e : exn) (k : X -> M Y) (w : world) :
  (lift (Raise e) ≫= k) w = (Raise e, w).
Proof. reflexivity. Qed.

Lemma bind_get_event {Y} (k : pydict -> M Y) (w : world) :
  (get_event ≫= k) w = k (w_event w) w.
Proof. reflexivity. Qed.

Lemma bind_py_assert_true {Y} (k : unit -> M Y) (w : world) :
  (py_assert true ≫= k) w = k tt w.
Proof. reflexivity. Qed.

Lemma bind_py_assert_false {Y} (k : unit -> M Y) (w : world) :
  (py_assert false ≫= k) w = (Raise (AssertionError ""), w).
Proof. reflexivity. Qed.

Lemma bind_raise {X Y} (e : exn) (k : X -> M Y) (w : world) :
  (raise e ≫= k) w = (Raise e, w).
Proof. reflexivity. Qed.

Lemma bind_event_getitem {Y} (key : string) (k : pyval -> M Y) (w : world)
    (v : pyval) :
  dict_get key (w_event w) = Some v ->
  (event_getitem key ≫= k) w = k v w.
Proof. intros H. rewrite bind_run, event_getitem_run, H. reflexivity. Qed.

Lemma bind_make_checker_ok {Y} (m : model) (label : string)
    (k : unit -> M Y) (w : world) :
  validate_with_model (VDict (w_event w)) m = Return tt ->
  (make_checker m label ≫= k) w = k tt w.
Proof. intros H. rewrite bind_run, (make_checker_ok _ _ _ H). reflexivity. Qed.

Lemma succeeds_run {X} (c : M X) (w : world) :
  succeeds c w <-> exists a w', c w = (inr a, w').
Proof.
  unfold succeeds. destruct (c w) as [r w']; simpl. split.
  - intros [a ->]. eauto.
  - intros (a & w'' & [= -> _]). eauto.
Qed.

Lemma fails_run {X} (c : M X) (w : world) :
  fails c w <-> exists e w', c w = (inl e, w').
Proof.
  unfold fails. destruct (c w) as [r w']; simpl. split.
  - intros [e ->]. eauto.
  - intros (e & w'' & [= -> _]). eauto.
Qed.

Lemma fails_not_succeeds {X} (c : M X) (w : world) :
  fails c w <-> ~ succeeds c w.
Proof.
  unfold fails, succeeds. destruct (fst (c w)) as [e|a]; split.
  - intros _ [a Ha]. discriminate.
  - eauto.
  - intros [e He]. discriminate.
  - intros H. exfalso. apply H. eauto.
Qed.

End RunFacts2.

(** Inversion of a run that returned: one step per bind, with the world
    carried through. *)
Ltac run_inv1 :=
  match goal with
  | H : (_ ≫= _) _ = (inr _, _) |- _ =>
      let a := fresh "a" in let w := fresh "w" in let Ha := fresh "Hrun" in
      apply bind_inr in H; destruct H as (a & w & Ha & H)
  | H : make_checker _ _ _ = (inr _, _) |- _ =>
      apply make_checker_inr in H; destruct H as [H ->]
  | H : event_getitem _ _ = (inr _, _) |- _ =>
      apply event_getitem_inr in H; destruct H as [H ->]
  | H : get_event _ = (inr _, _) |- _ =>
      apply get_event_inr in H; destruct H as [-> ->]
  | H : py_assert _ _ = (inr _, _) |- _ =>
      apply py_assert_inr in H; destruct H as [H ->]
  | H : lift _ _ = (inr _, _) |- _ =>
      apply lift_inr in H; destruct H as [H ->]
  | H : mret _ _ = (inr _, _) |- _ =>
      apply mret_inr in H; destruct H as [<- ->]
  | H : raise _ _ = (inr _, _) |- _ =>
      exfalso; exact (raise_inr _ _ _ _ H)
  end.

Ltac run_inv := repeat run_inv1.

(** Running forward through the steps whose outcome is known. *)
Ltac run_fwd :=
  repeat first
    [ rewrite bind_assoc
    | rewrite bind_mret
    | rewrite bind_lift_Return
    | rewrite bind_lift_Raise
    | rewrite bind_get_event
    | rewrite bind_py_assert_true
    | rewrite bind_py_assert_false
    | rewrite bind_raise
    | erewrite bind_event_getitem by eassumption
    | erewrite bind_make_checker_ok by eassumption ].

(** Boolean tests that held, as propositions. *)
Ltac norm_hyps :=
  repeat match goal with
  | H : Z.eqb _ _ = true |- _ => apply Z.eqb_eq in H
  | H : Nat.eqb _ _ = true |- _ => apply Nat.eqb_eq in H
  | H : String.eqb _ _ = true |- _ => apply String.eqb_eq in H
  | H : bool_decide _ = true |- _ => apply bool_decide_eq_true_1 in H
  | H : py_eq _ (VStr _) = true |- _ => apply py_eq_str_r in H
  | H : py_eq (VStr _) _ = true |- _ => apply py_eq_str_l in H
  | H : py_eq _ (VList []) = true |- _ => apply py_eq_empty_list in H
  end.

(** Comparisons of two string constants, evaluated. *)
Ltac eval_py_eq :=
  repeat match goal with
  | |- context [py_eq (VStr ?a) (VStr ?b)] =>
      let r := eval vm_compute in (py_eq (VStr a) (VStr b)) in
      change (py_eq (VStr a) (VStr b)) with r
  end; cbv iota.

(** A decidable closed proposition, settled by evaluating its decision. *)
Ltac decide_by_compute :=
  match goal with
  | |- ?P => apply (bool_decide_unpack P); vm_compute; exact I
  end.

(* ===================================================================== *)
(** ** Order of the checks in [validate_with_model] *)
(* ===================================================================== *)

(** C9.  In [validate_with_model] the unknown-field check comes before any
    type validation: for an event that has a key [k] the model does not
    declare and also a declared field [f] whose value does not conform to
    its type, the error raised is the extra-fields [ValueError], carrying the
    offending keys ([k] among them), although [model_validate] alone raises
    the type-mismatch error on that event; a checker made by [make_checker]
    raises the same [ValueError]. *)
Theorem validate_with_model_extra_fields_first
    (data : pydict) (m : model) (k : string) (f : field) (v : pyval) :
  k ∈ dict_keys data ->
  k ∉ field_names m ->
  In f (model_fields m) ->
  dict_get (fname f) data = Some v ->
  conforms (ftype f) v = false ->
  validate_with_model (VDict data) m
    = Raise (ValueError (dict_keys data ∖ field_names m))
  /\ k ∈ dict_keys data ∖ field_names m
  /\ validate_with_model (VDict data) m <> Raise ValidationError
  /\ model_validate m (VDict data) = Raise ValidationError
  /\ forall (label : string) (out : list output),
       raises (make_checker m label) (World data out)
         (ValueError (dict_keys data ∖ field_names m)).
Proof.
  intros Hk Hnk Hin Hget Hbad.
  assert (Hv : validate_with_model (VDict data) m
               = Raise (ValueError (dict_keys data ∖ field_names m))).
  { rewrite validate_with_model_dict. case_bool_decide as Hsub; [|reflexivity].
    exfalso. apply Hnk, Hsub, Hk. }
  split; [exact Hv|]. split; [apply elem_of_difference; auto|].
  split; [rewrite Hv; discriminate|].
  split; [eapply model_validate_mismatch; eassumption|].
  intros label out. unfold raises. rewrite make_checker_run. simpl.
  rewrite Hv. reflexivity.
Qed.

Lemma validate_with_model_extra_fields_first_witness :
  let data :=
    [("id", VStr "7"); ("type", VStr "realm"); ("op", VStr "update");
     ("property", VStr "name"); ("value", VStr "x"); ("colour", VInt 1)] in
  validate_with_model (VDict data) Fixtures.EventRealmUpdate
  = Raise
      (ValueError (dict_keys data ∖ field_names Fixtures.EventRealmUpdate))
  /\ "colour" ∈ dict_keys data ∖ field_names Fixtures.EventRealmUpdate.
Proof.
  intros data.
  assert (H1 : "colour" ∈ dict_keys data) by decide_by_compute.
  assert (H2 : "colour" ∉ field_names Fixtures.EventRealmUpdate)
    by decide_by_compute.
  assert (H3 : In (Field "id" TInt true)
                 (model_fields Fixtures.EventRealmUpdate))
    by (simpl; auto).
  destruct (validate_with_model_extra_fields_first data
              Fixtures.EventRealmUpdate "colour" (Field "id" TInt true)
              (VStr "7") H1 H2 H3 eq_refl eq_refl) as (Ha & Hb & _).
  split; assumption.
Defined.

(* ===================================================================== *)
(** ** [check_realm_bot_update] *)
(* ===================================================================== *)

(** C10.  [check_realm_bot_update] called with [field = "user_id"] accepts an
    event that passes the schema check and whose nested [bot] object has the
    single key ["user_id"], and only such an event: the required key set
    [{"user_id", field}] collapses to the one element ["user_id"]. *)
Theorem check_realm_bot_update_user_id_field
    (EventRealmBotUpdate : model) (var_name : string) (w : world)
    (bot : pydict) :
  validate_with_model (VDict (w_event w)) EventRealmBotUpdate = Return tt ->
  dict_get "bot" (w_event w) = Some (VDict bot) ->
  ({[ "user_id"; "user_id" ]} : gset string) = {[ "user_id" ]}
  /\ (dict_keys bot = {[ "user_id" ]} ->
      check_realm_bot_update EventRealmBotUpdate var_name "user_id" w
      = (Return tt, w))
  /\ (succeeds (check_realm_bot_update EventRealmBotUpdate var_name "user_id") w
      -> dict_keys bot = {[ "user_id" ]}).
Proof.
  intros Hbase Hbot.
  assert (Hset : ({[ "user_id"; "user_id" ]} : gset string) = {[ "user_id" ]})
    by set_solver.
  split; [exact Hset|]. split.
  - intros Hkeys. unfold check_realm_bot_update, _check_realm_bot_update.
    run_fwd. simpl. run_fwd. rewrite Hkeys, Hset.
    rewrite bool_decide_eq_true_2; reflexivity.
  - intros Hok. apply succeeds_run in Hok. destruct Hok as ([] & w' & Hok).
    unfold check_realm_bot_update, _check_realm_bot_update in Hok.
    run_inv. rewrite Hbot in Hrun0. injection Hrun0 as <-.
    simpl in Hrun2. injection Hrun2 as <-.
    apply bool_decide_eq_true_1 in Hok. rewrite <- Hok. exact Hset.
Qed.

Lemma check_realm_bot_update_user_id_field_witness :
  check_realm_bot_update Fixtures.EventRealmBotUpdate "bot" "user_id"
    (Fixtures.world_of
       [("id", VInt 0); ("type", VStr "realm_bot"); ("op", VStr "update");
        ("bot", VDict [("user_id", VInt 5)])])
  = (Return tt,
     Fixtures.world_of
       [("id", VInt 0); ("type", VStr "realm_bot"); ("op", VStr "update");
        ("bot", VDict [("user_id", VInt 5)])]).
Proof.
  refine (proj1 (proj2 (check_realm_bot_update_user_id_field
    Fixtures.EventRealmBotUpdate "bot"
    (Fixtures.world_of
       [("id", VInt 0); ("type", VStr "realm_bot"); ("op", VStr "update");
        ("bot", VDict [("user_id", VInt 5)])])
    [("user_id", VInt 5)] _ _)) _).
  - vm_compute. reflexivity.
  - reflexivity.
  - decide_by_compute.
Defined.

(* ===================================================================== *)
(** ** [check_delete_message] *)
(* ===================================================================== *)

(** The key set [check_delete_message] compares the event's keys with. *)
Lemma check_delete_message_inv
    (EventDeleteMessage : model) (var_name message_type : string)
    (num_message_ids : Z) (is_legacy : bool) (w : world) :
  succeeds (check_delete_message EventDeleteMessage var_name message_type
              num_message_ids is_legacy) w ->
  validate_with_model (VDict (w_event w)) EventDeleteMessage = Return tt
  /\ (message_type = "stream" \/ message_type = "private")
  /\ dict_get "message_type" (w_event w) = Some (VStr message_type)
  /\ dict_keys (w_event w) =
       ({[ "id"; "type"; "message_type" ]}
        ∪ (if String.eqb message_type "stream"
           then {[ "stream_id"; "topic" ]} else ∅))
       ∪ (if is_legacy then {[ "message_id" ]} else {[ "message_ids" ]})
  /\ (if is_legacy then num_message_ids = 1
      else exists ids,
          dict_get "message_ids" (w_event w) = Some (VList ids)
          /\ num_message_ids = Z.of_nat (length ids)).
Proof.
  intros Hok. apply succeeds_run in Hok. destruct Hok as ([] & w' & Hok).
  unfold check_delete_message, _check_delete_message in Hok.
  run_inv.
  apply py_eq_str_r in Hrun1. subst a0.
  apply bool_decide_eq_true_1 in Hok.
  split; [assumption|].
  assert (Hmt : (message_type = "stream" \/ message_type = "private")
                /\ a2 = {[ "id"; "type"; "message_type" ]}
                        ∪ (if String.eqb message_type "stream"
                           then {[ "stream_id"; "topic" ]} else ∅)
                /\ w3 = w).
  { destruct (String.eqb_spec message_type "stream") as [->|Hns].
    - run_inv. auto.
    - destruct (String.eqb_spec message_type "private") as [->|Hnp].
      + run_inv. split; [auto|]. rewrite union_empty_r_L. auto.
      + run_inv. }
  destruct Hmt as (Hmt & -> & ->). clear Hrun2.
  split; [exact Hmt|]. split; [exact Hrun0|].
  destruct is_legacy.
  - run_inv. norm_hyps. auto.
  - run_inv. norm_hyps. split; [assumption|].
    match goal with
    | H : isinstance ?v CList = true |- _ => destruct v; try discriminate H
    end.
    match goal with
    | H : lift (py_len _) _ = _ |- _ => injection H as <- <-
    | H : py_len _ = _ |- _ => injection H as <-
    end.
    eauto.
Qed.

(** C3.  [check_delete_message] succeeds only when [message_type] is
    ["stream"] or ["private"] and the event's key set is exactly
    [{id, type, message_type}], plus [{stream_id, topic}] for ["stream"] and
    nothing for ["private"], plus [message_id] in legacy mode, where
    [num_message_ids] must be 1, or [message_ids] otherwise, which must be a
    list of length [num_message_ids].  So it fails for [is_legacy = True] with
    [num_message_ids = 2], and for [message_type = "bogus"]. *)
Theorem check_delete_message_key_set
    (EventDeleteMessage : model) (var_name : string) :
  (forall (message_type : string) (num_message_ids : Z) (is_legacy : bool)
          (w : world),
      succeeds (check_delete_message EventDeleteMessage var_name message_type
                  num_message_ids is_legacy) w ->
      (message_type = "stream" \/ message_type = "private")
      /\ dict_get "message_type" (w_event w) = Some (VStr message_type)
      /\ dict_keys (w_event w) =
           ({[ "id"; "type"; "message_type" ]}
            ∪ (if String.eqb message_type "stream"
               then {[ "stream_id"; "topic" ]} else ∅))
           ∪ (if is_legacy then {[ "message_id" ]} else {[ "message_ids" ]})
      /\ (if is_legacy then num_message_ids = 1
          else exists ids,
              dict_get "message_ids" (w_event w) = Some (VList ids)
              /\ num_message_ids = Z.of_nat (length ids)))
  /\ (forall (message_type : string) (w : world),
         fails (check_delete_message EventDeleteMessage var_name message_type
                  2 true) w)
  /\ (forall (num_message_ids : Z) (is_legacy : bool) (w : world),
         fails (check_delete_message EventDeleteMessage var_name "bogus"
                  num_message_ids is_legacy) w).
Proof.
  split; [|split].
  - intros message_type n is_legacy w Hok.
    apply check_delete_message_inv in Hok. tauto.
  - intros message_type w. apply fails_not_succeeds. intros Hok.
    apply check_delete_message_inv in Hok.
    destruct Hok as (_ & _ & _ & _ & Hn). discriminate.
  - intros n is_legacy w. apply fails_not_succeeds. intros Hok.
    apply check_delete_message_inv in Hok.
    destruct Hok as (_ & [H|H] & _); discriminate.
Qed.

Lemma check_delete_message_key_set_witness :
  dict_keys
    [("id", VInt 0); ("type", VStr "delete_message");
     ("message_type", VStr "stream"); ("message_ids", VList [VInt 1; VInt 2]);
     ("stream_id", VInt 3); ("topic", VStr "lunch")]
  = ({[ "id"; "type"; "message_type" ]} ∪ {[ "stream_id"; "topic" ]})
    ∪ {[ "message_ids" ]}.
Proof.
  refine (proj1 (proj2 (proj2 (proj1
    (check_delete_message_key_set Fixtures.EventDeleteMessage "events[0]")
    "stream" 2 false
    (Fixtures.world_of
       [("id", VInt 0); ("type", VStr "delete_message");
        ("message_type", VStr "stream");
        ("message_ids", VList [VInt 1; VInt 2]);
        ("stream_id", VInt 3); ("topic", VStr "lunch")]) _)))).
  exists tt. vm_compute. reflexivity.
Defined.

(* ===================================================================== *)
(** ** [check_muted_topics] *)
(* ===================================================================== *)

Section Loops.

Context {X : Type}.

(** A loop whose body leaves the world alone returns when every iteration
    does. *)
Lemma for_each_inr (P : X -> Prop) (body : X -> M unit) (xs : list X) :
  (forall x w u w', body x w = (inr u, w') -> w' = w /\ P x) ->
  forall w u w', for_each xs body w = (inr u, w') -> w' = w /\ Forall P xs.
Proof.
  intros Hbody. induction xs as [|x rest IH]; intros w u w' Hrun.
  - simpl in Hrun. run_inv. split; [reflexivity | constructor].
  - simpl in Hrun. apply bind_inr in Hrun.
    destruct Hrun as (u1 & w1 & Hx & Hrest).
    apply Hbody in Hx. destruct Hx as [-> Hx].
    apply IH in Hrest. destruct Hrest as [-> Hrest].
    split; [reflexivity | constructor; assumption].
Qed.

Lemma for_each_ok (body : X -> M unit) (xs : list X) (w : world) :
  (forall x, In x xs -> body x w = (inr tt, w)) ->
  for_each xs body w = (inr tt, w).
Proof.
  induction xs as [|x rest IH]; intros Hbody; [reflexivity|].
  simpl. rewrite bind_run, (Hbody x) by (left; reflexivity).
  apply IH. intros y Hy. apply Hbody. right. exact Hy.
Qed.

Lemma for_each_inl (body : X -> M unit) (xs : list X) (w : world) (x : X) :
  (forall y, exists r, body y w = (r, w)) ->
  In x xs -> fails (body x) w -> fails (for_each xs body) w.
Proof.
  intros Hquiet Hin Hbad. induction xs as [|y rest IH]; [destruct Hin|].
  simpl. apply fails_run. rewrite bind_run.
  destruct (Hquiet y) as [[e|[]] Hy]; rewrite Hy; [eauto|].
  destruct Hin as [->|Hin].
  - apply fails_run in Hbad. destruct Hbad as (e & w' & Hbad). congruence.
  - apply fails_run. apply IH. exact Hin.
Qed.

End Loops.

Section MutedTopics.

(** The body of the loop of [check_muted_topics]. *)
Local Abbreviation body :=
  (fun muted_topic : pyval =>
     muted_topic_tuple ← lift (py_iter muted_topic);
     py_assert
       (bool_decide (map type_of muted_topic_tuple = [CStr; CStr; CInt]))).

Lemma str_chars_types (s : string) :
  map type_of (str_chars s) <> [CStr; CStr; CInt].
Proof. destruct s as [|a [|b [|c s]]]; discriminate. Qed.

Lemma dict_iter_types (kvs : pydict) :
  map type_of (map (fun kv => VStr (fst kv)) kvs) <> [CStr; CStr; CInt].
Proof. destruct kvs as [|a [|b [|c kvs]]]; discriminate. Qed.

Lemma triple_types (xs : list pyval) :
  map type_of xs = [CStr; CStr; CInt] <->
  exists a b n, xs = [VStr a; VStr b; VInt n].
Proof.
  split.
  - destruct xs as [|x [|y [|z [|t xs]]]]; try discriminate.
    destruct x, y, z; try discriminate. eauto.
  - intros (a & b & n & ->). reflexivity.
Qed.

Lemma topic_triple_body_run (entry : pyval) (w : world) :
  exists r, body entry w = (r, w)
            /\ (r = inr tt <-> is_topic_triple entry = true).
Proof.
  cbv beta. rewrite bind_run. unfold lift.
  destruct entry as [| | |s|xs|xs|kvs]; simpl;
    try (eexists; split; [reflexivity | split; discriminate]).
  - unfold py_assert. rewrite bool_decide_eq_false_2 by apply str_chars_types.
    eexists; split; [reflexivity | split; discriminate].
  - unfold py_assert. case_bool_decide as Hty.
    + apply triple_types in Hty. destruct Hty as (a & b & n & ->).
      eexists; split; [reflexivity | split; reflexivity].
    + eexists; split; [reflexivity|]. split; [discriminate|].
      intros Hshape. exfalso. apply Hty.
      destruct xs as [|[] [|[] [|[] [|? ?]]]]; try discriminate. reflexivity.
  - unfold py_assert. case_bool_decide as Hty.
    + apply triple_types in Hty. destruct Hty as (a & b & n & ->).
      eexists; split; [reflexivity | split; reflexivity].
    + eexists; split; [reflexivity|]. split; [discriminate|].
      intros Hshape. exfalso. apply Hty.
      destruct xs as [|[] [|[] [|[] [|? ?]]]]; try discriminate. reflexivity.
  - unfold py_assert. rewrite bool_decide_eq_false_2 by apply dict_iter_types.
    eexists; split; [reflexivity | split; discriminate].
Qed.

Lemma check_muted_topics_run (EventMutedTopics : model) (var_name : string)
    (w : world) (entries : list pyval) :
  validate_with_model (VDict (w_event w)) EventMutedTopics = Return tt ->
  dict_get "muted_topics" (w_event w) = Some (VList entries) ->
  check_muted_topics EventMutedTopics var_name w = for_each entries body w.
Proof.
  intros Hbase Hget. unfold check_muted_topics, _check_muted_topics.
  run_fwd. simpl. run_fwd. reflexivity.
Qed.

Lemma check_muted_topics_inv (EventMutedTopics : model) (var_name : string)
    (w : world) :
  succeeds (check_muted_topics EventMutedTopics var_name) w ->
  validate_with_model (VDict (w_event w)) EventMutedTopics = Return tt
  /\ exists entries,
       dict_get "muted_topics" (w_event w) = Some (VList entries)
       /\ forallb is_topic_triple entries = true.
Proof.
  intros Hok. apply succeeds_run in Hok. destruct Hok as ([] & w' & Hok).
  unfold check_muted_topics, _check_muted_topics in Hok. run_inv.
  split; [assumption|].
  match goal with
  | H : isinstance ?v CList = true |- _ =>
      destruct v as [| | | |entries| |]; try discriminate H
  end.
  exists entries. split; [assumption|].
  match goal with H : py_iter _ = inr _ |- _ => injection H as <- end.
  apply (for_each_inr (fun e => is_topic_triple e = true)) in Hok.
  - apply forallb_forall. intros e He. destruct Hok as [_ Hall].
    rewrite Forall_forall in Hall. apply Hall. apply list_elem_of_In, He.
  - intros x w1 u w2 Hx.
    destruct (topic_triple_body_run x w1) as (r & Hr & Hiff).
    simpl in Hr. rewrite Hr in Hx. injection Hx as -> <-.
    split; [reflexivity|]. destruct u. apply Hiff. reflexivity.
Qed.

End MutedTopics.

(** C7.  [check_muted_topics] succeeds only if [muted_topics] is a list
    whose every entry is a three-element sequence of exact types (string,
    string, integer) in that order, and on an event that passes the schema
    check it succeeds if they all are.  An entry
    [("general", "topic", "not-an-int")] makes it fail, and with the single
    entry [("general", "topic", 123)] it succeeds. *)
Theorem check_muted_topics_triples
    (EventMutedTopics : model) (var_name : string) :
  (forall w : world,
      succeeds (check_muted_topics EventMutedTopics var_name) w ->
      exists entries,
        dict_get "muted_topics" (w_event w) = Some (VList entries)
        /\ forallb is_topic_triple entries = true)
  /\ (forall (w : world) (entries : list pyval),
         validate_with_model (VDict (w_event w)) EventMutedTopics = Return tt ->
         dict_get "muted_topics" (w_event w) = Some (VList entries) ->
         forallb is_topic_triple entries = true ->
         check_muted_topics EventMutedTopics var_name w = (Return tt, w))
  /\ (forall (w : world) (entries : list pyval) (entry : pyval),
         dict_get "muted_topics" (w_event w) = Some (VList entries) ->
         entry = VTuple [VStr "general"; VStr "topic"; VStr "not-an-int"]
         \/ entry = VList [VStr "general"; VStr "topic"; VStr "not-an-int"] ->
         In entry entries ->
         fails (check_muted_topics EventMutedTopics var_name) w)
  /\ (forall w : world,
         validate_with_model (VDict (w_event w)) EventMutedTopics = Return tt ->
         dict_get "muted_topics" (w_event w)
         = Some (VList [VTuple [VStr "general"; VStr "topic"; VInt 123]]) ->
         check_muted_topics EventMutedTopics var_name w = (Return tt, w)).
Proof.
  assert (Hsuff : forall (w : world) (entries : list pyval),
    validate_with_model (VDict (w_event w)) EventMutedTopics = Return tt ->
    dict_get "muted_topics" (w_event w) = Some (VList entries) ->
    forallb is_topic_triple entries = true ->
    check_muted_topics EventMutedTopics var_name w = (Return tt, w)).
  { intros w entries Hbase Hget Hall.
    rewrite (check_muted_topics_run _ _ _ _ Hbase Hget).
    apply for_each_ok. intros x Hx.
    rewrite forallb_forall in Hall. specialize (Hall x Hx).
    destruct (topic_triple_body_run x w) as (r & Hr & Hiff).
    simpl in Hr. rewrite Hr. f_equal. apply Hiff. exact Hall. }
  split; [|split; [exact Hsuff|split]].
  - intros w Hok. apply check_muted_topics_inv in Hok. tauto.
  - intros w entries entry Hget Hentry Hin. apply fails_not_succeeds.
    intros Hok. apply check_muted_topics_inv in Hok.
    destruct Hok as (_ & entries' & Hget' & Hall).
    rewrite Hget in Hget'. injection Hget' as <-.
    rewrite forallb_forall in Hall. specialize (Hall entry Hin).
    destruct Hentry as [-> | ->]; discriminate.
  - intros w Hbase Hget. eapply Hsuff; [exact Hbase | exact Hget | reflexivity].
Qed.

Lemma check_muted_topics_triples_witness :
  let w := Fixtures.world_of
             [("id", VInt 0); ("type", VStr "muted_topics");
              ("muted_topics",
               VList [VTuple [VStr "general"; VStr "topic"; VInt 123]])] in
  check_muted_topics Fixtures.EventMutedTopics "events[0]" w = (Return tt, w).
Proof.
  intros w.
  apply (proj2 (proj2 (proj2
    (check_muted_topics_triples Fixtures.EventMutedTopics "events[0]")))).
  - vm_compute. reflexivity.
  - reflexivity.
Defined.

(* ===================================================================== *)
(** ** [check_update_message] *)
(* ===================================================================== *)

Section UpdateMessage.

Variables (EventUpdateMessage : model) (ORIG_TOPIC TOPIC_NAME : string).

Local Abbreviation check :=
  (check_update_message EventUpdateMessage ORIG_TOPIC TOPIC_NAME).

Lemma union_if (b : bool) (X G : gset string) :
  (if b then X ∪ G else X) = X ∪ (if b then G else ∅).
Proof. destruct b; [reflexivity | rewrite union_empty_r_L; reflexivity]. Qed.

Lemma validate_with_model_field (m : model) (kvs : pydict) (f : field)
    (v : pyval) :
  validate_with_model (VDict kvs) m = Return tt ->
  In f (model_fields m) ->
  dict_get (fname f) kvs = Some v ->
  conforms (ftype f) v = true.
Proof.
  intros Hok Hin Hget. apply validate_with_model_ok in Hok.
  destruct Hok as (kvs' & [= <-] & _ & Hall).
  rewrite forallb_forall in Hall. specialize (Hall f Hin).
  unfold field_ok in Hall. rewrite Hget in Hall. exact Hall.
Qed.

Lemma check_update_message_inv (var_name : string)
    (is_stream_message has_content has_topic has_new_stream_id
     is_embedded_update_only : bool) (w : world) :
  succeeds (check var_name is_stream_message has_content has_topic
              has_new_stream_id is_embedded_update_only) w ->
  validate_with_model (VDict (w_event w)) EventUpdateMessage = Return tt
  /\ dict_keys (w_event w) =
       {[ "id"; "type"; "user_id"; "edit_timestamp"; "message_id"; "flags";
          "message_ids"; "rendering_only" ]}
       ∪ (if is_stream_message then {[ "stream_id"; "stream_name" ]} else ∅)
       ∪ (if has_content
          then {[ "is_me_message"; "orig_content"; "orig_rendered_content";
                  "content"; "rendered_content" ]} else ∅)
       ∪ (if has_topic
          then {[ "topic_links"; ORIG_TOPIC; TOPIC_NAME; "propagate_mode" ]}
          else ∅)
       ∪ (if has_new_stream_id
          then {[ "new_stream_id"; ORIG_TOPIC; "propagate_mode" ]} else ∅)
       ∪ (if is_embedded_update_only
          then {[ "content"; "rendered_content" ]} else ∅)
  /\ (exists user_id,
        dict_get "user_id" (w_event w) = Some user_id
        /\ if is_embedded_update_only then user_id = VNone
           else isinstance user_id CInt = true)
  /\ (exists rendering_only,
        dict_get "rendering_only" (w_event w) = Some rendering_only
        /\ py_eq rendering_only (VBool is_embedded_update_only) = true).
Proof.
  intros Hok. apply succeeds_run in Hok. destruct Hok as ([] & w' & Hok).
  unfold check_update_message, _check_update_message in Hok.
  apply bind_inr in Hok. destruct Hok as (u & w1 & Hbase & Hok).
  apply make_checker_inr in Hbase. destruct Hbase as [Hbase ->].
  apply bind_inr in Hok. destruct Hok as (ev & w1 & Hev & Hok).
  apply get_event_inr in Hev. destruct Hev as [-> ->].
  cbv zeta in Hok. rewrite !union_if in Hok.
  apply bind_inr in Hok. destruct Hok as (keys & w1 & Hkeys & Hok).
  assert (Huser : w1 = w
    /\ keys = {[ "id"; "type"; "user_id"; "edit_timestamp"; "message_id";
                 "flags"; "message_ids"; "rendering_only" ]}
       ∪ (if is_stream_message then {[ "stream_id"; "stream_name" ]} else ∅)
       ∪ (if has_content
          then {[ "is_me_message"; "orig_content"; "orig_rendered_content";
                  "content"; "rendered_content" ]} else ∅)
       ∪ (if has_topic
          then {[ "topic_links"; ORIG_TOPIC; TOPIC_NAME; "propagate_mode" ]}
          else ∅)
       ∪ (if has_new_stream_id
          then {[ "new_stream_id"; ORIG_TOPIC; "propagate_mode" ]} else ∅)
       ∪ (if is_embedded_update_only
          then {[ "content"; "rendered_content" ]} else ∅)
    /\ exists user_id,
        dict_get "user_id" (w_event w) = Some user_id
        /\ if is_embedded_update_only then user_id = VNone
           else isinstance user_id CInt = true).
  { destruct is_embedded_update_only; run_inv; norm_hyps.
    - split; [reflexivity|]. split; [reflexivity|].
      eexists; split; [eassumption|].
      match goal with
      | H : type_of ?v = CNoneType |- _ => destruct v; try discriminate H
      end. reflexivity.
    - split; [reflexivity|]. split; [rewrite union_empty_r_L; reflexivity|].
      eexists; split; eassumption. }
  destruct Huser as (-> & -> & Huser). clear Hkeys. run_inv. norm_hyps.
  split; [assumption|]. split; [symmetry; assumption|].
  split; [exact Huser|]. eauto.
Qed.

End UpdateMessage.

(** C5.  [check_update_message] succeeds only when the event's key set is
    exactly the base set [{id, type, user_id, edit_timestamp, message_id,
    flags, message_ids, rendering_only}] extended by the field group of each
    of the five flags that is true, and [user_id] is [None] exactly when
    [is_embedded_update_only] is true and an [int] instance otherwise (the
    integer itself where the schema declares [user_id] as [int | None]).  So
    [is_embedded_update_only = True] with a [user_id] that is not [None]
    fails, and an event with one key more than an event that passes fails. *)
Theorem check_update_message_key_set
    (EventUpdateMessage : model) (ORIG_TOPIC TOPIC_NAME var_name : string)
    (is_stream_message has_content has_topic has_new_stream_id
     is_embedded_update_only : bool) :
  let check :=
    check_update_message EventUpdateMessage ORIG_TOPIC TOPIC_NAME var_name
      is_stream_message has_content has_topic has_new_stream_id
      is_embedded_update_only in
  (forall w : world,
      succeeds check w ->
      dict_keys (w_event w) =
        {[ "id"; "type"; "user_id"; "edit_timestamp"; "message_id"; "flags";
           "message_ids"; "rendering_only" ]}
        ∪ (if is_stream_message then {[ "stream_id"; "stream_name" ]} else ∅)
        ∪ (if has_content
           then {[ "is_me_message"; "orig_content"; "orig_rendered_content";
                   "content"; "rendered_content" ]} else ∅)
        ∪ (if has_topic
           then {[ "topic_links"; ORIG_TOPIC; TOPIC_NAME; "propagate_mode" ]}
           else ∅)
        ∪ (if has_new_stream_id
           then {[ "new_stream_id"; ORIG_TOPIC; "propagate_mode" ]} else ∅)
        ∪ (if is_embedded_update_only
           then {[ "content"; "rendered_content" ]} else ∅)
      /\ (exists user_id,
            dict_get "user_id" (w_event w) = Some user_id
            /\ (if is_embedded_update_only then user_id = VNone
                else isinstance user_id CInt = true)
            /\ (user_id = VNone <-> is_embedded_update_only = true)))
  /\ (forall (w : world) (user_id : pyval),
         is_embedded_update_only = true ->
         dict_get "user_id" (w_event w) = Some user_id ->
         user_id <> VNone ->
         fails check w)
  /\ (forall (w w' : world) (k : string),
         succeeds check w ->
         k ∉ dict_keys (w_event w) ->
         dict_keys (w_event w') = dict_keys (w_event w) ∪ {[ k ]} ->
         fails check w')
  /\ (forall (w : world) (required : bool),
         In (Field "user_id" (TUnion [TInt; TNone]) required)
            (model_fields EventUpdateMessage) ->
         is_embedded_update_only = false ->
         succeeds check w ->
         exists n, dict_get "user_id" (w_event w) = Some (VInt n)).
Proof.
  intros check. subst check. split; [|split; [|split]].
  - intros w Hok. apply check_update_message_inv in Hok.
    destruct Hok as (_ & Hkeys & (user_id & Hget & Huser) & _).
    split; [exact Hkeys|]. exists user_id. split; [exact Hget|].
    split; [exact Huser|].
    destruct is_embedded_update_only.
    + subst user_id. tauto.
    + split; [intros ->; discriminate | discriminate].
  - intros w user_id -> Hget Hnot. apply fails_not_succeeds. intros Hok.
    apply check_update_message_inv in Hok.
    destruct Hok as (_ & _ & (user_id' & Hget' & Huser) & _).
    rewrite Hget in Hget'. injection Hget' as <-. contradiction.
  - intros w w' k Hok Hk Hkeys'. apply fails_not_succeeds. intros Hok'.
    apply check_update_message_inv in Hok, Hok'.
    destruct Hok as (_ & Hkeys & _). destruct Hok' as (_ & Hkeys1 & _).
    apply Hk. rewrite Hkeys, <- Hkeys1, Hkeys'.
    apply elem_of_union_r, elem_of_singleton. reflexivity.
  - intros w required Hin -> Hok. apply check_update_message_inv in Hok.
    destruct Hok as (Hbase & _ & (user_id & Hget & Huser) & _).
    pose proof (validate_with_model_field _ _ _ _ Hbase Hin Hget) as Hty.
    destruct user_id; try discriminate. eauto.
Qed.

Lemma check_update_message_key_set_witness :
  dict_get "user_id"
    [("id", VInt 0); ("type", VStr "update_message"); ("user_id", VNone);
     ("edit_timestamp", VInt 1700000000); ("message_id", VInt 9);
     ("flags", VList []); ("message_ids", VList [VInt 9]);
     ("rendering_only", VBool true); ("content", VStr "hello");
     ("rendered_content", VStr "<p>hello</p>")]
  = Some VNone.
Proof.
  destruct (proj1 (check_update_message_key_set Fixtures.EventUpdateMessage
                     Fixtures.ORIG_TOPIC Fixtures.TOPIC_NAME "events[0]"
                     false false false false true)
              (Fixtures.world_of
                 [("id", VInt 0); ("type", VStr "update_message");
                  ("user_id", VNone); ("edit_timestamp", VInt 1700000000);
                  ("message_id", VInt 9); ("flags", VList []);
                  ("message_ids", VList [VInt 9]);
                  ("rendering_only", VBool true); ("content", VStr "hello");
                  ("rendered_content", VStr "<p>hello</p>")]))
    as (_ & user_id & Hget & Hnone & _).
  - exists tt. vm_compute. reflexivity.
  - subst user_id. exact Hget.
Defined.

(* ===================================================================== *)
(** ** [check_realm_bot_add] *)
(* ===================================================================== *)

Section RealmBotAdd.

Variables (BotServicesEmbedded BotServicesOutgoing EventRealmBotAdd : model).
Variables (DEFAULT_BOT OUTGOING_WEBHOOK_BOT EMBEDDED_BOT : Z).

Local Abbreviation check :=
  (check_realm_bot_add BotServicesEmbedded BotServicesOutgoing
     EventRealmBotAdd DEFAULT_BOT OUTGOING_WEBHOOK_BOT EMBEDDED_BOT).

(** The branch shared by the two bot types that carry a service. *)
Local Abbreviation one_service services sub_model :=
  (n ← lift (py_len services);
   py_assert (Nat.eqb n 1);;
   service ← lift (getitem0 services);
   lift (validate_with_model service sub_model)).

Lemma one_service_run (services : pyval) (sub_model : model) (w : world) :
  exists r, one_service services sub_model w = (r, w)
    /\ (r = inr tt <->
        exists s, (services = VList [s] \/ services = VTuple [s])
                  /\ validate_with_model s sub_model = Return tt).
Proof.
  rewrite bind_run. unfold lift.
  destruct services as [| | |s|xs|xs|kvs]; simpl;
    try (eexists; split; [reflexivity|]; split;
         [discriminate | intros (s' & [?|?] & _); discriminate]).
  - (* a string *)
    destruct s as [|c [|c' s]]; simpl;
      eexists; (split; [reflexivity|]); split; try discriminate;
      intros (s' & [?|?] & _); discriminate.
  - destruct xs as [|x [|y xs]]; simpl.
    + eexists; split; [reflexivity|]. split; [discriminate|].
      intros (s' & [?|?] & _); discriminate.
    + rewrite bind_run. simpl.
      destruct (validate_with_model x sub_model) as [e|[]] eqn:Hx;
        eexists; (split; [reflexivity|]); split; try discriminate; eauto.
      intros (s' & [[= <-]|?] & Hs); [exact Hs | discriminate].
    + eexists; split; [reflexivity|]. split; [discriminate|].
      intros (s' & [?|?] & _); discriminate.
  - destruct xs as [|x [|y xs]]; simpl.
    + eexists; split; [reflexivity|]. split; [discriminate|].
      intros (s' & [?|?] & _); discriminate.
    + rewrite bind_run. simpl.
      destruct (validate_with_model x sub_model) as [e|[]] eqn:Hx;
        eexists; (split; [reflexivity|]); split; try discriminate; eauto.
      intros (s' & [?|[= <-]] & Hs); [discriminate | exact Hs].
    + eexists; split; [reflexivity|]. split; [discriminate|].
      intros (s' & [?|?] & _); discriminate.
  - (* a dictionary *)
    destruct (size (dict_keys kvs) =? 1)%nat; simpl;
      eexists; (split; [reflexivity|]); split; try discriminate;
      intros (s' & [?|?] & _); discriminate.
Qed.

Lemma check_realm_bot_add_run (var_name : string) (w : world)
    (bot : pydict) (bot_type services : pyval) :
  validate_with_model (VDict (w_event w)) EventRealmBotAdd = Return tt ->
  dict_get "bot" (w_event w) = Some (VDict bot) ->
  dict_get "bot_type" bot = Some bot_type ->
  dict_get "services" bot = Some services ->
  check var_name w =
  (if py_eq bot_type (VInt DEFAULT_BOT) then
     py_assert (py_eq services (VList []))
   else if py_eq bot_type (VInt OUTGOING_WEBHOOK_BOT) then
     one_service services BotServicesOutgoing
   else if py_eq bot_type (VInt EMBEDDED_BOT) then
     one_service services BotServicesEmbedded
   else
     raise (AssertionError ("Unknown bot_type: " ++ py_str bot_type))) w.
Proof.
  intros Hbase Hbot Htype Hservices.
  unfold check_realm_bot_add, _check_realm_bot_add.
  run_fwd. simpl. run_fwd. unfold getitem. rewrite Htype, Hservices.
  run_fwd. reflexivity.
Qed.

Lemma check_realm_bot_add_base (var_name : string) (w : world) :
  succeeds (check var_name) w ->
  validate_with_model (VDict (w_event w)) EventRealmBotAdd = Return tt.
Proof.
  intros Hok. apply succeeds_run in Hok. destruct Hok as ([] & w' & Hok).
  unfold check_realm_bot_add, _check_realm_bot_add in Hok.
  apply bind_inr in Hok. destruct Hok as (u & w1 & Hbase & _).
  apply make_checker_inr in Hbase. tauto.
Qed.

End RealmBotAdd.



(* ===================================================================== *)
(** ** [check_realm_update_dict] *)
(* ===================================================================== *)

Lemma any_in_dict (names : list string) (d : pydict) :
  any_in names (VDict d) = Return (existsb (fun k => dict_mem k d) names).
Proof.
  induction names as [|name rest IH]; [reflexivity|].
  simpl. destruct (dict_mem name d); [reflexivity | exact IH].
Qed.

Section RealmUpdateDict.

Variables
  (AllowMessageEditingData AuthenticationData EventRealmUpdateDict
   GroupSettingUpdateData IconData LogoData
   MessageContentEditLimitSecondsData NightLogoData PlanTypeData
   RealmTopicsPolicyData : model).
Variable (REALM_PERMISSION_GROUP_SETTINGS : list string).

Local Abbreviation check :=
  (check_realm_update_dict AllowMessageEditingData AuthenticationData
     EventRealmUpdateDict GroupSettingUpdateData IconData LogoData
     MessageContentEditLimitSecondsData NightLogoData PlanTypeData
     RealmTopicsPolicyData REALM_PERMISSION_GROUP_SETTINGS).

Local Abbreviation selected :=
  (Selection.selected_sub_schema AllowMessageEditingData AuthenticationData
     GroupSettingUpdateData MessageContentEditLimitSecondsData PlanTypeData
     RealmTopicsPolicyData REALM_PERMISSION_GROUP_SETTINGS).

Lemma check_realm_update_dict_default (var_name : string) (w : world)
    (d : pydict) :
  validate_with_model (VDict (w_event w)) EventRealmUpdateDict = Return tt ->
  dict_get "property" (w_event w) = Some (VStr "default") ->
  dict_get "data" (w_event w) = Some (VDict d) ->
  check var_name w =
  (match selected d with
   | Some sub_type => validate_with_model (VDict d) sub_type
   | None => Raise (AssertionError "unhandled fields in data")
   end, w).
Proof.
  intros Hbase Hprop Hdata.
  unfold check_realm_update_dict, _check_realm_update_dict.
  run_fwd. simpl py_eq. cbv iota.
  run_fwd. simpl isinstance. run_fwd.
  unfold Selection.selected_sub_schema, Selection.priority_list.
  simpl Selection.first_match. simpl py_in. rewrite any_in_dict.
  rewrite !orb_false_r.
  repeat match goal with
  | |- context [dict_mem ?k d] => destruct (dict_mem k d); run_fwd
  | |- context [existsb ?f ?l] => destruct (existsb f l); run_fwd
  end;
  reflexivity.
Qed.

Lemma check_realm_update_dict_other (var_name : string) (w : world)
    (property : pyval) :
  validate_with_model (VDict (w_event w)) EventRealmUpdateDict = Return tt ->
  dict_get "property" (w_event w) = Some property ->
  py_eq property (VStr "default") = false ->
  check var_name w =
  (if py_eq property (VStr "icon") then
     data ← event_getitem "data"; lift (validate_with_model data IconData)
   else if py_eq property (VStr "logo") then
     data ← event_getitem "data"; lift (validate_with_model data LogoData)
   else if py_eq property (VStr "night_logo") then
     data ← event_getitem "data";
     lift (validate_with_model data NightLogoData)
   else raise (AssertionError "unhandled property: {event['property']}")) w.
Proof.
  intros Hbase Hprop Hnd.
  unfold check_realm_update_dict, _check_realm_update_dict.
  run_fwd. rewrite Hnd.
  destruct (py_eq property (VStr "icon")); [run_fwd; reflexivity|].
  destruct (py_eq property (VStr "logo")); [run_fwd; reflexivity|].
  destruct (py_eq property (VStr "night_logo")); run_fwd; reflexivity.
Qed.

End RealmUpdateDict.

(** C6.  On an event that passes the schema check, [check_realm_update_dict]
    validates [data] against the sub-schema that the specification's rule
    selects: for property ["default"], the one of the first matching key in
    the order [allow_message_editing], [message_content_edit_limit_seconds],
    [authentication_methods], any permission-group setting name,
    [plan_type], [topics_policy]; for ["icon"], ["logo"] and ["night_logo"],
    the fixed sub-schemas.  With property ["default"] and none of the keys in
    [data], and with any other property, it raises an [AssertionError]. *)
Theorem check_realm_update_dict_selection
    (AllowMessageEditingData AuthenticationData EventRealmUpdateDict
     GroupSettingUpdateData IconData LogoData
     MessageContentEditLimitSecondsData NightLogoData PlanTypeData
     RealmTopicsPolicyData : model)
    (REALM_PERMISSION_GROUP_SETTINGS : list string)
    (var_name : string) (w : world) (property data : pyval) :
  let check :=
    check_realm_update_dict AllowMessageEditingData AuthenticationData
      EventRealmUpdateDict GroupSettingUpdateData IconData LogoData
      MessageContentEditLimitSecondsData NightLogoData PlanTypeData
      RealmTopicsPolicyData REALM_PERMISSION_GROUP_SETTINGS var_name in
  let selected :=
    Selection.selected_sub_schema AllowMessageEditingData AuthenticationData
      GroupSettingUpdateData MessageContentEditLimitSecondsData PlanTypeData
      RealmTopicsPolicyData REALM_PERMISSION_GROUP_SETTINGS in
  validate_with_model (VDict (w_event w)) EventRealmUpdateDict = Return tt ->
  dict_get "property" (w_event w) = Some property ->
  dict_get "data" (w_event w) = Some data ->
  (forall d,
      property = VStr "default" -> data = VDict d ->
      check w =
      (match selected d with
       | Some sub_type => validate_with_model data sub_type
       | None => Raise (AssertionError "unhandled fields in data")
       end, w))
  /\ (forall d,
         selected d =
         if dict_mem "allow_message_editing" d
         then Some AllowMessageEditingData
         else if dict_mem "message_content_edit_limit_seconds" d
         then Some MessageContentEditLimitSecondsData
         else if dict_mem "authentication_methods" d
         then Some AuthenticationData
         else if existsb (fun k => dict_mem k d)
                   REALM_PERMISSION_GROUP_SETTINGS
         then Some GroupSettingUpdateData
         else if dict_mem "plan_type" d then Some PlanTypeData
         else if dict_mem "topics_policy" d then Some RealmTopicsPolicyData
         else None)
  /\ (property = VStr "icon" ->
      check w = (validate_with_model data IconData, w))
  /\ (property = VStr "logo" ->
      check w = (validate_with_model data LogoData, w))
  /\ (property = VStr "night_logo" ->
      check w = (validate_with_model data NightLogoData, w))
  /\ (property <> VStr "default" -> property <> VStr "icon" ->
      property <> VStr "logo" -> property <> VStr "night_logo" ->
      check w
      = (Raise (AssertionError "unhandled property: {event['property']}"), w)).
Proof.
  intros check selected Hbase Hprop Hdata. subst check selected.
  split; [|split; [|split; [|split; [|split]]]].
  - intros d -> ->. apply check_realm_update_dict_default; assumption.
  - intros d. unfold Selection.selected_sub_schema, Selection.priority_list.
    simpl. rewrite !orb_false_r. reflexivity.
  - intros ->.
    rewrite (check_realm_update_dict_other _ _ _ _ _ _ _ _ _ _ _ _ _ _
               Hbase Hprop eq_refl).
    eval_py_eq. run_fwd. reflexivity.
  - intros ->.
    rewrite (check_realm_update_dict_other _ _ _ _ _ _ _ _ _ _ _ _ _ _
               Hbase Hprop eq_refl).
    eval_py_eq. run_fwd. reflexivity.
  - intros ->.
    rewrite (check_realm_update_dict_other _ _ _ _ _ _ _ _ _ _ _ _ _ _
               Hbase Hprop eq_refl).
    eval_py_eq. run_fwd. reflexivity.
  - intros Hd Hi Hl Hn.
    assert (Hne : forall s, property <> VStr s ->
                            py_eq property (VStr s) = false).
    { intros s Hs. apply not_true_is_false. rewrite py_eq_str_r. exact Hs. }
    rewrite (check_realm_update_dict_other _ _ _ _ _ _ _ _ _ _ _ _ _ _
               Hbase Hprop (Hne _ Hd)).
    rewrite (Hne _ Hi), (Hne _ Hl), (Hne _ Hn). reflexivity.
Qed.

Lemma check_realm_update_dict_selection_witness :
  let data :=
    VDict [("plan_type", VInt 3); ("upload_quota_mib", VNone);
           ("max_file_upload_size_mib", VInt 25)] in
  let w := Fixtures.world_of
             [("id", VInt 0); ("type", VStr "realm");
              ("op", VStr "update_dict"); ("property", VStr "default");
              ("data", data)] in
  check_realm_update_dict Fixtures.AllowMessageEditingData
    Fixtures.AuthenticationData Fixtures.EventRealmUpdateDict
    Fixtures.GroupSettingUpdateData Fixtures.IconData Fixtures.LogoData
    Fixtures.MessageContentEditLimitSecondsData Fixtures.NightLogoData
    Fixtures.PlanTypeData Fixtures.RealmTopicsPolicyData
    Fixtures.REALM_PERMISSION_GROUP_SETTINGS "events[0]" w
  = (validate_with_model data Fixtures.PlanTypeData, w).
Proof.
  intros data w.
  refine (proj1 (check_realm_update_dict_selection
    Fixtures.AllowMessageEditingData
    Fixtures.AuthenticationData Fixtures.EventRealmUpdateDict
    Fixtures.GroupSettingUpdateData Fixtures.IconData Fixtures.LogoData
    Fixtures.MessageContentEditLimitSecondsData Fixtures.NightLogoData
    Fixtures.PlanTypeData Fixtures.RealmTopicsPolicyData
    Fixtures.REALM_PERMISSION_GROUP_SETTINGS "events[0]" w
    (VStr "default") data _ eq_refl eq_refl) _ eq_refl eq_refl).
  vm_compute. reflexivity.
Defined.

(* ===================================================================== *)
(** ** [check_realm_update] *)
(* ===================================================================== *)

Section RealmUpdate.

Variable (EventRealmUpdate : model).
Variable (property_types : gmap string property_type).

Local Abbreviation check :=
  (check_realm_update EventRealmUpdate property_types).

(** The test the checker makes of the value once the catalog entry is
    known. *)
Local Abbreviation catalog_test value property_type :=
  (if is_enum property_type then
     py_assert (isinstance value CStr);;
     lift (enum_getitem property_type value)
   else
     py_assert (isinstance_of value property_type)).

Lemma check_realm_update_run (var_name prop : string) (w : world)
    (value : pyval) :
  validate_with_model (VDict (w_event w)) EventRealmUpdate = Return tt ->
  dict_get "property" (w_event w) = Some (VStr prop) ->
  dict_get "value" (w_event w) = Some value ->
  check var_name prop w =
  (if str_in prop integer_coded_properties then
     py_assert (isinstance value CInt)
   else
     property_type ← lift (catalog_getitem property_types prop);
     catalog_test value property_type) w.
Proof.
  intros Hbase Hprop Hvalue. unfold check_realm_update, _check_realm_update.
  run_fwd. rewrite (proj2 (py_eq_str_l (VStr prop) prop) eq_refl).
  run_fwd. reflexivity.
Qed.

Lemma check_realm_update_base_fails (var_name prop : string) (w : world)
    (e : exn) :
  validate_with_model (VDict (w_event w)) EventRealmUpdate = Raise e ->
  fst (check var_name prop w) = Raise e.
Proof.
  intros Hbase. unfold check_realm_update, _check_realm_update.
  rewrite bind_run, make_checker_run, Hbase. reflexivity.
Qed.

Lemma check_realm_update_integer_coded (var_name prop : string) (w : world)
    (value : pyval) :
  In prop integer_coded_properties ->
  validate_with_model (VDict (w_event w)) EventRealmUpdate = Return tt ->
  dict_get "property" (w_event w) = Some (VStr prop) ->
  dict_get "value" (w_event w) = Some value ->
  check var_name prop w = py_assert (isinstance value CInt) w.
Proof.
  intros Hin Hbase Hprop Hvalue.
  rewrite (check_realm_update_run _ _ _ _ Hbase Hprop Hvalue).
  replace (str_in prop integer_coded_properties) with true; [reflexivity|].
  symmetry. unfold str_in. apply existsb_exists. exists prop.
  split; [exact Hin | apply String.eqb_refl].
Qed.

Lemma str_in_In (s : string) (l : list string) :
  str_in s l = true <-> In s l.
Proof.
  unfold str_in. rewrite existsb_exists. split.
  - intros (x & Hx & Heq). apply String.eqb_eq in Heq. subst. exact Hx.
  - intros Hin. exists s. split; [exact Hin | apply String.eqb_refl].
Qed.

Lemma check_realm_update_other_names (var_name prop : string) (w : world)
    (value : pyval) :
  ~ In prop integer_coded_properties ->
  validate_with_model (VDict (w_event w)) EventRealmUpdate = Return tt ->
  dict_get "property" (w_event w) = Some (VStr prop) ->
  dict_get "value" (w_event w) = Some value ->
  check var_name prop w =
  match property_types !! prop with
  | None => (Raise (KeyError prop), w)
  | Some property_type => catalog_test value property_type w
  end.
Proof.
  intros Hnin Hbase Hprop Hvalue.
  rewrite (check_realm_update_run _ _ _ _ Hbase Hprop Hvalue).
  replace (str_in prop integer_coded_properties) with false.
  - unfold catalog_getitem.
    destruct (property_types !! prop); run_fwd; reflexivity.
  - symmetry. apply not_true_is_false. rewrite str_in_In. exact Hnin.
Qed.

End RealmUpdate.

(** The runs of [check_realm_update] for one of the five names never read
    the catalog. *)
Lemma integer_coded_bypass (prop : string) :
  In prop integer_coded_properties -> bypasses_catalog prop.
Proof.
  intros Hin m cat cat' var_name w.
  unfold check_realm_update.
  replace (str_in prop
             ["moderation_request_channel_id";
              "new_stream_announcements_stream_id";
              "signup_announcements_stream_id";
              "zulip_update_announcements_stream_id"; "org_type"])
    with true; [reflexivity|].
  symmetry. apply str_in_In. exact Hin.
Qed.

(** For any other name, an event that passes with the property in the
    catalog raises [KeyError] with the empty catalog. *)
Lemma other_names_read_catalog (prop : string) :
  ~ In prop integer_coded_properties -> ~ bypasses_catalog prop.
Proof.
  intros Hnin Hby.
  specialize (Hby Fixtures.EventRealmUpdate ∅ {[ prop := PClass CInt ]}
                "events[0]"
                (Fixtures.world_of
                   [("id", VInt 0); ("type", VStr "realm");
                    ("op", VStr "update"); ("property", VStr prop);
                    ("value", VInt 7)])).
  assert (Hbase : validate_with_model
            (VDict (w_event (Fixtures.world_of
                   [("id", VInt 0); ("type", VStr "realm");
                    ("op", VStr "update"); ("property", VStr prop);
                    ("value", VInt 7)])))
            Fixtures.EventRealmUpdate = Return tt).
  { vm_compute. reflexivity. }
  rewrite !(check_realm_update_other_names _ _ _ _ _ _ Hnin Hbase eq_refl
              eq_refl) in Hby.
  rewrite lookup_empty, lookup_singleton_eq in Hby. discriminate.
Qed.

Lemma bypasses_catalog_iff (prop : string) :
  bypasses_catalog prop <-> In prop integer_coded_properties.
Proof.
  split; [|apply integer_coded_bypass].
  intros Hby.
  destruct (in_dec String.string_dec prop integer_coded_properties)
    as [Hin|Hnin];
    [exact Hin|].
  exfalso. exact (other_names_read_catalog prop Hnin Hby).
Qed.

Lemma integer_coded_properties_NoDup : List.NoDup integer_coded_properties.
Proof.
  unfold integer_coded_properties.
  repeat (constructor; [simpl; intros H; repeat destruct H as [H|H];
                        try discriminate H; exact H|]).
  constructor.
Qed.

(** C2, as stated, fails: no list of four names covers the property names
    that bypass the catalog.  Each of the five names of the list literal
    does: with an empty catalog, where any other name raises [KeyError], the
    checker accepts an integer value for it. *)
Lemma check_realm_update_five_names_bypass :
  Forall (fun prop =>
            let w := Fixtures.world_of
                       [("id", VInt 0); ("type", VStr "realm");
                        ("op", VStr "update"); ("property", VStr prop);
                        ("value", VInt 7)] in
            check_realm_update Fixtures.EventRealmUpdate ∅ "events[0]" prop w
            = (Return tt, w))
    [ "moderation_request_channel_id"; "new_stream_announcements_stream_id";
      "signup_announcements_stream_id";
      "zulip_update_announcements_stream_id"; "org_type" ]
  /\ ~ exists names : list string,
         length names = 4%nat
         /\ forall prop, bypasses_catalog prop <-> In prop names.
Proof.
  split.
  - repeat (constructor; [vm_compute; reflexivity|]). constructor.
  - intros (names & Hlen & Hiff).
    assert (Hincl : incl integer_coded_properties names).
    { intros prop Hin. apply Hiff, bypasses_catalog_iff, Hin. }
    pose proof (List.NoDup_incl_length integer_coded_properties_NoDup Hincl)
      as Hle.
    rewrite Hlen in Hle. simpl in Hle. lia.
Qed.

(** C2, amended.  In [check_realm_update] exactly five property names
    bypass the property-type catalog, the four announcement and moderation
    channel ids and [org_type], and their value is checked with
    [isinstance(value, int)].  For every other name the value is checked
    against [Realm.property_types]: a name missing there raises [KeyError], an
    enum-typed property requires a string naming a member of the enumeration,
    and any other entry requires an instance of the catalog's type. *)
Theorem check_realm_update_catalog_bypass :
  (forall prop, bypasses_catalog prop <-> In prop integer_coded_properties)
  /\ length integer_coded_properties = 5%nat
  /\ List.NoDup integer_coded_properties
  /\ (forall (EventRealmUpdate : model)
             (property_types : gmap string property_type)
             (var_name prop : string) (w : world) (value : pyval),
         let check :=
           check_realm_update EventRealmUpdate property_types var_name prop in
         validate_with_model (VDict (w_event w)) EventRealmUpdate = Return tt ->
         dict_get "property" (w_event w) = Some (VStr prop) ->
         dict_get "value" (w_event w) = Some value ->
         (In prop integer_coded_properties ->
          check w = (if isinstance value CInt then Return tt
                     else Raise (AssertionError ""), w))
         /\ (~ In prop integer_coded_properties ->
             (property_types !! prop = None ->
              check w = (Raise (KeyError prop), w))
             /\ (forall members,
                    property_types !! prop = Some (PEnum members) ->
                    succeeds check w <->
                    exists s, value = VStr s /\ In s members)
             /\ (forall t,
                    property_types !! prop = Some t -> is_enum t = false ->
                    check w = (if isinstance_of value t then Return tt
                               else Raise (AssertionError ""), w)))).
Proof.
  split; [exact bypasses_catalog_iff|]. split; [reflexivity|].
  split; [exact integer_coded_properties_NoDup|].
  intros m cat var_name prop w value check Hbase Hprop Hvalue. subst check.
  split.
  - intros Hin.
    rewrite (check_realm_update_integer_coded _ _ _ _ _ _ Hin Hbase Hprop
               Hvalue).
    destruct (isinstance value CInt); reflexivity.
  - intros Hnin.
    rewrite (check_realm_update_other_names _ _ _ _ _ _ Hnin Hbase Hprop
               Hvalue).
    split; [|split].
    + intros ->. reflexivity.
    + intros members Hcat. rewrite succeeds_run.
      rewrite (check_realm_update_other_names _ _ _ _ _ _ Hnin Hbase Hprop
                 Hvalue).
      rewrite Hcat. change (is_enum (PEnum members)) with true. cbv iota.
      split.
      * intros ([] & w' & Hrun). run_inv.
        match goal with
        | H : isinstance ?v CStr = true |- _ => destruct v; try discriminate H
        end.
        match goal with
        | H : enum_getitem _ _ = _ |- _ => simpl in H
        end.
        destruct (str_in s members) eqn:Hs; [|discriminate].
        apply str_in_In in Hs. eauto.
      * intros (s & -> & Hin). exists tt, w. simpl isinstance. run_fwd.
        unfold lift, enum_getitem. rewrite (proj2 (str_in_In _ _) Hin).
        reflexivity.
    + intros t -> Ht. rewrite Ht.
      destruct (isinstance_of value t); reflexivity.
Qed.

Lemma check_realm_update_catalog_bypass_witness :
  let w := Fixtures.world_of
             [("id", VInt 0); ("type", VStr "realm"); ("op", VStr "update");
              ("property", VStr "org_type"); ("value", VStr "5")] in
  check_realm_update Fixtures.EventRealmUpdate Fixtures.property_types
    "events[0]" "org_type" w
  = (Raise (AssertionError ""), w).
Proof.
  intros w.
  refine (proj1 (proj2 (proj2 (proj2 check_realm_update_catalog_bypass))
    Fixtures.EventRealmUpdate Fixtures.property_types "events[0]" "org_type"
    w (VStr "5") _ eq_refl eq_refl) _).
  - vm_compute. reflexivity.
  - simpl. tauto.
Defined.

(* ===================================================================== *)
(** ** Exact types *)
(* ===================================================================== *)

Lemma conforms_class (t : ty) (c : pyclass) (v : pyval) :
  class_of_ty t = Some c -> conforms t v = true -> type_of v = c.
Proof.
  destruct t; simpl; try discriminate; intros [= <-];
    destruct v; simpl; try discriminate; reflexivity.
Qed.

Lemma make_checker_raises (m : model) (label : string) (w : world) (e : exn) :
  validate_with_model (VDict (w_event w)) m = Raise e ->
  raises (make_checker m label) w e.
Proof.
  intros H. unfold raises. rewrite make_checker_run, H. reflexivity.
Qed.




(* ===================================================================== *)
(** ** The checkers keep no state *)
(* ===================================================================== *)

Section Quiet.

Lemma quiet_mret {A} (a : A) : quiet (mret a : M A).
Proof. intros w a' w' H. apply mret_inr in H. tauto. Qed.

Lemma quiet_raise {A} (e : exn) : quiet (raise e : M A).
Proof. intros w a w' H. discriminate. Qed.

Lemma quiet_lift {A} (r : result A) : quiet (lift r).
Proof. intros w a w' H. apply lift_inr in H. tauto. Qed.

Lemma quiet_get_event : quiet get_event.
Proof. intros w a w' H. apply get_event_inr in H. tauto. Qed.

Lemma quiet_py_assert (b : bool) : quiet (py_assert b).
Proof. intros w a w' H. apply py_assert_inr in H. tauto. Qed.

Lemma quiet_event_getitem (k : string) : quiet (event_getitem k).
Proof. intros w a w' H. apply event_getitem_inr in H. tauto. Qed.

Lemma quiet_make_checker (m : model) (label : string) :
  quiet (make_checker m label).
Proof. intros w a w' H. apply make_checker_inr in H. tauto. Qed.

Lemma quiet_bind {A B} (c : M A) (k : A -> M B) :
  quiet c -> (forall a, quiet (k a)) -> quiet (c ≫= k).
Proof.
  intros Hc Hk w b w' H. apply bind_inr in H.
  destruct H as (a & w1 & Ha & Hb).
  apply Hc in Ha. subst w1. exact (Hk a _ _ _ Hb).
Qed.

Lemma quiet_for_each {A} (xs : list A) (body : A -> M unit) :
  (forall x, quiet (body x)) -> quiet (for_each xs body).
Proof.
  intros Hbody. induction xs as [|x rest IH]; simpl.
  - apply quiet_mret.
  - apply quiet_bind; [apply Hbody | intros _; exact IH].
Qed.

End Quiet.

Section KeepsEvent.

Lemma keeps_mret {A} (a : A) : keeps_event (mret a : M A).
Proof. intros w. reflexivity. Qed.

Lemma keeps_raise {A} (e : exn) : keeps_event (raise e : M A).
Proof. intros w. reflexivity. Qed.

Lemma keeps_lift {A} (r : result A) : keeps_event (lift r).
Proof. intros w. reflexivity. Qed.

Lemma keeps_get_event : keeps_event get_event.
Proof. intros w. reflexivity. Qed.

Lemma keeps_print (o : output) : keeps_event (print o).
Proof. intros w. reflexivity. Qed.

Lemma keeps_py_assert (b : bool) : keeps_event (py_assert b).
Proof. intros w. destruct b; reflexivity. Qed.

Lemma keeps_bind {A B} (c : M A) (k : A -> M B) :
  keeps_event c -> (forall a, keeps_event (k a)) -> keeps_event (c ≫= k).
Proof.
  intros Hc Hk w. rewrite bind_run. specialize (Hc w).
  destruct (c w) as [[e|a] w1]; simpl in *; [exact Hc|].
  rewrite (Hk a w1). exact Hc.
Qed.

Lemma keeps_try_except {A} (c : M A) (handler : exn -> M A) :
  keeps_event c -> (forall e, keeps_event (handler e)) ->
  keeps_event (try_except c handler).
Proof.
  intros Hc Hh w. unfold try_except. specialize (Hc w).
  destruct (c w) as [[e|a] w1]; simpl in *; [|exact Hc].
  rewrite (Hh e w1). exact Hc.
Qed.

Lemma keeps_event_getitem (k : string) : keeps_event (event_getitem k).
Proof.
  unfold event_getitem. apply keeps_bind; [apply keeps_get_event|].
  intros a. apply keeps_lift.
Qed.

Lemma keeps_make_checker (m : model) (label : string) :
  keeps_event (make_checker m label).
Proof.
  unfold make_checker. apply keeps_bind; [apply keeps_get_event|].
  intros event. apply keeps_try_except; [apply keeps_lift|].
  intros e. apply keeps_bind; [apply keeps_print|]. intros _.
  apply keeps_bind; [apply keeps_print|]. intros _. apply keeps_raise.
Qed.

Lemma keeps_for_each {A} (xs : list A) (body : A -> M unit) :
  (forall x, keeps_event (body x)) -> keeps_event (for_each xs body).
Proof.
  intros Hbody. induction xs as [|x rest IH]; simpl.
  - apply keeps_mret.
  - apply keeps_bind; [apply Hbody | intros _; exact IH].
Qed.

End KeepsEvent.

(** Quietness of a checker, piece by piece. *)
Ltac quiet_tac :=
  cbv zeta;
  repeat first
    [ apply quiet_make_checker
    | apply quiet_event_getitem
    | apply quiet_get_event
    | apply quiet_py_assert
    | apply quiet_lift
    | apply quiet_mret
    | apply quiet_raise
    | apply quiet_for_each; intros ?
    | apply quiet_bind; [|intros ?]
    | match goal with
      | |- quiet (if ?b then _ else _) => destruct b
      end ].

Ltac keeps_tac :=
  cbv zeta;
  repeat first
    [ apply keeps_make_checker
    | apply keeps_event_getitem
    | apply keeps_get_event
    | apply keeps_py_assert
    | apply keeps_lift
    | apply keeps_mret
    | apply keeps_raise
    | apply keeps_for_each; intros ?
    | apply keeps_bind; [|intros ?]
    | match goal with
      | |- keeps_event (if ?b then _ else _) => destruct b
      end ].

Section Stateless.

Variables
  (AllowMessageEditingData AuthenticationData BotServicesEmbedded
   BotServicesOutgoing EventDeleteMessage EventMutedTopics EventRealmBotAdd
   EventRealmBotUpdate EventRealmUpdate EventRealmUpdateDict
   EventUpdateMessage GroupSettingUpdateData IconData LogoData
   MessageContentEditLimitSecondsData NightLogoData PlanTypeData
   RealmTopicsPolicyData : model).
Variables (ORIG_TOPIC TOPIC_NAME : string).
Variables (DEFAULT_BOT OUTGOING_WEBHOOK_BOT EMBEDDED_BOT : Z).
Variable (property_types : gmap string property_type).
Variable (REALM_PERMISSION_GROUP_SETTINGS : list string).

Local Abbreviation run :=
  (run_checker AllowMessageEditingData AuthenticationData BotServicesEmbedded
     BotServicesOutgoing EventDeleteMessage EventMutedTopics EventRealmBotAdd
     EventRealmBotUpdate EventRealmUpdate EventRealmUpdateDict
     EventUpdateMessage GroupSettingUpdateData IconData LogoData
     MessageContentEditLimitSecondsData NightLogoData PlanTypeData
     RealmTopicsPolicyData ORIG_TOPIC TOPIC_NAME DEFAULT_BOT
     OUTGOING_WEBHOOK_BOT EMBEDDED_BOT property_types
     REALM_PERMISSION_GROUP_SETTINGS).

Lemma run_checker_quiet (c : checker) (var_name : string) :
  quiet (run c var_name).
Proof.
  destruct c; simpl.
  - apply quiet_make_checker.
  - unfold check_delete_message, _check_delete_message. quiet_tac.
  - unfold check_muted_topics, _check_muted_topics. quiet_tac.
  - unfold check_realm_bot_add, _check_realm_bot_add. quiet_tac.
  - unfold check_realm_bot_update, _check_realm_bot_update. quiet_tac.
  - unfold check_realm_update, _check_realm_update. quiet_tac.
  - unfold check_realm_update_dict, _check_realm_update_dict. quiet_tac.
  - unfold check_update_message, _check_update_message. quiet_tac.
Qed.

Lemma run_checker_keeps_event (c : checker) (var_name : string) :
  keeps_event (run c var_name).
Proof.
  destruct c; simpl.
  - apply keeps_make_checker.
  - unfold check_delete_message, _check_delete_message. keeps_tac.
  - unfold check_muted_topics, _check_muted_topics. keeps_tac.
  - unfold check_realm_bot_add, _check_realm_bot_add. keeps_tac.
  - unfold check_realm_bot_update, _check_realm_bot_update. keeps_tac.
  - unfold check_realm_update, _check_realm_update. keeps_tac.
  - unfold check_realm_update_dict, _check_realm_update_dict. keeps_tac.
  - unfold check_update_message, _check_update_message. keeps_tac.
Qed.

End Stateless.



(* ===================================================================== *)
(** ** The schema check comes first, and only it prints *)
(* ===================================================================== *)

Import Checkers.

Section Silent.

Lemma silent_mret {A} (a : A) : silent (mret a : M A).
Proof. intros w. reflexivity. Qed.

Lemma silent_raise {A} (e : exn) : silent (raise e : M A).
Proof. intros w. reflexivity. Qed.

Lemma silent_lift {A} (r : result A) : silent (lift r).
Proof. intros w. reflexivity. Qed.

Lemma silent_get_event : silent get_event.
Proof. intros w. reflexivity. Qed.

Lemma silent_py_assert (b : bool) : silent (py_assert b).
Proof. intros w. destruct b; reflexivity. Qed.

Lemma silent_bind {A B} (c : M A) (k : A -> M B) :
  silent c -> (forall a, silent (k a)) -> silent (c ≫= k).
Proof.
  intros Hc Hk w. rewrite bind_run. specialize (Hc w).
  destruct (c w) as [[e|a] w1]; simpl in *; subst w1; [reflexivity|].
  apply Hk.
Qed.

Lemma silent_event_getitem (k : string) : silent (event_getitem k).
Proof.
  unfold event_getitem. apply silent_bind; [apply silent_get_event|].
  intros a. apply silent_lift.
Qed.

Lemma silent_for_each {A} (xs : list A) (body : A -> M unit) :
  (forall x, silent (body x)) -> silent (for_each xs body).
Proof.
  intros Hbody. induction xs as [|x rest IH]; simpl.
  - apply silent_mret.
  - apply silent_bind; [apply Hbody | intros _; exact IH].
Qed.

(** A checker made of the schema check and a silent rest. *)
Lemma wrapped_run (m : model) (label : string) (k : unit -> M unit)
    (w : world) :
  silent (k tt) ->
  (make_checker m label ≫= k) w =
  match validate_with_model (VDict (w_event w)) m with
  | inr _ => (fst (k tt w), w)
  | inl e =>
      (inl e,
       World (w_event w)
         ((w_stdout w ++ [Banner label m]) ++ [Pprint (w_event w)]))
  end.
Proof.
  intros Hk. rewrite bind_run, make_checker_run.
  destruct (validate_with_model (VDict (w_event w)) m) as [e|[]];
    [reflexivity|].
  specialize (Hk w). destruct (k tt w) as [r w']. simpl in *. subst w'.
  reflexivity.
Qed.

End Silent.

Ltac silent_tac :=
  cbv zeta;
  repeat first
    [ apply silent_event_getitem
    | apply silent_get_event
    | apply silent_py_assert
    | apply silent_lift
    | apply silent_mret
    | apply silent_raise
    | apply silent_for_each; intros ?
    | apply silent_bind; [|intros ?]
    | match goal with
      | |- silent (if ?b then _ else _) => destruct b
      | |- silent (let '(_, _) := ?x in _) => destruct x
      end ].

(** Every checker of the family is the schema check of its model followed
    by a silent rest. *)
Lemma run_wrapped (I : imports) (c : wrapped) (label : string) :
  exists k : unit -> M unit,
    silent (k tt)
    /\ forall w, run I c label w = (make_checker (base_model I c) label ≫= k) w.
Proof.
  destruct c as [[m|? ? ?| | |?|?| |? ? ? ? ?]| | | | | | | | | | | | |];
    simpl;
    try (eexists (fun _ => _); split; [|intros w; reflexivity];
         cbv beta; silent_tac; fail).
  exists (fun _ => mret tt). split; [apply silent_mret|].
  intros w. rewrite bind_run.
  destruct (make_checker m label w) as [[e|[]] w']; reflexivity.
Qed.





(* ===================================================================== *)
(** ** When the claimed checkers accept *)
(* ===================================================================== *)

(** X3.  [check_delete_message] accepts an event exactly when the event
    passes the schema check, [message_type] is ["stream"] or ["private"] and
    is the event's [message_type], the key set is the one the arguments
    determine, and the count is 1 in legacy mode or the length of the list
    [message_ids] otherwise. *)
Theorem check_delete_message_exactly
    (EventDeleteMessage : model) (var_name message_type : string)
    (num_message_ids : Z) (is_legacy : bool) (w : world) :
  succeeds (check_delete_message EventDeleteMessage var_name message_type
              num_message_ids is_legacy) w <->
  validate_with_model (VDict (w_event w)) EventDeleteMessage = Return tt
  /\ (message_type = "stream" \/ message_type = "private")
  /\ dict_get "message_type" (w_event w) = Some (VStr message_type)
  /\ dict_keys (w_event w) =
       ({[ "id"; "type"; "message_type" ]}
        ∪ (if String.eqb message_type "stream"
           then {[ "stream_id"; "topic" ]} else ∅))
       ∪ (if is_legacy then {[ "message_id" ]} else {[ "message_ids" ]})
  /\ (if is_legacy then num_message_ids = 1
      else exists ids,
          dict_get "message_ids" (w_event w) = Some (VList ids)
          /\ num_message_ids = Z.of_nat (length ids)).
Proof.
  split; [apply check_delete_message_inv|].
  intros (Hbase & Hmt & Hget & Hkeys & Hcount).
  apply succeeds_run. exists tt, w.
  unfold check_delete_message, _check_delete_message.
  run_fwd. rewrite (proj2 (py_eq_str_r _ _) eq_refl). run_fwd.
  assert (Hbranch :
    (if String.eqb message_type "stream"
     then mret ({[ "id"; "type"; "message_type" ]} ∪ {[ "stream_id"; "topic" ]})
     else if String.eqb message_type "private"
          then mret {[ "id"; "type"; "message_type" ]}
          else raise (AssertionError "unexpected message_type"))
    = (mret (({[ "id"; "type"; "message_type" ]} : gset string)
             ∪ (if String.eqb message_type "stream"
                then {[ "stream_id"; "topic" ]} else ∅)) : M (gset string))).
  { destruct Hmt as [-> | ->]; simpl; [reflexivity|].
    rewrite union_empty_r_L. reflexivity. }
  rewrite Hbranch. run_fwd.
  destruct is_legacy.
  - subst num_message_ids. simpl Z.eqb. run_fwd.
    rewrite bool_decide_eq_true_2 by exact Hkeys. reflexivity.
  - destruct Hcount as (ids & Hids & ->). run_fwd. simpl isinstance.
    run_fwd. simpl py_len. run_fwd. rewrite Z.eqb_refl. run_fwd.
    rewrite bool_decide_eq_true_2 by exact Hkeys. reflexivity.
Qed.

Lemma check_delete_message_exactly_witness :
  succeeds
    (check_delete_message Fixtures.EventDeleteMessage "events[0]" "private"
       1 true)
    (Fixtures.world_of
       [("id", VInt 0); ("type", VStr "delete_message");
        ("message_type", VStr "private"); ("message_id", VInt 4)]).
Proof.
  apply (proj2 (check_delete_message_exactly Fixtures.EventDeleteMessage
                  "events[0]" "private" 1 true _)).
  split; [vm_compute; reflexivity|].
  split; [right; reflexivity|].
  split; [reflexivity|].
  split; [decide_by_compute | reflexivity].
Defined.

(** X4.  [check_update_message] accepts an event exactly when the event
    passes the schema check, its key set is the base set extended by the
    groups of the flags that are true, [user_id] is [None] for an
    embedded-only update and an [int] instance otherwise, and
    [rendering_only] equals [is_embedded_update_only]. *)
Theorem check_update_message_exactly
    (EventUpdateMessage : model) (ORIG_TOPIC TOPIC_NAME var_name : string)
    (is_stream_message has_content has_topic has_new_stream_id
     is_embedded_update_only : bool) (w : world) :
  succeeds (check_update_message EventUpdateMessage ORIG_TOPIC TOPIC_NAME
              var_name is_stream_message has_content has_topic
              has_new_stream_id is_embedded_update_only) w <->
  validate_with_model (VDict (w_event w)) EventUpdateMessage = Return tt
  /\ dict_keys (w_event w) =
       {[ "id"; "type"; "user_id"; "edit_timestamp"; "message_id"; "flags";
          "message_ids"; "rendering_only" ]}
       ∪ (if is_stream_message then {[ "stream_id"; "stream_name" ]} else ∅)
       ∪ (if has_content
          then {[ "is_me_message"; "orig_content"; "orig_rendered_content";
                  "content"; "rendered_content" ]} else ∅)
       ∪ (if has_topic
          then {[ "topic_links"; ORIG_TOPIC; TOPIC_NAME; "propagate_mode" ]}
          else ∅)
       ∪ (if has_new_stream_id
          then {[ "new_stream_id"; ORIG_TOPIC; "propagate_mode" ]} else ∅)
       ∪ (if is_embedded_update_only
          then {[ "content"; "rendered_content" ]} else ∅)
  /\ (exists user_id,
        dict_get "user_id" (w_event w) = Some user_id
        /\ if is_embedded_update_only then user_id = VNone
           else isinstance user_id CInt = true)
  /\ (exists rendering_only,
        dict_get "rendering_only" (w_event w) = Some rendering_only
        /\ py_eq rendering_only (VBool is_embedded_update_only) = true).
Proof.
  split; [apply check_update_message_inv|].
  intros (Hbase & Hkeys & (user_id & Huser & Hty) & (r & Hr & Heq)).
  apply succeeds_run. exists tt, w.
  unfold check_update_message, _check_update_message.
  run_fwd. cbv zeta. rewrite !union_if.
  destruct is_embedded_update_only.
  - subst user_id. run_fwd. simpl type_of.
    idtac.
    rewrite Heq. run_fwd.
    rewrite bool_decide_eq_true_2 by (symmetry; exact Hkeys). reflexivity.
  - run_fwd. rewrite Hty. run_fwd. rewrite Heq. run_fwd.
    rewrite union_empty_r_L in Hkeys.
    rewrite bool_decide_eq_true_2 by (symmetry; exact Hkeys). reflexivity.
Qed.

Lemma check_update_message_exactly_witness :
  succeeds
    (check_update_message Fixtures.EventUpdateMessage Fixtures.ORIG_TOPIC
       Fixtures.TOPIC_NAME "events[0]" true false false false false)
    (Fixtures.world_of
       [("id", VInt 0); ("type", VStr "update_message"); ("user_id", VInt 7);
        ("edit_timestamp", VInt 1700000000); ("message_id", VInt 9);
        ("flags", VList [VStr "read"]); ("message_ids", VList [VInt 9]);
        ("rendering_only", VBool false); ("stream_id", VInt 3);
        ("stream_name", VStr "lunch")]).
Proof.
  apply (proj2 (check_update_message_exactly Fixtures.EventUpdateMessage
                  Fixtures.ORIG_TOPIC Fixtures.TOPIC_NAME "events[0]" true
                  false false false false _)).
  split; [vm_compute; reflexivity|].
  split; [decide_by_compute|].
  split; eexists; (split; [reflexivity|]); reflexivity.
Defined.

(** X5.  [check_realm_bot_update] accepts an event exactly when the event
    passes the schema check and its [bot] is a dictionary whose key set is
    [{"user_id", field}]; a bot object without ["user_id"] is never
    accepted. *)
Theorem check_realm_bot_update_exactly
    (EventRealmBotUpdate : model) (var_name field : string) (w : world) :
  (succeeds (check_realm_bot_update EventRealmBotUpdate var_name field) w <->
   validate_with_model (VDict (w_event w)) EventRealmBotUpdate = Return tt
   /\ exists bot,
        dict_get "bot" (w_event w) = Some (VDict bot)
        /\ dict_keys bot = {[ "user_id"; field ]})
  /\ (forall bot,
         dict_get "bot" (w_event w) = Some (VDict bot) ->
         dict_get "user_id" bot = None ->
         fails (check_realm_bot_update EventRealmBotUpdate var_name field) w).
Proof.
  assert (Hiff :
    succeeds (check_realm_bot_update EventRealmBotUpdate var_name field) w <->
    validate_with_model (VDict (w_event w)) EventRealmBotUpdate = Return tt
    /\ exists bot,
         dict_get "bot" (w_event w) = Some (VDict bot)
         /\ dict_keys bot = {[ "user_id"; field ]}).
  { split.
    - intros Hok. apply succeeds_run in Hok. destruct Hok as ([] & w' & Hok).
      unfold check_realm_bot_update, _check_realm_bot_update in Hok.
      run_inv. norm_hyps. split; [assumption|].
      match goal with
      | H : isinstance ?v CDict = true |- _ =>
          destruct v as [| | | | | |bot]; try discriminate H
      end.
      exists bot. split; [assumption|].
      match goal with H : py_keys _ = inr _ |- _ => injection H as <- end.
      symmetry. assumption.
    - intros (Hbase & bot & Hbot & Hkeys). apply succeeds_run. exists tt, w.
      unfold check_realm_bot_update, _check_realm_bot_update.
      run_fwd. simpl. run_fwd.
      rewrite bool_decide_eq_true_2 by (symmetry; exact Hkeys). reflexivity. }
  split; [exact Hiff|].
  intros bot Hbot Hnone. apply fails_not_succeeds. intros Hok.
  apply Hiff in Hok. destruct Hok as (_ & bot' & Hbot' & Hkeys).
  rewrite Hbot in Hbot'. injection Hbot' as <-.
  apply dict_get_None_keys in Hnone. apply Hnone. rewrite Hkeys.
  apply elem_of_union_l, elem_of_singleton. reflexivity.
Qed.

Lemma check_realm_bot_update_exactly_witness :
  succeeds
    (check_realm_bot_update Fixtures.EventRealmBotUpdate "events[0]"
       "full_name")
    (Fixtures.world_of
       [("id", VInt 0); ("type", VStr "realm_bot"); ("op", VStr "update");
        ("bot", VDict [("user_id", VInt 5); ("full_name", VStr "Hook")])]).
Proof.
  apply (proj2 (proj1 (check_realm_bot_update_exactly
                         Fixtures.EventRealmBotUpdate "events[0]" "full_name"
                         _))).
  split; [vm_compute; reflexivity|].
  eexists. split; [reflexivity | decide_by_compute].
Defined.

(** X6.  The order of the failures of [check_realm_update] on an event that
    passes the schema check: a property name other than the event's fails the
    first assertion, whatever the catalog holds; for an enum-typed property,
    a value that is not a string fails the [isinstance] assertion, and a
    string that names no member raises [KeyError] with that string. *)
Theorem check_realm_update_failures
    (EventRealmUpdate : model) (property_types : gmap string property_type)
    (var_name prop : string) (w : world) (property value : pyval) :
  validate_with_model (VDict (w_event w)) EventRealmUpdate = Return tt ->
  dict_get "property" (w_event w) = Some property ->
  dict_get "value" (w_event w) = Some value ->
  let check :=
    check_realm_update EventRealmUpdate property_types var_name prop in
  (property <> VStr prop -> check w = (Raise (AssertionError ""), w))
  /\ (forall members,
         property = VStr prop ->
         ~ In prop integer_coded_properties ->
         property_types !! prop = Some (PEnum members) ->
         (isinstance value CStr = false ->
          check w = (Raise (AssertionError ""), w))
         /\ (forall s, value = VStr s -> ~ In s members ->
             check w = (Raise (KeyError s), w))).
Proof.
  intros Hbase Hprop Hvalue check. subst check. split.
  - intros Hne. unfold check_realm_update, _check_realm_update.
    run_fwd.
    replace (py_eq (VStr prop) property) with false; [reflexivity|].
    symmetry. apply not_true_is_false. rewrite py_eq_str_l. exact Hne.
  - intros members -> Hnin Hcat.
    rewrite (check_realm_update_other_names _ _ _ _ _ _ Hnin Hbase Hprop
               Hvalue), Hcat.
    change (is_enum (PEnum members)) with true. cbv iota. split.
    + intros ->. reflexivity.
    + intros s -> Hs. simpl isinstance. run_fwd.
      unfold lift, enum_getitem.
      replace (str_in s members) with false; [reflexivity|].
      symmetry. apply not_true_is_false. rewrite str_in_In. exact Hs.
Qed.

Lemma check_realm_update_failures_witness :
  let w := Fixtures.world_of
             [("id", VInt 0); ("type", VStr "realm"); ("op", VStr "update");
              ("property", VStr "topics_policy"); ("value", VStr "never")] in
  check_realm_update Fixtures.EventRealmUpdate Fixtures.property_types
    "events[0]" "topics_policy" w
  = (Raise (KeyError "never"), w).
Proof.
  intros w.
  refine (proj2 (proj2 (check_realm_update_failures Fixtures.EventRealmUpdate
    Fixtures.property_types "events[0]" "topics_policy" w
    (VStr "topics_policy") (VStr "never") _ eq_refl eq_refl)
    ["allow_empty_topic"; "disable_empty_topic"] eq_refl _ _) "never"
    eq_refl _).
  - vm_compute. reflexivity.
  - simpl. intros H. repeat destruct H as [H|H]; try discriminate H; exact H.
  - vm_compute. reflexivity.
  - simpl. intros H. repeat destruct H as [H|H]; try discriminate H; exact H.
Defined.

(* ===================================================================== *)
(** ** Checkers of an exact field set *)
(* ===================================================================== *)

Lemma isinstance_dict (v : pyval) :
  isinstance v CDict = true <-> exists d, v = VDict d.
Proof.
  split.
  - destruct v; try discriminate. eauto.
  - intros (d & ->). reflexivity.
Qed.

(** The shape shared by [check_channel_folder_update] and
    [check_user_group_update]. *)
Lemma data_keys_run (m : model) (var_name : string) (fields : gset string)
    (w : world) :
  succeeds
    (make_checker m var_name;;
     data ← event_getitem "data";
     py_assert (isinstance data CDict);;
     keys ← lift (py_keys data);
     py_assert (bool_decide (keys = fields))) w <->
  validate_with_model (VDict (w_event w)) m = Return tt
  /\ exists data,
       dict_get "data" (w_event w) = Some (VDict data)
       /\ dict_keys data = fields.
Proof.
  split.
  - intros Hok. apply succeeds_run in Hok. destruct Hok as ([] & w' & Hok).
    run_inv. norm_hyps. split; [assumption|].
    match goal with
    | H : isinstance ?v CDict = true |- _ =>
        apply isinstance_dict in H; destruct H as (d & ->)
    end.
    exists d. split; [assumption|].
    match goal with H : py_keys _ = inr _ |- _ => injection H as <- end.
    assumption.
  - intros (Hbase & data & Hdata & Hkeys). apply succeeds_run. exists tt, w.
    run_fwd. simpl. run_fwd.
    rewrite bool_decide_eq_true_2 by exact Hkeys. reflexivity.
Qed.

(** X7.  [check_channel_folder_update] and [check_user_group_update] accept
    an event exactly when it passes the schema check and its [data] is a
    dictionary whose key set is the [fields] argument; so a [data] with a key
    outside [fields], or without one of them, is rejected. *)
Theorem data_field_set_exactly
    (EventChannelFolderUpdate EventUserGroupUpdate : model)
    (var_name : string) (fields : gset string) (w : world) :
  (succeeds
     (check_channel_folder_update EventChannelFolderUpdate var_name fields) w
   <-> validate_with_model (VDict (w_event w)) EventChannelFolderUpdate
       = Return tt
       /\ exists data,
            dict_get "data" (w_event w) = Some (VDict data)
            /\ dict_keys data = fields)
  /\ (succeeds (check_user_group_update EventUserGroupUpdate var_name fields) w
      <-> validate_with_model (VDict (w_event w)) EventUserGroupUpdate
          = Return tt
          /\ exists data,
               dict_get "data" (w_event w) = Some (VDict data)
               /\ dict_keys data = fields)
  /\ (forall data k,
         dict_get "data" (w_event w) = Some (VDict data) ->
         (k ∈ dict_keys data /\ k ∉ fields)
         \/ (k ∈ fields /\ k ∉ dict_keys data) ->
         fails (check_channel_folder_update EventChannelFolderUpdate var_name
                  fields) w
         /\ fails (check_user_group_update EventUserGroupUpdate var_name
                     fields) w).
Proof.
  split; [apply data_keys_run|]. split; [apply data_keys_run|].
  intros data k Hdata Hk.
  assert (Hne : dict_keys data <> fields).
  { intros <-. destruct Hk as [[? ?]|[? ?]]; contradiction. }
  split; apply fails_not_succeeds; intros Hok; apply data_keys_run in Hok;
    destruct Hok as (_ & data' & Hdata' & Hkeys);
    rewrite Hdata in Hdata'; injection Hdata' as <-; contradiction.
Qed.

Lemma data_field_set_exactly_witness :
  succeeds
    (check_user_group_update FixturesRest.EventUserGroupUpdate "events[0]"
       {[ "name"; "description" ]})
    (Fixtures.world_of
       [("id", VInt 0); ("type", VStr "user_group"); ("op", VStr "update");
        ("group_id", VInt 12);
        ("data", VDict [("name", VStr "backend");
                        ("description", VStr "Backend team")])]).
Proof.
  apply (proj2 (proj1 (proj2 (data_field_set_exactly
    FixturesRest.EventChannelFolderUpdate FixturesRest.EventUserGroupUpdate
    "events[0]" {[ "name"; "description" ]} _)))).
  split; [vm_compute; reflexivity|].
  eexists. split; [reflexivity | decide_by_compute].
Defined.

(** X8.  [check_user_status] accepts an event exactly when it passes the
    schema check and its key set is [{id, type, user_id}] together with
    [fields]; listing one of the three keys in [fields] changes nothing, and
    an accepted event always has the three keys. *)
Theorem check_user_status_exactly
    (EventUserStatus : model) (var_name : string) (fields : gset string)
    (w : world) :
  (succeeds (check_user_status EventUserStatus var_name fields) w <->
   validate_with_model (VDict (w_event w)) EventUserStatus = Return tt
   /\ dict_keys (w_event w) = {[ "id"; "type"; "user_id" ]} ∪ fields)
  /\ (forall extra,
         extra ⊆ {[ "id"; "type"; "user_id" ]} ->
         check_user_status EventUserStatus var_name (fields ∪ extra) w
         = check_user_status EventUserStatus var_name fields w)
  /\ (succeeds (check_user_status EventUserStatus var_name fields) w ->
      exists id type user_id,
        dict_get "id" (w_event w) = Some id
        /\ dict_get "type" (w_event w) = Some type
        /\ dict_get "user_id" (w_event w) = Some user_id).
Proof.
  assert (Hiff :
    succeeds (check_user_status EventUserStatus var_name fields) w <->
    validate_with_model (VDict (w_event w)) EventUserStatus = Return tt
    /\ dict_keys (w_event w) = {[ "id"; "type"; "user_id" ]} ∪ fields).
  { split.
    - intros Hok. apply succeeds_run in Hok. destruct Hok as ([] & w' & Hok).
      unfold check_user_status, _check_user_status in Hok.
      run_inv. norm_hyps. split; assumption.
    - intros (Hbase & Hkeys). apply succeeds_run. exists tt, w.
      unfold check_user_status, _check_user_status. run_fwd.
      rewrite bool_decide_eq_true_2 by exact Hkeys. reflexivity. }
  split; [exact Hiff|]. split.
  - intros extra Hextra. unfold check_user_status.
    replace ({[ "id"; "type"; "user_id" ]} ∪ (fields ∪ extra))
      with (({[ "id"; "type"; "user_id" ]} : gset string) ∪ fields);
      [reflexivity|].
    apply set_eq. intros x. rewrite !elem_of_union.
    split; [tauto|]. intros [H|[H|H]]; auto.
    left. apply Hextra in H. rewrite !elem_of_union in H. exact H.
  - intros Hok. apply Hiff in Hok. destruct Hok as [_ Hkeys].
    assert (Hin : forall k, k ∈ ({[ "id"; "type"; "user_id" ]} : gset string)
                            -> is_Some (dict_get k (w_event w))).
    { intros k Hk. apply dict_get_keys. rewrite Hkeys.
      apply elem_of_union_l, Hk. }
    destruct (Hin "id" ltac:(set_solver)) as [id Hid].
    destruct (Hin "type" ltac:(set_solver)) as [ty Hty].
    destruct (Hin "user_id" ltac:(set_solver)) as [u Hu].
    exists id, ty, u. auto.
Qed.

Lemma check_user_status_exactly_witness :
  succeeds
    (check_user_status FixturesRest.EventUserStatus "events[0]"
       {[ "away"; "status_text" ]})
    (Fixtures.world_of
       [("id", VInt 0); ("type", VStr "user_status"); ("user_id", VInt 8);
        ("away", VBool true); ("status_text", VStr "out to lunch")]).
Proof.
  apply (proj2 (proj1 (check_user_status_exactly FixturesRest.EventUserStatus
                         "events[0]" {[ "away"; "status_text" ]} _))).
  split; [vm_compute; reflexivity | decide_by_compute].
Defined.

(* ===================================================================== *)
(** ** Checkers of a value, an emoji map, an export *)
(* ===================================================================== *)

(** X9.  [check_has_zoom_token] and [check_subscription_update] compare the
    event's value with the expected boolean by [==]: on an event that passes
    the schema check they accept exactly the values that are the boolean or
    the integer equal to it, 1 for [True] and 0 for [False], and
    [check_subscription_update] also requires the event's property to be the
    string passed. *)
Theorem boolean_value_checkers_exactly
    (EventHasZoomToken EventSubscriptionUpdate : model)
    (var_name property : string) (value : bool) (w : world) :
  (succeeds (check_has_zoom_token EventHasZoomToken var_name value) w <->
   validate_with_model (VDict (w_event w)) EventHasZoomToken = Return tt
   /\ exists v, dict_get "value" (w_event w) = Some v
                /\ (v = VBool value \/ v = VInt (Z.b2z value)))
  /\ (succeeds (check_subscription_update EventSubscriptionUpdate var_name
                  property value) w <->
      validate_with_model (VDict (w_event w)) EventSubscriptionUpdate
      = Return tt
      /\ dict_get "property" (w_event w) = Some (VStr property)
      /\ exists v, dict_get "value" (w_event w) = Some v
                   /\ (v = VBool value \/ v = VInt (Z.b2z value))).
Proof.
  assert (Heq : forall v, py_eq v (VBool value) = true <->
                          v = VBool value \/ v = VInt (Z.b2z value)).
  { intros v. rewrite py_eq_bool_r. split.
    - destruct v as [|b| | | | |]; try discriminate; simpl.
      + intros [= H]. left. f_equal.
        destruct b, value; try reflexivity; discriminate.
      + intros [= ->]. right. reflexivity.
    - intros [-> | ->]; reflexivity. }
  split.
  - split.
    + intros Hok. apply succeeds_run in Hok. destruct Hok as ([] & w' & Hok).
      unfold check_has_zoom_token, _check_has_zoom_token in Hok. run_inv.
      split; [assumption|]. eexists. split; [eassumption|].
      apply Heq. assumption.
    + intros (Hbase & v & Hv & Hval). apply succeeds_run. exists tt, w.
      unfold check_has_zoom_token, _check_has_zoom_token. run_fwd.
      rewrite (proj2 (Heq v) Hval). reflexivity.
  - split.
    + intros Hok. apply succeeds_run in Hok. destruct Hok as ([] & w' & Hok).
      unfold check_subscription_update, _check_subscription_update in Hok.
      run_inv. split; [assumption|].
      match goal with
      | H : py_eq _ (VStr _) = true |- _ => apply py_eq_str_r in H; subst
      end.
      split; [assumption|]. eexists. split; [eassumption|].
      apply Heq. assumption.
    + intros (Hbase & Hprop & v & Hv & Hval). apply succeeds_run.
      exists tt, w.
      unfold check_subscription_update, _check_subscription_update. run_fwd.
      rewrite (proj2 (py_eq_str_r _ _) eq_refl). run_fwd.
      rewrite (proj2 (Heq v) Hval). reflexivity.
Qed.

Lemma boolean_value_checkers_exactly_witness :
  succeeds
    (check_subscription_update FixturesRest.EventSubscriptionUpdate
       "events[0]" "pin_to_top" true)
    (Fixtures.world_of
       [("id", VInt 0); ("type", VStr "subscription"); ("op", VStr "update");
        ("property", VStr "pin_to_top"); ("stream_id", VInt 3);
        ("value", VBool true)]).
Proof.
  apply (proj2 (proj2 (boolean_value_checkers_exactly
    FixturesRest.EventHasZoomToken FixturesRest.EventSubscriptionUpdate
    "events[0]" "pin_to_top" true _))).
  split; [vm_compute; reflexivity|]. split; [reflexivity|].
  eexists. split; [reflexivity | left; reflexivity].
Defined.

Lemma items_from_spec (kvs : pydict) :
  forall (seen : list string) (k : string) (v : pyval),
    In (k, v) (items_from seen kvs) <->
    ~ In k seen /\ dict_get k kvs = Some v.
Proof.
  induction kvs as [|[k' v'] rest IH]; intros seen k v; simpl.
  - split; [tauto | intros [_ H]; discriminate].
  - destruct (str_in k' seen) eqn:Hseen.
    + rewrite IH. apply str_in_In in Hseen.
      destruct (String.eqb_spec k k') as [->|Hne]; [|tauto].
      split; intros [Hn _]; contradiction.
    + assert (Hk' : ~ In k' seen).
      { intros H. apply str_in_In in H. congruence. }
      simpl. rewrite IH. simpl.
      destruct (String.eqb_spec k k') as [->|Hne].
      * split.
        -- intros [[= ->]|[Hn _]]; [auto|]. exfalso. apply Hn. auto.
        -- intros [_ [= ->]]. auto.
      * split.
        -- intros [[= -> _]|[Hn Hget]]; [congruence|].
           split; [|exact Hget]. intros H. apply Hn. auto.
        -- intros [Hn Hget]. right. split; [|exact Hget].
           intros [->|H]; [congruence | contradiction].
Qed.

(** The items of a dictionary are its lookups. *)
Lemma dict_items_spec (kvs : pydict) (k : string) (v : pyval) :
  In (k, v) (dict_items kvs) <-> dict_get k kvs = Some v.
Proof. unfold dict_items. rewrite items_from_spec. simpl. tauto. Qed.

Section RealmEmoji.

(** The body of the loop of [check_realm_emoji_update]. *)
Local Abbreviation body :=
  (fun '(k, v) =>
     id ← lift (getitem v "id");
     py_assert (py_eq id (VStr k))).

Lemma emoji_body_run (k : string) (v : pyval) (w : world) :
  exists r, body (k, v) w = (r, w)
    /\ (r = inr tt <->
        exists e, v = VDict e /\ dict_get "id" e = Some (VStr k)).
Proof.
  cbv beta iota. rewrite bind_run. unfold lift.
  destruct v as [| | | | | |e]; simpl;
    try (eexists; split; [reflexivity|]; split;
         [discriminate | intros (e' & ? & _); discriminate]).
  destruct (dict_get "id" e) as [id|] eqn:Hid; simpl.
  - unfold py_assert. destruct (py_eq id (VStr k)) eqn:Heq.
    + apply py_eq_str_r in Heq. subst id.
      eexists; split; [reflexivity|]. split; [eauto | reflexivity].
    + eexists; split; [reflexivity|]. split; [discriminate|].
      intros (e' & [= <-] & Hid'). rewrite Hid in Hid'.
      injection Hid' as ->.
      rewrite (proj2 (py_eq_str_r _ _) eq_refl) in Heq. discriminate.
  - eexists; split; [reflexivity|]. split; [discriminate|].
    intros (e' & [= <-] & Hid'). congruence.
Qed.

End RealmEmoji.

(** X10.  [check_realm_emoji_update] accepts an event exactly when it passes
    the schema check and [realm_emoji] is a dictionary each of whose values
    is a dictionary with an [id] equal to the string it is stored under; the
    empty dictionary is accepted. *)
Theorem check_realm_emoji_update_exactly
    (EventRealmEmojiUpdate : model) (var_name : string) (w : world) :
  succeeds (check_realm_emoji_update EventRealmEmojiUpdate var_name) w <->
  validate_with_model (VDict (w_event w)) EventRealmEmojiUpdate = Return tt
  /\ exists realm_emoji,
       dict_get "realm_emoji" (w_event w) = Some (VDict realm_emoji)
       /\ forall k v,
            dict_get k realm_emoji = Some v ->
            exists emoji, v = VDict emoji
                          /\ dict_get "id" emoji = Some (VStr k).
Proof.
  split.
  - intros Hok. apply succeeds_run in Hok. destruct Hok as ([] & w' & Hok).
    unfold check_realm_emoji_update, _check_realm_emoji_update in Hok.
    run_inv. split; [assumption|].
    match goal with
    | H : isinstance ?v CDict = true |- _ =>
        apply isinstance_dict in H; destruct H as (d & ->)
    end.
    exists d. split; [assumption|].
    match goal with H : py_items _ = inr _ |- _ => injection H as <- end.
    apply (for_each_inr
             (fun kv => exists e, snd kv = VDict e
                                  /\ dict_get "id" e = Some (VStr (fst kv))))
      in Hok.
    + destruct Hok as [_ Hall]. intros k v Hget.
      apply dict_items_spec in Hget. rewrite Forall_forall in Hall.
      apply (Hall (k, v)). apply list_elem_of_In. exact Hget.
    + intros [k v] w1 u w2 Hx.
      destruct (emoji_body_run k v w1) as (r & Hr & Hiff).
      cbv beta iota in Hr. rewrite Hr in Hx. injection Hx as -> <-.
      split; [reflexivity|]. destruct u. apply Hiff. reflexivity.
  - intros (Hbase & d & Hd & Hall). apply succeeds_run. exists tt, w.
    unfold check_realm_emoji_update, _check_realm_emoji_update.
    run_fwd. simpl. run_fwd. apply for_each_ok. intros [k v] Hin.
    apply dict_items_spec in Hin.
    destruct (emoji_body_run k v w) as (r & Hr & Hiff).
    cbv beta iota in Hr. rewrite Hr. f_equal. apply Hiff. apply Hall, Hin.
Qed.

Lemma check_realm_emoji_update_exactly_witness :
  succeeds
    (check_realm_emoji_update FixturesRest.EventRealmEmojiUpdate "events[0]")
    (Fixtures.world_of
       [("id", VInt 0); ("type", VStr "realm_emoji"); ("op", VStr "update");
        ("realm_emoji", VDict [])]).
Proof.
  apply (proj2 (check_realm_emoji_update_exactly
                  FixturesRest.EventRealmEmojiUpdate "events[0]" _)).
  split; [vm_compute; reflexivity|].
  exists []. split; [reflexivity|]. intros k v H. discriminate H.
Defined.

(** X11.  [check_realm_export] accepts an event exactly when it passes the
    schema check, [exports] is a list of exactly one dictionary, and each of
    the three flags says whether [export_url], [deleted_timestamp] and
    [failed_timestamp] of that export is not [None]; an event with no export
    or with two exports is rejected. *)
Theorem check_realm_export_exactly
    (EventRealmExport : model) (var_name : string)
    (has_export_url has_deleted_timestamp has_failed_timestamp : bool)
    (w : world) :
  let check :=
    check_realm_export EventRealmExport var_name has_export_url
      has_deleted_timestamp has_failed_timestamp in
  (succeeds check w <->
   validate_with_model (VDict (w_event w)) EventRealmExport = Return tt
   /\ exists export export_url deleted_timestamp failed_timestamp,
        dict_get "exports" (w_event w) = Some (VList [VDict export])
        /\ dict_get "export_url" export = Some export_url
        /\ dict_get "deleted_timestamp" export = Some deleted_timestamp
        /\ dict_get "failed_timestamp" export = Some failed_timestamp
        /\ has_export_url = negb (is_none export_url)
        /\ has_deleted_timestamp = negb (is_none deleted_timestamp)
        /\ has_failed_timestamp = negb (is_none failed_timestamp))
  /\ (forall exports,
         dict_get "exports" (w_event w) = Some (VList exports) ->
         length exports <> 1%nat ->
         fails check w).
Proof.
  intros check. subst check.
  assert (Hiff :
    succeeds (check_realm_export EventRealmExport var_name has_export_url
                has_deleted_timestamp has_failed_timestamp) w <->
    validate_with_model (VDict (w_event w)) EventRealmExport = Return tt
    /\ exists export export_url deleted_timestamp failed_timestamp,
         dict_get "exports" (w_event w) = Some (VList [VDict export])
         /\ dict_get "export_url" export = Some export_url
         /\ dict_get "deleted_timestamp" export = Some deleted_timestamp
         /\ dict_get "failed_timestamp" export = Some failed_timestamp
         /\ has_export_url = negb (is_none export_url)
         /\ has_deleted_timestamp = negb (is_none deleted_timestamp)
         /\ has_failed_timestamp = negb (is_none failed_timestamp)).
  { split.
    - intros Hok. apply succeeds_run in Hok. destruct Hok as ([] & w' & Hok).
      unfold check_realm_export, _check_realm_export in Hok.
      run_inv. norm_hyps. split; [assumption|].
      match goal with
      | H : isinstance ?v CList = true |- _ =>
          destruct v as [| | | |exports| |]; try discriminate H
      end.
      match goal with
      | H : py_len _ = inr ?n, H1 : ?n = 1%nat |- _ =>
          injection H as H; rewrite H1 in H
      end.
      destruct exports as [|export [|? ?]]; try discriminate.
      match goal with
      | H : getitem0 _ = inr _ |- _ => injection H as <-
      end.
      destruct export as [| | | | | |export];
        try match goal with
            | H : getitem _ "export_url" = inr _ |- _ => discriminate H
            end.
      repeat match goal with
      | H : getitem (VDict _) ?k = inr _ |- _ =>
          unfold getitem in H;
          let E := fresh "Hget" in
          destruct (dict_get k export) eqn:E; [injection H as ->|discriminate H]
      | H : Bool.eqb _ _ = true |- _ => apply Bool.eqb_prop in H
      end.
      do 4 eexists. repeat (split; [eassumption|]). assumption.
    - intros (Hbase & export & u & d & f & Hexp & Hu & Hd & Hf & -> & -> & ->).
      apply succeeds_run. exists tt, w.
      unfold check_realm_export, _check_realm_export.
      run_fwd. simpl. run_fwd. unfold getitem. rewrite Hu, Hd, Hf.
      repeat (progress (rewrite ?Bool.eqb_reflx; run_fwd)). reflexivity. }
  split; [exact Hiff|].
  intros exports Hexp Hlen. apply fails_not_succeeds. intros Hok.
  apply Hiff in Hok. destruct Hok as (_ & export & ? & ? & ? & Hexp' & _).
  rewrite Hexp in Hexp'. injection Hexp' as ->. apply Hlen. reflexivity.
Qed.

Lemma check_realm_export_exactly_witness :
  succeeds
    (check_realm_export FixturesRest.EventRealmExport "events[0]" true false
       false)
    (Fixtures.world_of
       [("id", VInt 0); ("type", VStr "realm_export");
        ("exports",
         VList [VDict [("id", VInt 1); ("acting_user_id", VInt 7);
                       ("pending", VBool false);
                       ("export_url", VStr "https://example.com/e.tar.gz");
                       ("deleted_timestamp", VNone);
                       ("failed_timestamp", VNone)]])]).
Proof.
  apply (proj2 (proj1 (check_realm_export_exactly
    FixturesRest.EventRealmExport "events[0]" true false false _))).
  split; [vm_compute; reflexivity|].
  do 4 eexists. repeat (split; [reflexivity|]). reflexivity.
Defined.

(* ===================================================================== *)
(** ** [check_realm_user_update] *)
(* ===================================================================== *)

(** X12.  On an event that passes the schema check, [check_realm_user_update]
    validates [person] against the model [PERSON_TYPES] holds for the flavor,
    one of nine, and its outcome is the outcome of that validation; any other
    flavor raises [KeyError] with the flavor, before [person] is read. *)
Theorem check_realm_user_update_flavors
    (EventRealmUserUpdate PersonAvatarFields PersonBotOwnerId
     PersonCustomProfileField PersonDeliveryEmail PersonEmail PersonFullName
     PersonIsActive PersonRole PersonTimezone : model)
    (var_name person_flavor : string) (w : world) :
  let check :=
    check_realm_user_update EventRealmUserUpdate PersonAvatarFields
      PersonBotOwnerId PersonCustomProfileField PersonDeliveryEmail
      PersonEmail PersonFullName PersonIsActive PersonRole PersonTimezone
      var_name person_flavor in
  let flavors :=
    [ ("avatar_fields", PersonAvatarFields);
      ("bot_owner_id", PersonBotOwnerId);
      ("custom_profile_field", PersonCustomProfileField);
      ("delivery_email", PersonDeliveryEmail);
      ("email", PersonEmail);
      ("full_name", PersonFullName);
      ("role", PersonRole);
      ("timezone", PersonTimezone);
      ("is_active", PersonIsActive) ] in
  validate_with_model (VDict (w_event w)) EventRealmUserUpdate = Return tt ->
  (forall sub_type person,
      In (person_flavor, sub_type) flavors ->
      dict_get "person" (w_event w) = Some person ->
      check w = (validate_with_model person sub_type, w))
  /\ (~ In person_flavor (map fst flavors) ->
      check w = (Raise (KeyError person_flavor), w)).
Proof.
  intros check flavors Hbase. subst check flavors. split.
  - intros sub_type person Hin Hperson.
    unfold check_realm_user_update, _check_realm_user_update. run_fwd.
    assert (Hlook : PERSON_TYPES PersonAvatarFields PersonBotOwnerId
                      PersonCustomProfileField PersonDeliveryEmail PersonEmail
                      PersonFullName PersonIsActive PersonRole PersonTimezone
                    !! person_flavor = Some sub_type).
    { simpl in Hin.
      repeat (destruct Hin as [[= <- <-]|Hin];
              [vm_compute; reflexivity|]).
      destruct Hin. }
    rewrite Hlook. run_fwd. reflexivity.
  - intros Hnin.
    unfold check_realm_user_update, _check_realm_user_update. run_fwd.
    assert (Hlook : PERSON_TYPES PersonAvatarFields PersonBotOwnerId
                      PersonCustomProfileField PersonDeliveryEmail PersonEmail
                      PersonFullName PersonIsActive PersonRole PersonTimezone
                    !! person_flavor = None).
    { unfold PERSON_TYPES. apply not_elem_of_list_to_map_1.
      intros Hin. apply Hnin. apply list_elem_of_In in Hin. exact Hin. }
    rewrite Hlook. run_fwd. reflexivity.
Qed.

Lemma check_realm_user_update_flavors_witness :
  let w := Fixtures.world_of
             [("id", VInt 0); ("type", VStr "realm_user");
              ("op", VStr "update");
              ("person", VDict [("user_id", VInt 8);
                                ("full_name", VStr "Iago")])] in
  check_realm_user_update FixturesRest.EventRealmUserUpdate
    FixturesRest.PersonAvatarFields FixturesRest.PersonBotOwnerId
    FixturesRest.PersonCustomProfileField FixturesRest.PersonDeliveryEmail
    FixturesRest.PersonEmail FixturesRest.PersonFullName
    FixturesRest.PersonIsActive FixturesRest.PersonRole
    FixturesRest.PersonTimezone "events[0]" "nickname" w
  = (Raise (KeyError "nickname"), w).
Proof.
  intros w.
  refine (proj2 (check_realm_user_update_flavors
    FixturesRest.EventRealmUserUpdate
    FixturesRest.PersonAvatarFields FixturesRest.PersonBotOwnerId
    FixturesRest.PersonCustomProfileField FixturesRest.PersonDeliveryEmail
    FixturesRest.PersonEmail FixturesRest.PersonFullName
    FixturesRest.PersonIsActive FixturesRest.PersonRole
    FixturesRest.PersonTimezone "events[0]" "nickname" w _) _).
  - vm_compute. reflexivity.
  - simpl. intros H. repeat destruct H as [H|H]; try discriminate H; exact H.
Defined.

(* ===================================================================== *)
(** ** Checkers against a property-type catalog *)
(* ===================================================================== *)

(** What a catalog type asks of a value: a member name for an enumeration,
    an instance otherwise. *)
Lemma catalog_test_run (t : property_type) (value : pyval) (w : world) :
  succeeds
    (if is_enum t then
       py_assert (isinstance value CStr);;
       lift (enum_getitem t value)
     else
       py_assert (isinstance_of value t)) w <->
  match t with
  | PEnum members => exists s, value = VStr s /\ In s members
  | _ => isinstance_of value t = true
  end.
Proof.
  rewrite succeeds_run. destruct t as [c|cs|members]; cbn [is_enum].
  - split.
    + intros ([] & w' & H). run_inv. assumption.
    + intros H. exists tt, w. rewrite H. reflexivity.
  - split.
    + intros ([] & w' & H). run_inv. assumption.
    + intros H. exists tt, w. rewrite H. reflexivity.
  - split.
    + intros ([] & w' & H). run_inv.
      match goal with
      | H : isinstance ?v CStr = true |- _ => destruct v; try discriminate H
      end.
      match goal with H : enum_getitem _ _ = _ |- _ => simpl in H end.
      destruct (str_in s members) eqn:Hs; [|discriminate].
      apply str_in_In in Hs. eauto.
    + intros (s & -> & Hin). exists tt, w. simpl isinstance. run_fwd.
      unfold lift, enum_getitem. rewrite (proj2 (str_in_In _ _) Hin).
      reflexivity.
Qed.

(** X13.  [check_realm_default_update] accepts an event exactly when it
    passes the schema check, the event's property is [prop], [prop] is not
    ["default_language"] and is in [RealmUserDefault.property_types], and the
    value is a member name of an enum type or an instance of any other type.
    So ["default_language"] is always rejected, and a property missing from
    the catalog fails an assertion instead of raising [KeyError]. *)
Theorem check_realm_default_update_exactly
    (EventRealmUserSettingsDefaultsUpdate : model)
    (RealmUserDefault_property_types : gmap string property_type)
    (var_name prop : string) (w : world) :
  let check :=
    check_realm_default_update EventRealmUserSettingsDefaultsUpdate
      RealmUserDefault_property_types var_name prop in
  (succeeds check w <->
   validate_with_model (VDict (w_event w))
     EventRealmUserSettingsDefaultsUpdate = Return tt
   /\ dict_get "property" (w_event w) = Some (VStr prop)
   /\ prop <> "default_language"
   /\ exists t value,
        RealmUserDefault_property_types !! prop = Some t
        /\ dict_get "value" (w_event w) = Some value
        /\ match t with
           | PEnum members => exists s, value = VStr s /\ In s members
           | _ => isinstance_of value t = true
           end)
  /\ (prop = "default_language" -> fails check w)
  /\ (validate_with_model (VDict (w_event w))
        EventRealmUserSettingsDefaultsUpdate = Return tt ->
      dict_get "property" (w_event w) = Some (VStr prop) ->
      prop <> "default_language" ->
      RealmUserDefault_property_types !! prop = None ->
      check w = (Raise (AssertionError ""), w)).
Proof.
  intros check. subst check.
  assert (Hiff :
    succeeds (check_realm_default_update EventRealmUserSettingsDefaultsUpdate
                RealmUserDefault_property_types var_name prop) w <->
    validate_with_model (VDict (w_event w))
      EventRealmUserSettingsDefaultsUpdate = Return tt
    /\ dict_get "property" (w_event w) = Some (VStr prop)
    /\ prop <> "default_language"
    /\ exists t value,
         RealmUserDefault_property_types !! prop = Some t
         /\ dict_get "value" (w_event w) = Some value
         /\ match t with
            | PEnum members => exists s, value = VStr s /\ In s members
            | _ => isinstance_of value t = true
            end).
  { split.
    - intros Hok. apply succeeds_run in Hok. destruct Hok as ([] & w' & Hok).
      unfold check_realm_default_update, _check_realm_default_update in Hok.
      run_inv. norm_hyps. subst. split; [assumption|]. split; [assumption|].
      match goal with
      | H : negb (String.eqb prop _) = true |- _ =>
          apply negb_true_iff, String.eqb_neq in H
      end.
      split; [assumption|].
      match goal with
      | H : catalog_getitem _ _ = inr ?t |- _ =>
          unfold catalog_getitem in H;
          destruct (RealmUserDefault_property_types !! prop) as [t'|] eqn:Hcat;
          [injection H as ->|discriminate H]
      end.
      do 2 eexists. split; [reflexivity|]. split; [eassumption|].
      apply (catalog_test_run _ _ w). apply succeeds_run. eauto.
    - intros (Hbase & Hprop & Hne & t & value & Hcat & Hvalue & Hty).
      apply (catalog_test_run t value w) in Hty.
      apply succeeds_run in Hty. destruct Hty as ([] & w' & Hty).
      apply succeeds_run. exists tt, w'.
      unfold check_realm_default_update, _check_realm_default_update.
      run_fwd. rewrite (proj2 (py_eq_str_l _ _) eq_refl). run_fwd.
      rewrite (proj2 (String.eqb_neq _ _) Hne). simpl negb. run_fwd.
      rewrite bool_decide_eq_true_2 by (rewrite Hcat; eauto). run_fwd.
      unfold catalog_getitem. rewrite Hcat. run_fwd. exact Hty. }
  split; [exact Hiff|]. split.
  - intros ->. apply fails_not_succeeds. intros Hok. apply Hiff in Hok.
    destruct Hok as (_ & _ & Hne & _). apply Hne. reflexivity.
  - intros Hbase Hprop Hne Hcat.
    unfold check_realm_default_update, _check_realm_default_update.
    run_fwd. rewrite (proj2 (py_eq_str_l _ _) eq_refl). run_fwd.
    rewrite (proj2 (String.eqb_neq _ _) Hne). simpl negb. run_fwd.
    rewrite bool_decide_eq_false_2; [reflexivity|].
    rewrite Hcat. intros [x Hx]. discriminate.
Qed.

Lemma check_realm_default_update_exactly_witness :
  succeeds
    (check_realm_default_update
       FixturesRest.EventRealmUserSettingsDefaultsUpdate
       FixturesRest.RealmUserDefault_property_types "events[0]"
       "web_channel_default_view")
    (Fixtures.world_of
       [("id", VInt 0); ("type", VStr "realm_user_settings_defaults");
        ("op", VStr "update"); ("property", VStr "web_channel_default_view");
        ("value", VStr "TOPIC_LIST")]).
Proof.
  apply (proj2 (proj1 (check_realm_default_update_exactly
    FixturesRest.EventRealmUserSettingsDefaultsUpdate
    FixturesRest.RealmUserDefault_property_types "events[0]"
    "web_channel_default_view" _))).
  split; [vm_compute; reflexivity|]. split; [reflexivity|].
  split; [discriminate|].
  exists (PEnum ["CHANNEL_FEED"; "TOPIC_LIST"]), (VStr "TOPIC_LIST").
  split; [vm_compute; reflexivity|]. split; [reflexivity|].
  exists "TOPIC_LIST". split; [reflexivity | simpl; auto].
Defined.

Lemma isinstance_str (v : pyval) :
  isinstance v CStr = true <-> exists s, v = VStr s.
Proof.
  split.
  - destruct v; try discriminate. eauto.
  - intros (s & ->). reflexivity.
Qed.

Section Settings.

Variables (EventUpdateDisplaySettings EventUserSettingsUpdate : model).
Variable (UserProfile_property_types : gmap string property_type).

Lemma check_update_display_settings_iff (var_name : string) (w : world) :
  succeeds (check_update_display_settings EventUpdateDisplaySettings
              UserProfile_property_types var_name) w <->
  validate_with_model (VDict (w_event w)) EventUpdateDisplaySettings
  = Return tt
  /\ exists name setting,
       dict_get "setting_name" (w_event w) = Some (VStr name)
       /\ dict_get "setting" (w_event w) = Some setting
       /\ (if String.eqb name "timezone" then isinstance setting CStr = true
           else exists t, UserProfile_property_types !! name = Some t
                          /\ isinstance_of setting t = true)
       /\ dict_mem "language_name" (w_event w)
          = String.eqb name "default_language".
Proof.
  split.
  - intros Hok. apply succeeds_run in Hok. destruct Hok as ([] & w' & Hok).
    unfold check_update_display_settings, _check_update_display_settings
      in Hok.
    run_inv.
    match goal with
    | H : isinstance ?v CStr = true |- _ =>
        apply isinstance_str in H; destruct H as (name & ->)
    end.
    cbn [py_eq] in *.
    split; [assumption|]. exists name. eexists.
    split; [eassumption|]. split; [eassumption|]. split.
    + destruct (String.eqb name "timezone"); run_inv; [assumption|].
      match goal with
      | H : catalog_getitem_obj _ _ = inr _ |- _ =>
          unfold catalog_getitem_obj, catalog_getitem in H; simpl in H;
          destruct (UserProfile_property_types !! name) eqn:Hcat;
          [injection H as ->|discriminate H]
      end.
      eauto.
    + destruct (String.eqb name "timezone"); run_inv;
        destruct (String.eqb name "default_language"); run_inv;
        try assumption;
        match goal with
        | H : negb _ = true |- _ => apply negb_true_iff in H; exact H
        end.
  - intros (Hbase & name & setting & Hname & Hsetting & Hty & Hlang).
    apply succeeds_run. exists tt, w.
    unfold check_update_display_settings, _check_update_display_settings.
    run_fwd. change (isinstance (VStr name) CStr) with true. run_fwd.
    cbn [py_eq].
    destruct (String.eqb name "timezone").
    + rewrite Hty. run_fwd. rewrite Hlang.
      destruct (String.eqb name "default_language"); reflexivity.
    + destruct Hty as (t & Hcat & Hty).
      unfold catalog_getitem_obj, catalog_getitem. simpl py_hashable.
      cbv iota. rewrite Hcat. run_fwd. rewrite Hty. run_fwd. rewrite Hlang.
      destruct (String.eqb name "default_language"); reflexivity.
Qed.

Lemma check_user_settings_update_iff (var_name : string) (w : world) :
  succeeds (check_user_settings_update EventUserSettingsUpdate
              UserProfile_property_types var_name) w <->
  validate_with_model (VDict (w_event w)) EventUserSettingsUpdate = Return tt
  /\ exists name value,
       dict_get "property" (w_event w) = Some (VStr name)
       /\ dict_get "value" (w_event w) = Some value
       /\ (if String.eqb name "timezone" then isinstance value CStr = true
           else exists t,
               UserProfile_property_types !! name = Some t
               /\ match t with
                  | PEnum members => exists s, value = VStr s /\ In s members
                  | _ => isinstance_of value t = true
                  end)
       /\ dict_mem "language_name" (w_event w)
          = String.eqb name "default_language".
Proof.
  split.
  - intros Hok. apply succeeds_run in Hok. destruct Hok as ([] & w' & Hok).
    unfold check_user_settings_update, _check_user_settings_update in Hok.
    run_inv.
    match goal with
    | H : isinstance ?v CStr = true |- _ =>
        apply isinstance_str in H; destruct H as (name & ->)
    end.
    cbn [py_eq] in *.
    split; [assumption|]. exists name. eexists.
    split; [eassumption|]. split; [eassumption|]. split.
    + destruct (String.eqb name "timezone"); run_inv; [assumption|].
      match goal with
      | H : catalog_getitem_obj _ _ = inr _ |- _ =>
          unfold catalog_getitem_obj, catalog_getitem in H; simpl in H;
          destruct (UserProfile_property_types !! name) eqn:Hcat;
          [injection H as ->|discriminate H]
      end.
      eexists. split; [reflexivity|].
      match goal with
      | H : _ ?w0 = (inr _, _) |- _ =>
          apply (catalog_test_run _ _ w0); apply succeeds_run; eauto
      end.
    + match goal with
      | H : ?c ?w0 = (inr _, ?w1) |- _ =>
          match c with
          | (if String.eqb name "timezone" then _ else _) =>
              let Hq := fresh "Hq" in
              assert (Hq : quiet c) by quiet_tac;
              pose proof (Hq _ _ _ H); subst w1; clear H Hq
          end
      end.
      destruct (String.eqb name "default_language"); run_inv;
        try assumption;
        match goal with
        | H : negb _ = true |- _ => apply negb_true_iff in H; exact H
        end.
  - intros (Hbase & name & value & Hname & Hvalue & Hty & Hlang).
    apply succeeds_run. exists tt, w.
    unfold check_user_settings_update, _check_user_settings_update.
    run_fwd. change (isinstance (VStr name) CStr) with true. run_fwd.
    cbn [py_eq].
    destruct (String.eqb name "timezone").
    + rewrite Hty. run_fwd. rewrite Hlang.
      destruct (String.eqb name "default_language"); reflexivity.
    + destruct Hty as (t & Hcat & Hty).
      unfold catalog_getitem_obj, catalog_getitem. simpl py_hashable.
      cbv iota. rewrite Hcat. run_fwd.
      apply (catalog_test_run t value w) in Hty.
      apply succeeds_run in Hty. destruct Hty as ([] & w' & Hty).
      assert (Hw : w' = w).
      { destruct t; cbn [is_enum] in Hty; run_inv; reflexivity. }
      subst w'. rewrite (bind_step _ _ _ _ _ Hty). run_fwd. rewrite Hlang.
      destruct (String.eqb name "default_language"); reflexivity.
Qed.

End Settings.

(** X14.  [check_update_display_settings] and [check_user_settings_update]
    accept an event exactly when it passes the schema check, the setting's
    name is a string, the value is a string for ["timezone"] and otherwise
    fits the type [UserProfile.property_types] has for the name (for
    [check_user_settings_update], a member name when that type is an
    enumeration), and [language_name] is a key of the event if and only if
    the name is ["default_language"]. *)
Theorem settings_checkers_exactly
    (EventUpdateDisplaySettings EventUserSettingsUpdate : model)
    (UserProfile_property_types : gmap string property_type)
    (var_name : string) (w : world) :
  (succeeds (check_update_display_settings EventUpdateDisplaySettings
               UserProfile_property_types var_name) w <->
   validate_with_model (VDict (w_event w)) EventUpdateDisplaySettings
   = Return tt
   /\ exists name setting,
        dict_get "setting_name" (w_event w) = Some (VStr name)
        /\ dict_get "setting" (w_event w) = Some setting
        /\ (if String.eqb name "timezone" then isinstance setting CStr = true
            else exists t, UserProfile_property_types !! name = Some t
                           /\ isinstance_of setting t = true)
        /\ dict_mem "language_name" (w_event w)
           = String.eqb name "default_language")
  /\ (succeeds (check_user_settings_update EventUserSettingsUpdate
                  UserProfile_property_types var_name) w <->
      validate_with_model (VDict (w_event w)) EventUserSettingsUpdate
      = Return tt
      /\ exists name value,
           dict_get "property" (w_event w) = Some (VStr name)
           /\ dict_get "value" (w_event w) = Some value
           /\ (if String.eqb name "timezone" then isinstance value CStr = true
               else exists t,
                   UserProfile_property_types !! name = Some t
                   /\ match t with
                      | PEnum members =>
                          exists s, value = VStr s /\ In s members
                      | _ => isinstance_of value t = true
                      end)
           /\ dict_mem "language_name" (w_event w)
              = String.eqb name "default_language").
Proof.
  split.
  - apply check_update_display_settings_iff.
  - apply check_user_settings_update_iff.
Qed.

Lemma settings_checkers_exactly_witness :
  succeeds
    (check_user_settings_update FixturesRest.EventUserSettingsUpdate
       FixturesRest.UserProfile_property_types "events[0]")
    (Fixtures.world_of
       [("id", VInt 0); ("type", VStr "user_settings"); ("op", VStr "update");
        ("property", VStr "default_language"); ("value", VStr "de");
        ("language_name", VStr "Deutsch")]).
Proof.
  apply (proj2 (proj2 (settings_checkers_exactly
    FixturesRest.EventUpdateDisplaySettings
    FixturesRest.EventUserSettingsUpdate
    FixturesRest.UserProfile_property_types "events[0]" _))).
  split; [vm_compute; reflexivity|].
  exists "default_language", (VStr "de").
  split; [reflexivity|]. split; [reflexivity|]. split; [|reflexivity].
  exists (PClass CStr). split; [vm_compute; reflexivity | reflexivity].
Defined.

(** X15.  The two settings checkers part on a setting whose catalog type is
    an enumeration: [check_update_display_settings] tests the value with
    [isinstance] against the enum class and rejects every event for such a
    setting, while [check_user_settings_update] accepts the names of the
    members. *)
Theorem enum_settings_differ
    (EventUpdateDisplaySettings EventUserSettingsUpdate : model)
    (UserProfile_property_types : gmap string property_type)
    (var_name name : string) (members : list string) (w : world) :
  name <> "timezone" ->
  UserProfile_property_types !! name = Some (PEnum members) ->
  (dict_get "setting_name" (w_event w) = Some (VStr name) ->
   fails (check_update_display_settings EventUpdateDisplaySettings
            UserProfile_property_types var_name) w)
  /\ (forall value,
         validate_with_model (VDict (w_event w)) EventUserSettingsUpdate
         = Return tt ->
         dict_get "property" (w_event w) = Some (VStr name) ->
         dict_get "value" (w_event w) = Some value ->
         dict_mem "language_name" (w_event w)
         = String.eqb name "default_language" ->
         (succeeds (check_user_settings_update EventUserSettingsUpdate
                      UserProfile_property_types var_name) w <->
          exists s, value = VStr s /\ In s members)).
Proof.
  intros Hne Hcat. apply String.eqb_neq in Hne. split.
  - intros Hname. apply fails_not_succeeds. intros Hok.
    apply check_update_display_settings_iff in Hok.
    destruct Hok as (_ & name' & setting & Hname' & _ & Hty & _).
    rewrite Hname in Hname'. injection Hname' as <-.
    rewrite Hne in Hty. destruct Hty as (t & Hcat' & Hty).
    rewrite Hcat in Hcat'. injection Hcat' as <-. discriminate.
  - intros value Hbase Hname Hvalue Hlang.
    rewrite check_user_settings_update_iff. split.
    + intros (_ & name' & value' & Hname' & Hvalue' & Hty & _).
      rewrite Hname in Hname'. injection Hname' as <-.
      rewrite Hvalue in Hvalue'. injection Hvalue' as <-.
      rewrite Hne in Hty. destruct Hty as (t & Hcat' & Hty).
      rewrite Hcat in Hcat'. injection Hcat' as <-. exact Hty.
    + intros Hmem. split; [exact Hbase|]. exists name, value.
      split; [exact Hname|]. split; [exact Hvalue|]. split; [|exact Hlang].
      rewrite Hne. eauto.
Qed.

Lemma enum_settings_differ_witness :
  fails
    (check_update_display_settings FixturesRest.EventUpdateDisplaySettings
       FixturesRest.UserProfile_property_types "events[0]")
    (Fixtures.world_of
       [("id", VInt 0); ("type", VStr "update_display_settings");
        ("setting_name", VStr "web_channel_default_view");
        ("setting", VStr "TOPIC_LIST"); ("user", VStr "iago@zulip.com")]).
Proof.
  refine (proj1 (enum_settings_differ FixturesRest.EventUpdateDisplaySettings
    FixturesRest.EventUserSettingsUpdate
    FixturesRest.UserProfile_property_types "events[0]"
    "web_channel_default_view" ["CHANNEL_FEED"; "TOPIC_LIST"] _ _ _) _).
  - discriminate.
  - vm_compute. reflexivity.
  - reflexivity.
Defined.

(** Two binds of one computation agree when their continuations agree on
    what it returns. *)
Lemma bind_ext {A B} (c : M A) (k k' : A -> M B) (w : world) :
  (forall a w', c w = (inr a, w') -> k a w' = k' a w') ->
  (c ≫= k) w = (c ≫= k') w.
Proof.
  intros H. rewrite !bind_run. destruct (c w) as [[e|a] w']; [reflexivity|].
  apply H. reflexivity.
Qed.

(** X16.  For the setting ["timezone"] neither settings checker reads the
    catalog: the run is the same whatever [UserProfile.property_types]
    holds. *)
Theorem timezone_bypasses_catalog
    (EventUpdateDisplaySettings EventUserSettingsUpdate : model)
    (catalog catalog' : gmap string property_type)
    (var_name : string) (w : world) :
  (dict_get "setting_name" (w_event w) = Some (VStr "timezone") ->
   check_update_display_settings EventUpdateDisplaySettings catalog var_name w
   = check_update_display_settings EventUpdateDisplaySettings catalog'
       var_name w)
  /\ (dict_get "property" (w_event w) = Some (VStr "timezone") ->
      check_user_settings_update EventUserSettingsUpdate catalog var_name w
      = check_user_settings_update EventUserSettingsUpdate catalog' var_name
          w).
Proof.
  split; intros Hname.
  - unfold check_update_display_settings, _check_update_display_settings.
    apply bind_ext. intros [] w1 Hm.
    apply make_checker_inr in Hm. destruct Hm as [_ ->].
    apply bind_ext. intros name w1 Hn.
    apply event_getitem_inr in Hn. destruct Hn as [Hn ->].
    rewrite Hname in Hn. injection Hn as <-.
    apply bind_ext. intros setting w1 _.
    apply bind_ext. intros [] w2 _. reflexivity.
  - unfold check_user_settings_update, _check_user_settings_update.
    apply bind_ext. intros [] w1 Hm.
    apply make_checker_inr in Hm. destruct Hm as [_ ->].
    apply bind_ext. intros name w1 Hn.
    apply event_getitem_inr in Hn. destruct Hn as [Hn ->].
    rewrite Hname in Hn. injection Hn as <-.
    apply bind_ext. intros value w1 _.
    apply bind_ext. intros [] w2 _. reflexivity.
Qed.

Lemma timezone_bypasses_catalog_witness :
  let w := Fixtures.world_of
             [("id", VInt 0); ("type", VStr "update_display_settings");
              ("setting_name", VStr "timezone");
              ("setting", VStr "Europe/Berlin");
              ("user", VStr "iago@zulip.com")] in
  check_update_display_settings FixturesRest.EventUpdateDisplaySettings
    FixturesRest.UserProfile_property_types "events[0]" w
  = check_update_display_settings FixturesRest.EventUpdateDisplaySettings
      ∅ "events[0]" w.
Proof.
  intros w.
  apply (proj1 (timezone_bypasses_catalog
    FixturesRest.EventUpdateDisplaySettings
    FixturesRest.EventUserSettingsUpdate
    FixturesRest.UserProfile_property_types ∅ "events[0]" w)).
  reflexivity.
Defined.

(** X17.  [check_update_global_notifications] accepts an event exactly when
    it passes the schema check, its [setting] equals [desired_val], its
    [notification_name] is a string in
    [UserProfile.notification_settings_legacy], and the setting is an
    instance of the type held there.  A setting other than the desired one
    fails the first assertion whatever the name; an unknown name then raises
    [KeyError]. *)
Theorem check_update_global_notifications_exactly
    (EventUpdateGlobalNotifications : model)
    (notification_settings_legacy : gmap string property_type)
    (var_name : string) (desired_val : pyval) (w : world) :
  let check :=
    check_update_global_notifications EventUpdateGlobalNotifications
      notification_settings_legacy var_name desired_val in
  (succeeds check w <->
   validate_with_model (VDict (w_event w)) EventUpdateGlobalNotifications
   = Return tt
   /\ exists name setting t,
        dict_get "notification_name" (w_event w) = Some (VStr name)
        /\ dict_get "setting" (w_event w) = Some setting
        /\ py_eq setting desired_val = true
        /\ notification_settings_legacy !! name = Some t
        /\ isinstance_of setting t = true)
  /\ (forall name setting,
         validate_with_model (VDict (w_event w))
           EventUpdateGlobalNotifications = Return tt ->
         dict_get "notification_name" (w_event w) = Some name ->
         dict_get "setting" (w_event w) = Some setting ->
         (py_eq setting desired_val = false ->
          check w = (Raise (AssertionError ""), w))
         /\ (forall s, py_eq setting desired_val = true -> name = VStr s ->
             notification_settings_legacy !! s = None ->
             check w = (Raise (KeyError s), w))).
Proof.
  intros check. subst check. split; [split|].
  - intros Hok. apply succeeds_run in Hok. destruct Hok as ([] & w' & Hok).
    unfold check_update_global_notifications,
      _check_update_global_notifications in Hok.
    run_inv.
    match goal with
    | H : isinstance ?v CStr = true |- _ =>
        apply isinstance_str in H; destruct H as (name & ->)
    end.
    match goal with
    | H : catalog_getitem_obj _ _ = inr _ |- _ =>
        unfold catalog_getitem_obj, catalog_getitem in H; simpl in H;
        destruct (notification_settings_legacy !! name) eqn:Hcat;
        [injection H as ->|discriminate H]
    end.
    split; [assumption|]. do 3 eexists.
    repeat (split; [eassumption|]). assumption.
  - intros (Hbase & name & setting & t & Hname & Hsetting & Heq & Hcat & Hty).
    apply succeeds_run. exists tt, w.
    unfold check_update_global_notifications,
      _check_update_global_notifications.
    run_fwd. rewrite Heq. run_fwd.
    change (isinstance (VStr name) CStr) with true. run_fwd.
    unfold catalog_getitem_obj, catalog_getitem. simpl py_hashable. cbv iota.
    rewrite Hcat. run_fwd. rewrite Hty. reflexivity.
  - intros name setting Hbase Hname Hsetting. split.
    + intros Hne.
      unfold check_update_global_notifications,
        _check_update_global_notifications.
      run_fwd. rewrite Hne. reflexivity.
    + intros s Heq -> Hcat.
      unfold check_update_global_notifications,
        _check_update_global_notifications.
      run_fwd. rewrite Heq. run_fwd.
      change (isinstance (VStr s) CStr) with true. run_fwd.
      unfold catalog_getitem_obj, catalog_getitem. simpl py_hashable.
      cbv iota. rewrite Hcat. reflexivity.
Qed.

Lemma check_update_global_notifications_exactly_witness :
  succeeds
    (check_update_global_notifications
       FixturesRest.EventUpdateGlobalNotifications
       FixturesRest.notification_settings_legacy "events[0]" (VBool false))
    (Fixtures.world_of
       [("id", VInt 0); ("type", VStr "update_global_notifications");
        ("notification_name", VStr "enable_sounds");
        ("setting", VBool false); ("user", VStr "iago@zulip.com")]).
Proof.
  apply (proj2 (proj1 (check_update_global_notifications_exactly
    FixturesRest.EventUpdateGlobalNotifications
    FixturesRest.notification_settings_legacy "events[0]" (VBool false) _))).
  split; [vm_compute; reflexivity|].
  exists "enable_sounds", (VBool false), (PClass CBool).
  split; [reflexivity|]. split; [reflexivity|]. split; [reflexivity|].
  split; [vm_compute; reflexivity | reflexivity].
Defined.

(* ===================================================================== *)
(** ** [check_stream_update] *)
(* ===================================================================== *)

Lemma py_eq_not_str (v : pyval) (s : string) :
  (forall t, v <> VStr t) -> py_eq v (VStr s) = false.
Proof.
  intros H. apply not_true_is_false. rewrite py_eq_str_r. apply H.
Qed.

Section StreamUpdate.

Variable (EventStreamUpdate : model).
Variable (STREAM_POST_POLICY_TYPES : list Z).
Variable (stream_permission_group_settings : list string).
Variable (UserGroupMembersDict_annotations : list string).
Variable (StreamTopicsPolicyEnum : list string).

Local Abbreviation check :=
  (check_stream_update EventStreamUpdate STREAM_POST_POLICY_TYPES
     stream_permission_group_settings UserGroupMembersDict_annotations
     StreamTopicsPolicyEnum).

(** The dispatch of [check_stream_update] on a property that is the string
    [s], with the tests on [s] decided on strings. *)
Local Abbreviation dispatch s value extra_keys :=
  (if String.eqb s "description" then
     py_assert (bool_decide (extra_keys = {[ "rendered_description" ]}));;
     py_assert (isinstance value CStr)
   else if String.eqb s "invite_only" then
     py_assert (bool_decide
                  (extra_keys
                   = {[ "history_public_to_subscribers"; "is_web_public" ]}));;
     py_assert (isinstance value CBool)
   else if String.eqb s "message_retention_days" then
     py_assert (bool_decide (extra_keys = ∅));;
     if negb (is_none value) then py_assert (isinstance value CInt)
     else mret tt
   else if String.eqb s "name" then
     py_assert (bool_decide (extra_keys = ∅));;
     py_assert (isinstance value CStr)
   else if String.eqb s "stream_post_policy" then
     py_assert (bool_decide (extra_keys = ∅));;
     py_assert (py_in_list value (map VInt STREAM_POST_POLICY_TYPES))
   else if str_in s stream_permission_group_settings then
     py_assert (bool_decide (extra_keys = ∅));;
     py_assert (isinstance value CInt || isinstance value CDict);;
     if isinstance value CDict then
       keys ← lift (py_keys value);
       py_assert
         (bool_decide
            ((list_to_set UserGroupMembersDict_annotations : gset string)
             = keys))
     else mret tt
   else if String.eqb s "first_message_id" then
     py_assert (bool_decide (extra_keys = ∅));;
     py_assert (isinstance value CInt)
   else if String.eqb s "topics_policy" then
     py_assert (bool_decide (extra_keys = ∅));;
     py_assert (py_in_list value (map VStr StreamTopicsPolicyEnum))
   else if String.eqb s "is_recently_active" then
     py_assert (bool_decide (extra_keys = ∅));;
     py_assert (isinstance value CBool)
   else if String.eqb s "is_announcement_only" then
     py_assert (bool_decide (extra_keys = ∅));;
     py_assert (isinstance value CBool)
   else if String.eqb s "is_archived" then
     py_assert (bool_decide (extra_keys = ∅));;
     py_assert (isinstance value CBool)
   else if String.eqb s "folder_id" then
     py_assert (bool_decide (extra_keys = ∅));;
     py_assert (is_none value || isinstance value CInt)
   else
     raise (AssertionError ("Unknown property: " ++ s))).

Lemma check_stream_update_run (var_name s : string) (value : pyval)
    (w : world) :
  validate_with_model (VDict (w_event w)) EventStreamUpdate = Return tt ->
  dict_get "property" (w_event w) = Some (VStr s) ->
  dict_get "value" (w_event w) = Some value ->
  check var_name w
  = dispatch s value (dict_keys (w_event w) ∖ stream_update_keys) w.
Proof.
  intros Hbase Hprop Hvalue. unfold check_stream_update, _check_stream_update.
  run_fwd. cbv zeta. cbn [py_eq].
  destruct (String.eqb s "description"); [reflexivity|].
  destruct (String.eqb s "invite_only"); [reflexivity|].
  destruct (String.eqb s "message_retention_days"); [reflexivity|].
  destruct (String.eqb s "name"); [reflexivity|].
  destruct (String.eqb s "stream_post_policy"); [reflexivity|].
  unfold py_in_keys. simpl py_hashable. cbv iota. run_fwd.
  destruct (str_in s stream_permission_group_settings); reflexivity.
Qed.

(** A property that is not a string is never accepted. *)
Lemma check_stream_update_not_str (var_name : string) (prop value : pyval)
    (w : world) :
  validate_with_model (VDict (w_event w)) EventStreamUpdate = Return tt ->
  dict_get "property" (w_event w) = Some prop ->
  dict_get "value" (w_event w) = Some value ->
  (forall t, prop <> VStr t) ->
  check var_name w
  = (if py_hashable prop
     then Raise (AssertionError ("Unknown property: " ++ py_str prop))
     else Raise TypeError, w).
Proof.
  intros Hbase Hprop Hvalue Hns.
  unfold check_stream_update, _check_stream_update.
  run_fwd. cbv zeta. rewrite !(py_eq_not_str _ _ Hns).
  unfold py_in_keys. destruct (py_hashable prop); [|reflexivity].
  destruct prop; try (run_fwd; reflexivity).
  exfalso. exact (Hns _ eq_refl).
Qed.

Lemma check_stream_update_inv (var_name : string) (w : world) :
  succeeds (check var_name) w ->
  validate_with_model (VDict (w_event w)) EventStreamUpdate = Return tt
  /\ exists s value,
       dict_get "property" (w_event w) = Some (VStr s)
       /\ dict_get "value" (w_event w) = Some value.
Proof.
  intros Hok. pose proof Hok as Hok'.
  apply succeeds_run in Hok. destruct Hok as ([] & w' & Hok).
  unfold check_stream_update, _check_stream_update in Hok.
  apply bind_inr in Hok. destruct Hok as ([] & w1 & Hbase & Hok).
  apply make_checker_inr in Hbase. destruct Hbase as [Hbase ->].
  apply bind_inr in Hok. destruct Hok as (prop & w1 & Hprop & Hok).
  apply event_getitem_inr in Hprop. destruct Hprop as [Hprop ->].
  apply bind_inr in Hok. destruct Hok as (value & w1 & Hvalue & Hok).
  apply event_getitem_inr in Hvalue. destruct Hvalue as [Hvalue ->].
  split; [exact Hbase|].
  assert (Hstr : exists t, prop = VStr t).
  { destruct prop; eauto; exfalso;
      apply succeeds_run in Hok'; destruct Hok' as ([] & w2 & Hok');
      rewrite (check_stream_update_not_str _ _ _ _ Hbase Hprop Hvalue)
        in Hok' by discriminate;
      match type of Hok' with
      | context [py_hashable ?p] => destruct (py_hashable p)
      end; discriminate. }
  destruct Hstr as (s & ->). eauto.
Qed.

End StreamUpdate.

(** Head of the dispatch in a hypothesis, decided case by case. *)
Ltac dispatch_cases H :=
  repeat match type of H with
  | (if ?b then _ else _) _ = _ => destruct b eqn:?
  end.

(** X18.  An event [check_stream_update] accepts has a string property, and
    its keys beyond the ten every stream update may have are fixed by the
    property: [rendered_description] for ["description"],
    [history_public_to_subscribers] and [is_web_public] for ["invite_only"],
    and none for any other property. *)
Theorem check_stream_update_extra_keys
    (EventStreamUpdate : model) (STREAM_POST_POLICY_TYPES : list Z)
    (stream_permission_group_settings UserGroupMembersDict_annotations
     StreamTopicsPolicyEnum : list string)
    (var_name : string) (w : world) :
  succeeds (check_stream_update EventStreamUpdate STREAM_POST_POLICY_TYPES
              stream_permission_group_settings
              UserGroupMembersDict_annotations StreamTopicsPolicyEnum
              var_name) w ->
  exists s,
    dict_get "property" (w_event w) = Some (VStr s)
    /\ dict_keys (w_event w) ∖ stream_update_keys =
       if String.eqb s "description" then {[ "rendered_description" ]}
       else if String.eqb s "invite_only"
            then {[ "history_public_to_subscribers"; "is_web_public" ]}
            else ∅.
Proof.
  intros Hok. pose proof (check_stream_update_inv _ _ _ _ _ _ _ Hok) as Hinv.
  destruct Hinv as (Hbase & s & value & Hprop & Hvalue).
  exists s. split; [exact Hprop|].
  apply succeeds_run in Hok. destruct Hok as ([] & w' & Hok).
  rewrite (check_stream_update_run _ _ _ _ _ _ _ _ _ Hbase Hprop Hvalue)
    in Hok.
  dispatch_cases Hok;
    try (apply bind_inr in Hok; destruct Hok as ([] & w1 & Hkeys & _);
         apply py_assert_inr in Hkeys; destruct Hkeys as [Hkeys _];
         apply bool_decide_eq_true_1 in Hkeys; exact Hkeys).
  discriminate.
Qed.

Lemma check_stream_update_extra_keys_witness :
  dict_keys
    [("id", VInt 0); ("type", VStr "stream"); ("op", VStr "update");
     ("property", VStr "description"); ("value", VStr "Lunch plans");
     ("name", VStr "lunch"); ("stream_id", VInt 5);
     ("rendered_description", VStr "<p>Lunch plans</p>")]
  ∖ stream_update_keys = {[ "rendered_description" ]}.
Proof.
  destruct (check_stream_update_extra_keys FixturesRest.EventStreamUpdate
    FixturesRest.STREAM_POST_POLICY_TYPES
    FixturesRest.stream_permission_group_settings
    FixturesRest.UserGroupMembersDict_annotations
    FixturesRest.StreamTopicsPolicyEnum "events[0]"
    (Fixtures.world_of
       [("id", VInt 0); ("type", VStr "stream"); ("op", VStr "update");
        ("property", VStr "description"); ("value", VStr "Lunch plans");
        ("name", VStr "lunch"); ("stream_id", VInt 5);
        ("rendered_description", VStr "<p>Lunch plans</p>")]))
    as (s & Hs & Hkeys).
  - exists tt. vm_compute. reflexivity.
  - injection Hs as <-. exact Hkeys.
Defined.

(** The names the dispatch of [check_stream_update] compares the property
    with. *)
Lemma named_properties_eqb (s : string) :
  ~ In s [ "description"; "invite_only"; "message_retention_days"; "name";
           "stream_post_policy"; "first_message_id"; "topics_policy";
           "is_recently_active"; "is_announcement_only"; "is_archived";
           "folder_id" ] ->
  String.eqb s "description" = false
  /\ String.eqb s "invite_only" = false
  /\ String.eqb s "message_retention_days" = false
  /\ String.eqb s "name" = false
  /\ String.eqb s "stream_post_policy" = false
  /\ String.eqb s "first_message_id" = false
  /\ String.eqb s "topics_policy" = false
  /\ String.eqb s "is_recently_active" = false
  /\ String.eqb s "is_announcement_only" = false
  /\ String.eqb s "is_archived" = false
  /\ String.eqb s "folder_id" = false.
Proof.
  intros Hnin.
  repeat split; apply String.eqb_neq; intros ->; apply Hnin; simpl; tauto.
Qed.



Lemma two_asserts_run (P : Prop) `{Decision P} (b : bool) (w : world) :
  succeeds (py_assert (bool_decide P);; py_assert b) w <-> P /\ b = true.
Proof.
  rewrite succeeds_run. split.
  - intros ([] & w' & H0). run_inv. norm_hyps. auto.
  - intros [HP ->]. exists tt, w. rewrite bool_decide_eq_true_2 by exact HP.
    reflexivity.
Qed.

Lemma py_in_list_ints (value : pyval) (ps : list Z) :
  py_in_list value (map VInt ps) = true <->
  exists p, In p ps /\ as_number value = Some p.
Proof.
  unfold py_in_list. rewrite existsb_exists. split.
  - intros (item & Hin & Heq). apply in_map_iff in Hin.
    destruct Hin as (p & <- & Hp). exists p. split; [exact Hp|].
    simpl in Heq. destruct (as_number value) as [m|]; [|discriminate].
    apply Z.eqb_eq in Heq. congruence.
  - intros (p & Hp & Hnum). exists (VInt p). split; [apply in_map, Hp|].
    simpl. rewrite Hnum. apply Z.eqb_refl.
Qed.

Lemma py_in_list_strs (value : pyval) (names : list string) :
  py_in_list value (map VStr names) = true <->
  exists n, In n names /\ value = VStr n.
Proof.
  unfold py_in_list. rewrite existsb_exists. split.
  - intros (item & Hin & Heq). apply in_map_iff in Hin.
    destruct Hin as (n & <- & Hn). exists n. split; [exact Hn|].
    apply py_eq_str_l. exact Heq.
  - intros (n & Hn & ->). exists (VStr n). split; [apply in_map, Hn|].
    apply py_eq_str_l. reflexivity.
Qed.

(** X20.  For a permission-group setting of a stream that none of the five
    properties tested before it shadows, [check_stream_update] accepts an
    event that passes the schema check exactly when the event has no extra
    key and the value is an [int] instance or a dictionary whose keys are
    those of [UserGroupMembersDict]. *)
Theorem check_stream_update_group_setting
    (EventStreamUpdate : model) (STREAM_POST_POLICY_TYPES : list Z)
    (stream_permission_group_settings UserGroupMembersDict_annotations
     StreamTopicsPolicyEnum : list string)
    (var_name s : string) (w : world) (value : pyval) :
  validate_with_model (VDict (w_event w)) EventStreamUpdate = Return tt ->
  dict_get "property" (w_event w) = Some (VStr s) ->
  dict_get "value" (w_event w) = Some value ->
  In s stream_permission_group_settings ->
  ~ In s [ "description"; "invite_only"; "message_retention_days"; "name";
           "stream_post_policy" ] ->
  succeeds (check_stream_update EventStreamUpdate STREAM_POST_POLICY_TYPES
              stream_permission_group_settings
              UserGroupMembersDict_annotations StreamTopicsPolicyEnum
              var_name) w <->
  dict_keys (w_event w) ∖ stream_update_keys = ∅
  /\ (isinstance value CInt = true
      \/ exists members,
           value = VDict members
           /\ dict_keys members
              = list_to_set UserGroupMembersDict_annotations).
Proof.
  intros Hbase Hprop Hvalue Hgroup Hnamed.
  rewrite succeeds_run,
    (check_stream_update_run _ _ _ _ _ _ _ _ _ Hbase Hprop Hvalue).
  assert (Hne : forall n,
             In n [ "description"; "invite_only"; "message_retention_days";
                    "name"; "stream_post_policy" ] ->
             String.eqb s n = false).
  { intros n Hn. apply String.eqb_neq. intros ->. contradiction. }
  rewrite !Hne by (simpl; tauto).
  rewrite (proj2 (str_in_In _ _) Hgroup).
  split.
  - intros ([] & w' & H0). run_inv. norm_hyps. split; [assumption|].
    destruct value as [| | | | | |members];
      try (left; reflexivity);
      try match goal with
          | H : isinstance _ CInt || isinstance _ CDict = true |- _ =>
              discriminate H
          end.
    right. exists members. split; [reflexivity|].
    change (isinstance (VDict members) CDict) with true in H0.
    cbv iota in H0. run_inv. norm_hyps.
    match goal with H : py_keys _ = inr _ |- _ => injection H as <- end.
    symmetry. assumption.
  - intros [Hkeys Hty]. exists tt, w.
    rewrite bool_decide_eq_true_2 by exact Hkeys. run_fwd.
    destruct Hty as [Hint | (members & -> & Hmem)].
    + rewrite Hint. simpl orb. run_fwd.
      destruct value; try discriminate Hint; reflexivity.
    + simpl. run_fwd.
      rewrite bool_decide_eq_true_2 by (symmetry; exact Hmem). reflexivity.
Qed.

Lemma check_stream_update_group_setting_witness :
  succeeds
    (check_stream_update FixturesRest.EventStreamUpdate
       FixturesRest.STREAM_POST_POLICY_TYPES
       FixturesRest.stream_permission_group_settings
       FixturesRest.UserGroupMembersDict_annotations
       FixturesRest.StreamTopicsPolicyEnum "events[0]")
    (Fixtures.world_of
       [("id", VInt 0); ("type", VStr "stream"); ("op", VStr "update");
        ("property", VStr "can_send_message_group");
        ("value", VDict [("direct_members", VList [VInt 7]);
                         ("direct_subgroups", VList [])]);
        ("name", VStr "lunch"); ("stream_id", VInt 5)]).
Proof.
  match goal with |- succeeds _ ?w0 => set (w := w0) end.
  refine (proj2 (check_stream_update_group_setting
    FixturesRest.EventStreamUpdate FixturesRest.STREAM_POST_POLICY_TYPES
    FixturesRest.stream_permission_group_settings
    FixturesRest.UserGroupMembersDict_annotations
    FixturesRest.StreamTopicsPolicyEnum "events[0]" "can_send_message_group"
    w (VDict [("direct_members", VList [VInt 7]);
              ("direct_subgroups", VList [])])
    _ eq_refl eq_refl _ _) _).
  - vm_compute. reflexivity.
  - simpl. tauto.
  - simpl. intros H. repeat destruct H as [H|H]; try discriminate H; exact H.
  - split; [decide_by_compute|]. right. eexists. split; [reflexivity|].
    decide_by_compute.
Defined.

(** Comparisons of two string constants, evaluated. *)
Ltac eval_str_eqb :=
  repeat match goal with
  | |- context [String.eqb ?a ?b] =>
      let r := eval vm_compute in (String.eqb a b) in
      change (String.eqb a b) with r
  end; cbv iota.

Lemma is_none_true (v : pyval) : is_none v = true <-> v = VNone.
Proof. destruct v; simpl; split; congruence. Qed.

Lemma succeeds_eq {A} (c c' : M A) (w : world) :
  c w = c' w -> succeeds c w <-> succeeds c' w.
Proof. unfold succeeds. intros ->. tauto. Qed.

(** X21.  Which stream properties take [None], on an event that passes the
    schema check: for ["message_retention_days"] and ["folder_id"],
    [check_stream_update] accepts the event exactly when it has no extra key
    and the value is [None] or an [int] instance; for ["first_message_id"]
    the value must be an [int] instance, and [None] is rejected. *)
Theorem check_stream_update_nullable
    (EventStreamUpdate : model) (STREAM_POST_POLICY_TYPES : list Z)
    (stream_permission_group_settings UserGroupMembersDict_annotations
     StreamTopicsPolicyEnum : list string)
    (var_name s : string) (w : world) (value : pyval) :
  let check :=
    check_stream_update EventStreamUpdate STREAM_POST_POLICY_TYPES
      stream_permission_group_settings UserGroupMembersDict_annotations
      StreamTopicsPolicyEnum var_name in
  let no_extra_key := dict_keys (w_event w) ∖ stream_update_keys = ∅ in
  validate_with_model (VDict (w_event w)) EventStreamUpdate = Return tt ->
  dict_get "property" (w_event w) = Some (VStr s) ->
  dict_get "value" (w_event w) = Some value ->
  (s = "message_retention_days" ->
   succeeds check w <->
   no_extra_key /\ (value = VNone \/ isinstance value CInt = true))
  /\ (~ In s stream_permission_group_settings ->
      (s = "folder_id" ->
       succeeds check w <->
       no_extra_key /\ (value = VNone \/ isinstance value CInt = true))
      /\ (s = "first_message_id" ->
          (succeeds check w <-> no_extra_key /\ isinstance value CInt = true)
          /\ (value = VNone -> fails check w))).
Proof.
  intros check no_extra_key Hbase Hprop Hvalue. subst check no_extra_key.
  pose proof (check_stream_update_run EventStreamUpdate
                STREAM_POST_POLICY_TYPES stream_permission_group_settings
                UserGroupMembersDict_annotations StreamTopicsPolicyEnum
                var_name s value w Hbase Hprop Hvalue) as Hrun.
  split.
  - intros ->. rewrite (succeeds_eq _ _ _ Hrun). eval_str_eqb.
    rewrite succeeds_run. split.
    + intros ([] & w' & H0). run_inv. norm_hyps. split; [assumption|].
      destruct value; simpl in H0; run_inv; auto.
    + intros [Hkeys Hty]. exists tt, w.
      rewrite bool_decide_eq_true_2 by exact Hkeys. run_fwd.
      destruct Hty as [-> | Hty]; [reflexivity|].
      destruct value; try discriminate Hty; reflexivity.
  - intros Hgroup.
    assert (Hno : str_in s stream_permission_group_settings = false).
    { apply not_true_is_false. rewrite str_in_In. exact Hgroup. }
    split.
    + intros ->. rewrite (succeeds_eq _ _ _ Hrun), Hno. eval_str_eqb.
      rewrite two_asserts_run, orb_true_iff, is_none_true. tauto.
    + intros ->.
      assert (Hiff :
        succeeds (check_stream_update EventStreamUpdate
                    STREAM_POST_POLICY_TYPES stream_permission_group_settings
                    UserGroupMembersDict_annotations StreamTopicsPolicyEnum
                    var_name) w <->
        dict_keys (w_event w) ∖ stream_update_keys = ∅
        /\ isinstance value CInt = true).
      { rewrite (succeeds_eq _ _ _ Hrun), Hno. eval_str_eqb.
        apply two_asserts_run. }
      split; [exact Hiff|].
      intros ->. apply fails_not_succeeds. intros Hok. apply Hiff in Hok.
      destruct Hok as [_ Hty]. discriminate.
Qed.

Lemma check_stream_update_nullable_witness :
  succeeds
    (check_stream_update FixturesRest.EventStreamUpdate
       FixturesRest.STREAM_POST_POLICY_TYPES
       FixturesRest.stream_permission_group_settings
       FixturesRest.UserGroupMembersDict_annotations
       FixturesRest.StreamTopicsPolicyEnum "events[0]")
    (Fixtures.world_of
       [("id", VInt 0); ("type", VStr "stream"); ("op", VStr "update");
        ("property", VStr "message_retention_days"); ("value", VNone);
        ("name", VStr "lunch"); ("stream_id", VInt 5)]).
Proof.
  match goal with |- succeeds _ ?w0 => set (w := w0) end.
  refine (proj2 (proj1 (check_stream_update_nullable
    FixturesRest.EventStreamUpdate FixturesRest.STREAM_POST_POLICY_TYPES
    FixturesRest.stream_permission_group_settings
    FixturesRest.UserGroupMembersDict_annotations
    FixturesRest.StreamTopicsPolicyEnum "events[0]" "message_retention_days"
    w VNone _ eq_refl eq_refl) eq_refl) _).
  - vm_compute. reflexivity.
  - split; [decide_by_compute | left; reflexivity].
Defined.

(** X22.  The two stream properties checked against an enumeration, on an
    event that passes the schema check: for ["stream_post_policy"] the value
    must equal, by [==], one of [Stream.STREAM_POST_POLICY_TYPES], so the
    integer or the boolean of that number; for ["topics_policy"] it must be
    the name of a member of [StreamTopicsPolicyEnum]. *)
Theorem check_stream_update_policies
    (EventStreamUpdate : model) (STREAM_POST_POLICY_TYPES : list Z)
    (stream_permission_group_settings UserGroupMembersDict_annotations
     StreamTopicsPolicyEnum : list string)
    (var_name s : string) (w : world) (value : pyval) :
  let check :=
    check_stream_update EventStreamUpdate STREAM_POST_POLICY_TYPES
      stream_permission_group_settings UserGroupMembersDict_annotations
      StreamTopicsPolicyEnum var_name in
  let no_extra_key := dict_keys (w_event w) ∖ stream_update_keys = ∅ in
  validate_with_model (VDict (w_event w)) EventStreamUpdate = Return tt ->
  dict_get "property" (w_event w) = Some (VStr s) ->
  dict_get "value" (w_event w) = Some value ->
  (s = "stream_post_policy" ->
   succeeds check w <->
   no_extra_key
   /\ exists p, In p STREAM_POST_POLICY_TYPES /\ as_number value = Some p)
  /\ (~ In s stream_permission_group_settings ->
      s = "topics_policy" ->
      succeeds check w <->
      no_extra_key
      /\ exists n, In n StreamTopicsPolicyEnum /\ value = VStr n).
Proof.
  intros check no_extra_key Hbase Hprop Hvalue. subst check no_extra_key.
  pose proof (check_stream_update_run EventStreamUpdate
                STREAM_POST_POLICY_TYPES stream_permission_group_settings
                UserGroupMembersDict_annotations StreamTopicsPolicyEnum
                var_name s value w Hbase Hprop Hvalue) as Hrun.
  split.
  - intros ->. rewrite (succeeds_eq _ _ _ Hrun). eval_str_eqb.
    rewrite two_asserts_run, py_in_list_ints. tauto.
  - intros Hgroup ->.
    assert (Hno : str_in "topics_policy" stream_permission_group_settings
                  = false).
    { apply not_true_is_false. rewrite str_in_In. exact Hgroup. }
    rewrite (succeeds_eq _ _ _ Hrun), Hno. eval_str_eqb.
    rewrite two_asserts_run, py_in_list_strs. tauto.
Qed.

Lemma check_stream_update_policies_witness :
  succeeds
    (check_stream_update FixturesRest.EventStreamUpdate
       FixturesRest.STREAM_POST_POLICY_TYPES
       FixturesRest.stream_permission_group_settings
       FixturesRest.UserGroupMembersDict_annotations
       FixturesRest.StreamTopicsPolicyEnum "events[0]")
    (Fixtures.world_of
       [("id", VInt 0); ("type", VStr "stream"); ("op", VStr "update");
        ("property", VStr "stream_post_policy"); ("value", VInt 2);
        ("name", VStr "lunch"); ("stream_id", VInt 5)]).
Proof.
  match goal with |- succeeds _ ?w0 => set (w := w0) end.
  refine (proj2 (proj1 (check_stream_update_policies
    FixturesRest.EventStreamUpdate FixturesRest.STREAM_POST_POLICY_TYPES
    FixturesRest.stream_permission_group_settings
    FixturesRest.UserGroupMembersDict_annotations
    FixturesRest.StreamTopicsPolicyEnum "events[0]" "stream_post_policy"
    w (VInt 2) _ eq_refl eq_refl) eq_refl) _).
  - vm_compute. reflexivity.
  - split; [decide_by_compute|]. exists 2. split; [simpl; tauto | reflexivity].
Defined.
